(** * Data Portal access gate: rate limiter, x402 payment check, volume ledger

    A shallow embedding of the three core pieces of the data portal
    ([auth.py], [pricing.py], [volume_tracker.py]) together with the
    properties that its design document states about them.

    Conventions of the embedding:
    - a Python [int] is a [Z]; a Python [float] (clock readings of
      [time.monotonic()], USD amounts) is an exact rational [Q];
    - a timezone-aware [datetime] is a [Z] counting microseconds since the
      Unix epoch, a [timedelta] is a [Z] of microseconds;
    - every clock reading that the code takes with [now()] or
      [monotonic()] is an explicit argument;
    - a [dict] keyed by strings is a [gmap string _]; a Firestore collection
      is a [gmap] from document ids to documents;
    - code that can raise returns [exc _]; a [try/except] is a match on it. *)

From Stdlib Require Import ZArith QArith Qabs Ascii String List Sorted Lia Lqa.
From stdpp Require Import gmap strings list fin_maps pretty.

Local Open Scope string_scope.
Local Open Scope list_scope.
Local Open Scope Z_scope.

(** ** Python primitives shared by the modules *)

Module Py.

(** The exceptions that the code distinguishes in its handlers; [str(e)]
    is the carried message. *)
Inductive exn : Type :=
| TimeoutException (msg : string)
| ImportError (msg : string)
| ZeroDivisionError (msg : string)
| AttributeError (msg : string)
| OtherException (msg : string).

Definition str_exn (e : exn) : string :=
  match e with
  | TimeoutException m | ImportError m | ZeroDivisionError m
  | AttributeError m | OtherException m => m
  end.

Inductive exc (A : Type) : Type :=
| Ok (a : A)
| Raise (e : exn).
Arguments Ok {A} a.
Arguments Raise {A} e.

Definition bind {A B} (c : exc A) (k : A -> exc B) : exc B :=
  match c with
  | Ok a => k a
  | Raise e => Raise e
  end.

(** [x > y] on floats. *)
Definition Qgtb (x y : Q) : bool := negb (Qle_bool x y).

(** [x >= y] on floats. *)
Definition Qgeb (x y : Q) : bool := Qle_bool y x.

(** [str(n)] for an [int]. *)
Definition str_int (n : Z) : string := pretty n.

(** [s[:n]]. *)
Fixpoint str_take (n : nat) (s : string) : string :=
  match n, s with
  | O, _ => ""
  | S n', String c s' => String c (str_take n' s')
  | S _, EmptyString => ""
  end.

(** [needle in s] for strings. *)
Fixpoint str_contains (needle s : string) : bool :=
  if String.prefix needle s then true
  else match s with
       | EmptyString => false
       | String _ s' => str_contains needle s'
       end.

(** Microseconds per second and per day. *)
Definition usec : Z := 1000000.
Definition day_usec : Z := 86400 * usec.

(** [timedelta(seconds=s)] and [timedelta(days=d)]. *)
Definition timedelta_seconds (s : Z) : Z := s * usec.
Definition timedelta_days (d : Z) : Z := d * day_usec.

(** [int(dt.timestamp())]: whole seconds since the epoch, truncated
    towards zero. *)
Definition int_timestamp (dt : Z) : Z := Z.quot dt usec.

(** The proleptic Gregorian date of a day number counted from
    1970-01-01 (year, month, day). *)
Definition civil_from_days (days : Z) : Z * Z * Z :=
  let z := days + 719468 in
  let era := z / 146097 in
  let doe := z - era * 146097 in
  let yoe := (doe - doe / 1460 + doe / 36524 - doe / 146096) / 365 in
  let doy := doe - (365 * yoe + yoe / 4 - yoe / 100) in
  let mp := (5 * doy + 2) / 153 in
  let d := doy - (153 * mp + 2) / 5 + 1 in
  let m := if mp <? 10 then mp + 3 else mp - 9 in
  let y := yoe + era * 400 + (if m <=? 2 then 1 else 0) in
  (y, m, d).

Definition pad2 (n : Z) : string :=
  if n <? 10 then "0" +:+ str_int n else str_int n.

(** [dt.strftime("%Y-%m-%d")] for a UTC datetime (years 1000 to 9999,
    where the year prints with four digits). *)
Definition strftime_ymd (dt : Z) : string :=
  let '(y, m, d) := civil_from_days (dt / day_usec) in
  str_int y +:+ "-" +:+ pad2 m +:+ "-" +:+ pad2 d.

End Py.

Import Py.

(** ** The sliding-window limiter ([auth.py], class [RateLimiter]) *)

Module RateLimiter.

(** A counter document of the [rate_limits] collection. The code reads
    the counter with [data.get("count", 0)], so it may be missing. *)
Record rl_doc : Type := {
  rl_key : string;
  rl_count : option Z;
  rl_window : string;
  rl_created_at : Z;
  rl_expire_at : Z
}.

(** The instance: the process-local [defaultdict(list)] of admission
    times and the optional Firestore client, seen as the contents of its
    [rate_limits] collection. *)
Record limiter : Type := {
  _memory : gmap string (list Q);
  _db : option (gmap string rl_doc)
}.

(** [RateLimiter()]. *)
Definition init : limiter := {| _memory := ∅; _db := None |}.

(** [set_db]. *)
Definition set_db (db : gmap string rl_doc) (L : limiter) : limiter :=
  {| _memory := _memory L; _db := Some db |}.

(** Reading [d[key]] on a [defaultdict(list)]: a missing key is created
    with an empty list, and the dictionary keeps it. *)
Definition dd_get (m : gmap string (list Q)) (key : string)
  : list Q * gmap string (list Q) :=
  match m !! key with
  | Some l => (l, m)
  | None => ([], <[key := []]> m)
  end.

(** What a read of [d[key]] returns, without the side effect. *)
Definition dd_view (m : gmap string (list Q)) (key : string) : list Q :=
  default [] (m !! key).

(** The timestamps that [t > cutoff] retains. *)
Definition retain (cutoff : Q) (l : list Q) : list Q :=
  List.filter (fun t => Qgtb t cutoff) l.

(** The window label of [_check_firestore]: the UTC date for windows of a
    day or more, the index of the epoch bucket below that. *)
Definition window_key (window_seconds now : Z) : exc string :=
  if window_seconds >=? 86400 then Ok (strftime_ymd now)
  else if window_seconds =? 0
       then Raise (ZeroDivisionError "integer division or modulo by zero")
       else Ok (str_int (int_timestamp now / window_seconds)).

Definition doc_id (key wkey : string) : string := key +:+ ":" +:+ wkey.

Definition get_count (d : rl_doc) : Z := default 0 (rl_count d).

Definition set_count (d : rl_doc) (c : Z) : rl_doc :=
  {| rl_key := rl_key d; rl_count := Some c; rl_window := rl_window d;
     rl_created_at := rl_created_at d; rl_expire_at := rl_expire_at d |}.

(** The body of the transaction, [update_in_txn], on the document [ref]. *)
Definition update_in_txn (db : gmap string rl_doc) (ref key wkey : string)
    (max_requests window_seconds now : Z) : gmap string rl_doc * bool :=
  match db !! ref with
  | Some data =>
      let count := get_count data in
      if count >=? max_requests then (db, false)
      else (<[ref := set_count data (count + 1)]> db, true)
  | None =>
      let expire_at := now + timedelta_seconds (window_seconds + 3600) in
      (<[ref := {| rl_key := key; rl_count := Some 1; rl_window := wkey;
                   rl_created_at := now; rl_expire_at := expire_at |}]> db,
       true)
  end.

(** [_check_firestore]. [fault] is the error, if any, that the store
    raises while the transaction runs. *)
Definition _check_firestore (db : gmap string rl_doc) (fault : option exn)
    (key : string) (max_requests window_seconds now : Z)
  : exc (gmap string rl_doc * bool) :=
  bind (window_key window_seconds now) (fun wkey =>
    match fault with
    | Some e => Raise e
    | None => Ok (update_in_txn db (doc_id key wkey) key wkey
                    max_requests window_seconds now)
    end).

(** [_check_memory], at the monotonic clock reading [now]. *)
Definition _check_memory (mem : gmap string (list Q)) (key : string)
    (max_requests window_seconds : Z) (now : Q)
  : gmap string (list Q) * bool :=
  let cutoff := (now - inject_Z window_seconds)%Q in
  let '(old, mem1) := dd_get mem key in
  let mem2 := <[key := retain cutoff old]> mem1 in
  let '(cur, mem3) := dd_get mem2 key in
  if Z.of_nat (length cur) >=? max_requests then (mem3, false)
  else
    let '(cur', mem4) := dd_get mem3 key in
    (<[key := (cur' ++ [now])%list]> mem4, true).

(** [check]: the synchronous entry point, in-memory only. *)
Definition check (L : limiter) (key : string)
    (max_requests window_seconds : Z) (now : Q) : limiter * bool :=
  let '(mem, ok) := _check_memory (_memory L) key max_requests window_seconds now in
  ({| _memory := mem; _db := _db L |}, ok).

(** The clock readings and the store fault of one [check_async] call. *)
Record tick : Type := {
  wall : Z;
  mono : Q;
  fault : option exn
}.

(** [check_async]. *)
Definition check_async (L : limiter) (key : string)
    (max_requests window_seconds : Z) (t : tick) : limiter * bool :=
  let fallback := check L key max_requests window_seconds (mono t) in
  match _db L with
  | Some db =>
      match _check_firestore db (fault t) key max_requests window_seconds (wall t) with
      | Ok (db', ok) => ({| _memory := _memory L; _db := Some db' |}, ok)
      | Raise _ => fallback
      end
  | None => fallback
  end.

(** [remaining], at the monotonic clock reading [now]. *)
Definition remaining (L : limiter) (key : string)
    (max_requests window_seconds : Z) (now : Q) : limiter * Z :=
  let cutoff := (now - inject_Z window_seconds)%Q in
  let '(l, mem) := dd_get (_memory L) key in
  let active := retain cutoff l in
  ({| _memory := mem; _db := _db L |},
   Z.max 0 (max_requests - Z.of_nat (length active))).

(** Successive calls of the transaction on one document. *)
Fixpoint txn_seq (db : gmap string rl_doc) (ref key wkey : string)
    (max_requests window_seconds : Z) (nows : list Z)
  : gmap string rl_doc * list bool :=
  match nows with
  | [] => (db, [])
  | now :: rest =>
      let '(db1, ok) := update_in_txn db ref key wkey max_requests window_seconds now in
      let '(db2, oks) := txn_seq db1 ref key wkey max_requests window_seconds rest in
      (db2, ok :: oks)
  end.

(** Successive [check_async] calls on one limiter. *)
Fixpoint check_async_seq (L : limiter) (key : string)
    (max_requests window_seconds : Z) (ts : list tick)
  : limiter * list bool :=
  match ts with
  | [] => (L, [])
  | t :: rest =>
      let '(L1, ok) := check_async L key max_requests window_seconds t in
      let '(L2, oks) := check_async_seq L1 key max_requests window_seconds rest in
      (L2, ok :: oks)
  end.

(** Successive [_check_firestore] calls with a store that raises nothing;
    the first error ends the run. *)
Fixpoint firestore_seq (db : gmap string rl_doc) (key : string)
    (max_requests window_seconds : Z) (nows : list Z)
  : exc (gmap string rl_doc * list bool) :=
  match nows with
  | [] => Ok (db, [])
  | now :: rest =>
      bind (_check_firestore db None key max_requests window_seconds now)
        (fun '(db1, ok) =>
           bind (firestore_seq db1 key max_requests window_seconds rest)
             (fun '(db2, oks) => Ok (db2, ok :: oks)))
  end.

(** The number of admitted calls in a list of answers. *)
Definition allowed (oks : list bool) : nat :=
  length (List.filter (fun b => b) oks).

End RateLimiter.

(** ** Volume tiers ([pricing.py]) *)

Module Pricing.

(** [round(x)]: the nearest integer, ties to the even one. *)
Definition py_round (x : Q) : Z :=
  let n := Qnum x in
  let d := Z.pos (Qden x) in
  let f := n / d in
  let r2 := 2 * (n - f * d) in
  if r2 <? d then f
  else if d <? r2 then f + 1
  else if Z.even f then f else f + 1.

(** [round(x, ndigits)]. *)
Definition py_round_n (x : Q) (ndigits : nat) : Q :=
  let p := Pos.pow 10 (Pos.of_nat ndigits) in
  match ndigits with
  | O => inject_Z (py_round x)
  | S _ => Qmake (py_round (x * inject_Z (Z.pos p))) p
  end.

(** [GENESIS_EPOCH_START = datetime(2026, 2, 23, tzinfo=utc)]. *)
Definition GENESIS_EPOCH_START : Z := 1771804800 * usec.
Definition GENESIS_EPOCH_DAYS : Z := 90.
Definition GENESIS_DISCOUNT : Q := 80 # 100.

(** [(a - b).days]: whole days of a [timedelta], rounded down. *)
Definition days_between (a b : Z) : Z := (a - b) / day_usec.

Definition is_genesis_epoch (now : Z) : bool :=
  let elapsed := days_between now GENESIS_EPOCH_START in
  elapsed <? GENESIS_EPOCH_DAYS.

Definition genesis_days_remaining (now : Z) : Z :=
  let remaining := GENESIS_EPOCH_DAYS - days_between now GENESIS_EPOCH_START in
  Z.max 0 remaining.

Record volume_tier : Type := {
  vt_min : Z;
  vt_per_record : Q;
  vt_discount : string;
  vt_label : string
}.

Definition VOLUME_TIERS : list volume_tier :=
  [ {| vt_min := 2000; vt_per_record := 10 # 100; vt_discount := "50%"; vt_label := "Loyalty floor" |};
    {| vt_min := 500; vt_per_record := 125 # 1000; vt_discount := "37%"; vt_label := "Volume" |};
    {| vt_min := 100; vt_per_record := 15 # 100; vt_discount := "25%"; vt_label := "Batch" |};
    {| vt_min := 0; vt_per_record := 20 # 100; vt_discount := "0%"; vt_label := "Standard" |} ].

Definition ENTERPRISE_OUTREACH_THRESHOLD_USD : Q := 200.

(** The dictionary that [get_volume_price] returns and that
    [record_purchase] extends; a key that the code sets only on some paths
    is an option. *)
Record tier_info : Type := {
  per_record : Q;
  discount : string;
  label : string;
  cumulative_records : Z;
  genesis_epoch : option bool;
  genesis_days : option Z;
  full_price : option Q;
  spend_30d : option Q;
  enterprise_outreach : option bool;
  enterprise_message : option string
}.

(** The result built for the tier that matched. The clock readings of
    [is_genesis_epoch] and of [genesis_days_remaining] are taken as one. *)
Definition tier_result (now : Z) (tier : volume_tier) (cumulative_records_30d : Z)
  : tier_info :=
  if is_genesis_epoch now then
    {| per_record := py_round_n (vt_per_record tier * GENESIS_DISCOUNT) 4;
       discount := vt_discount tier; label := vt_label tier;
       cumulative_records := cumulative_records_30d;
       genesis_epoch := Some true;
       genesis_days := Some (genesis_days_remaining now);
       full_price := Some (vt_per_record tier);
       spend_30d := None; enterprise_outreach := None;
       enterprise_message := None |}
  else
    {| per_record := vt_per_record tier;
       discount := vt_discount tier; label := vt_label tier;
       cumulative_records := cumulative_records_30d;
       genesis_epoch := None; genesis_days := None; full_price := None;
       spend_30d := None; enterprise_outreach := None;
       enterprise_message := None |}.

(** The value after the loop, which the comment in the code calls
    unreachable. *)
Definition fallback_info : tier_info :=
  {| per_record := 20 # 100; discount := "0%"; label := "Standard";
     cumulative_records := 0;
     genesis_epoch := None; genesis_days := None; full_price := None;
     spend_30d := None; enterprise_outreach := None;
     enterprise_message := None |}.

(** The loop of [get_volume_price] over a list of tiers. *)
Fixpoint scan_tiers (now : Z) (tiers : list volume_tier) (cumulative_records_30d : Z)
  : tier_info :=
  match tiers with
  | [] => fallback_info
  | tier :: rest =>
      if cumulative_records_30d >=? vt_min tier
      then tier_result now tier cumulative_records_30d
      else scan_tiers now rest cumulative_records_30d
  end.

(** [get_volume_price], at the clock reading [now]. *)
Definition get_volume_price (now : Z) (cumulative_records_30d : Z) : tier_info :=
  scan_tiers now VOLUME_TIERS cumulative_records_30d.

End Pricing.

(** ** The volume ledger ([volume_tracker.py], class [VolumeTracker]) *)

Module VolumeTracker.
Import Pricing.

Definition WINDOW_DAYS : Z := 30.

(** One purchase event. The code reads every field with a default
    ([e.get("timestamp", now)], [e.get("records", 0)],
    [e.get("amount_usd", 0)]), so each may be missing in a stored event. *)
Record event : Type := {
  ev_timestamp : option Z;
  ev_records : option Z;
  ev_amount_usd : option Q;
  ev_endpoint : option string
}.

(** A document of the [agent_volume_tracking] collection; [events],
    [records_30d] and [first_seen] are read with defaults. *)
Record ledger_doc : Type := {
  ld_wallet_address : string;
  ld_events : option (list event);
  ld_records_30d : option Z;
  ld_spend_30d : Q;
  ld_last_updated : Z;
  ld_first_seen : option Z
}.

(** The errors, if any, that the store raises on the read and on the
    write of one call. *)
Record faults : Type := {
  get_fault : option exn;
  set_fault : option exn
}.

Definition no_faults : faults := {| get_fault := None; set_fault := None |}.

Definition new_event (now records : Z) (amount_usd : Q) (endpoint : string) : event :=
  {| ev_timestamp := Some now; ev_records := Some records;
     ev_amount_usd := Some amount_usd; ev_endpoint := Some endpoint |}.

(** [e.get("timestamp", now) > window_start]. *)
Definition in_window (now window_start : Z) (e : event) : bool :=
  default now (ev_timestamp e) >? window_start.

(** The pruning comprehension. *)
Definition prune (now window_start : Z) (events : list event) : list event :=
  List.filter (in_window now window_start) events.

(** [sum(e.get("records", 0) for e in events)]. *)
Definition sum_records (events : list event) : Z :=
  fold_left (fun acc e => acc + default 0 (ev_records e)) events 0.

(** [sum(e.get("amount_usd", 0) for e in events)]. *)
Definition sum_spend (events : list event) : Q :=
  fold_left (fun acc e => (acc + default 0%Q (ev_amount_usd e))%Q) events 0%Q.

(** ["{:.2f}".format(x)]. *)
Definition format_2f (x : Q) : string :=
  let c := py_round (Qabs x * 100)%Q in
  (if Qgtb 0 x then "-" else "") +:+ str_int (c / 100) +:+ "."
  +:+ pad2 (c mod 100).

Definition enterprise_text (total_spend : Q) : string :=
  "You've spent $" +:+ format_2f total_spend +:+ " in the last 30 days. "
  +:+ "Enterprise licenses start at $8,000 with full compliance manifests "
  +:+ "and unlimited API access. Contact enterprise@iaeternum.ai".

(** The tier computed after the write, with the spend and the outreach
    flag attached. *)
Definition attach_outreach (info : tier_info) (total_spend : Q) : tier_info :=
  let outreach := Qgeb total_spend ENTERPRISE_OUTREACH_THRESHOLD_USD in
  {| per_record := per_record info; discount := discount info;
     label := label info; cumulative_records := cumulative_records info;
     genesis_epoch := genesis_epoch info; genesis_days := genesis_days info;
     full_price := full_price info;
     spend_30d := Some (py_round_n total_spend 2);
     enterprise_outreach := Some outreach;
     enterprise_message :=
       if outreach then Some (enterprise_text total_spend) else None |}.

(** The events, the two totals and the document that the call writes for
    a wallet whose document is [doc] (or is missing). *)
Definition next_events (doc : option ledger_doc) (now records : Z)
    (amount_usd : Q) (endpoint : string) : list event :=
  let window_start := now - timedelta_days WINDOW_DAYS in
  match doc with
  | Some data =>
      (prune now window_start (default [] (ld_events data))
       ++ [new_event now records amount_usd endpoint])%list
  | None => [new_event now records amount_usd endpoint]
  end.

Definition totals (doc : option ledger_doc) (now records : Z)
    (amount_usd : Q) (endpoint : string) : Z * Q :=
  match doc with
  | Some _ =>
      let events := next_events doc now records amount_usd endpoint in
      (sum_records events, sum_spend events)
  | None => (records, amount_usd)
  end.

Definition written_doc (doc : option ledger_doc) (wallet_address : string)
    (now records : Z) (amount_usd : Q) (endpoint : string) : ledger_doc :=
  let '(total_records, total_spend) := totals doc now records amount_usd endpoint in
  {| ld_wallet_address := wallet_address;
     ld_events := Some (next_events doc now records amount_usd endpoint);
     ld_records_30d := Some total_records;
     ld_spend_30d := py_round_n total_spend 2;
     ld_last_updated := now;
     ld_first_seen :=
       match doc with
       | Some data => Some (default now (ld_first_seen data))
       | None => Some now
       end |}.

(** [record_purchase]. [db] is the client ([None] before [set_db]) seen as
    its collection, [now] the clock reading of the call and [pnow] the one
    that [get_volume_price] takes. *)
Definition record_purchase (db : option (gmap string ledger_doc)) (f : faults)
    (now pnow : Z) (wallet_address : string) (records : Z) (amount_usd : Q)
    (endpoint : string) : option (gmap string ledger_doc) * tier_info :=
  match db with
  | None => (db, get_volume_price pnow 0)
  | Some store =>
      if String.eqb wallet_address "" then (db, get_volume_price pnow 0)
      else
        match get_fault f, set_fault f with
        | None, None =>
            let doc := store !! wallet_address in
            let '(total_records, total_spend) :=
              totals doc now records amount_usd endpoint in
            (Some (<[wallet_address :=
                       written_doc doc wallet_address now records amount_usd endpoint]>
                     store),
             attach_outreach (get_volume_price pnow total_records) total_spend)
        | _, _ => (db, get_volume_price pnow 0)
        end
  end.


(** Whether the call wrote the ledger and computed the tier from it. *)
Definition succeeds (db : option (gmap string ledger_doc)) (f : faults)
    (wallet_address : string) : Prop :=
  is_Some db /\ wallet_address <> "" /\ f = no_faults.

End VolumeTracker.

(** ** x402 payment verification ([auth.py], [verify_x402_payment]) *)

Module X402.
Import Pricing.

(** A value decoded from JSON, as Python holds it. *)
#[local] Unset Elimination Schemes.
Inductive json : Type :=
| JNull
| JBool (b : bool)
| JInt (z : Z)
| JFloat (q : Q)
| JStr (s : string)
| JArr (l : list json)
| JObj (m : gmap string json).
#[local] Set Elimination Schemes.

(** [type(v).__name__]. *)
Definition type_name (v : json) : string :=
  match v with
  | JNull => "NoneType"
  | JBool _ => "bool"
  | JInt _ => "int"
  | JFloat _ => "float"
  | JStr _ => "str"
  | JArr _ => "list"
  | JObj _ => "dict"
  end.

(** The truth value of [v] in a condition. *)
Definition truthy (v : json) : bool :=
  match v with
  | JNull => false
  | JBool b => b
  | JInt z => negb (z =? 0)
  | JFloat q => negb (Qeq_bool q 0)
  | JStr s => negb (String.eqb s "")
  | JArr l => negb (Nat.eqb (length l) 0)
  | JObj m => negb (Nat.eqb (size m) 0)
  end.

(** [v.get(k, dflt)]: only a [dict] has the method. *)
Definition dict_get (v : json) (k : string) (dflt : json) : exc json :=
  match v with
  | JObj m => Ok (default dflt (m !! k))
  | _ => Raise (AttributeError
                  ("'" +:+ type_name v +:+ "' object has no attribute 'get'"))
  end.

(** [X402PaymentResult]; [tx_hash] and [error] hold whatever value the
    code stores in them. *)
Record X402PaymentResult : Type := {
  valid : bool;
  amount_usd : Q;
  tx_hash : json;
  error : json
}.

(** The constructor with its defaults. *)
Definition failed (err : json) : X402PaymentResult :=
  {| valid := false; amount_usd := 0; tx_hash := JStr ""; error := err |}.

Definition settled (amount : Q) (tx : json) : X402PaymentResult :=
  {| valid := true; amount_usd := amount; tx_hash := tx; error := JStr "" |}.

(** The module-level settings and the environment variable read per call. *)
Record config : Type := {
  X402_FACILITATOR_URL : string;
  BASE_WALLET_ADDRESS : string;
  X402_TEST_MODE : bool;
  CDP_API_KEY_ID : string;
  CDP_API_KEY_SECRET : string;
  env_X402_NETWORK : option string
}.

Record eip712_domain : Type := {
  domain_name : string;
  domain_version : string
}.

Record requirements : Type := {
  scheme : string;
  network : string;
  asset : string;
  amount : string;
  payTo : string;
  maxTimeoutSeconds : Z;
  extra : eip712_domain
}.

Record settle_body : Type := {
  x402Version : json;
  paymentPayload : json;
  paymentRequirements : requirements
}.

(** One outbound POST. *)
Record request : Type := {
  req_url : string;
  req_json : settle_body;
  req_headers : list (string * string)
}.

(** The facilitator's answer: status, body text and what [resp.json()]
    gives for it. *)
Record response : Type := {
  status_code : Z;
  text : string;
  resp_json : exc json
}.

(** What lies outside the function: the decoders of the standard
    library, [str()] of a compound value, the JWT builder (import and
    call) and the HTTP client. *)
Record world : Type := {
  b64decode : string -> exc string;
  json_loads : string -> exc json;
  py_repr : json -> string;
  build_cdp_jwt : string -> string -> string -> string -> exc string;
  post : request -> exc response
}.

(** [str(v)]. *)
Definition py_str (w : world) (v : json) : string :=
  match v with
  | JStr s => s
  | JNull => "None"
  | JBool true => "True"
  | JBool false => "False"
  | JInt z => str_int z
  | _ => py_repr w v
  end.

Definition USDC_ADDRESSES : gmap string string :=
  <["eip155:8453" := "0x833589fCD6eDb6E08f4c7C32D4f71b54bdA02913"]>
  (<["eip155:84532" := "0x036CbD53842c5426634e7929541eC2318f3dCF7e"]> ∅).

Definition USDC_EIP712_DOMAINS : gmap string eip712_domain :=
  <["eip155:8453" := {| domain_name := "USD Coin"; domain_version := "2" |}]>
  (<["eip155:84532" := {| domain_name := "USDC"; domain_version := "2" |}]> ∅).

Definition x402_network (cfg : config) : string :=
  default "eip155:8453" (env_X402_NETWORK cfg).

Definition USDC_ASSET (cfg : config) : string :=
  default "0x833589fCD6eDb6E08f4c7C32D4f71b54bdA02913"
          (USDC_ADDRESSES !! x402_network cfg).

Definition usdc_domain (cfg : config) : eip712_domain :=
  default {| domain_name := "USD Coin"; domain_version := "2" |}
          (USDC_EIP712_DOMAINS !! x402_network cfg).

(** The two decoding attempts; [None] when both raise. *)
Definition decode_header (w : world) (payment_header : string) : option json :=
  match bind (b64decode w payment_header) (json_loads w) with
  | Ok payment_payload => Some payment_payload
  | Raise _ =>
      match json_loads w payment_header with
      | Ok payment_payload => Some payment_payload
      | Raise _ => None
      end
  end.

(** [payment_payload.get("x402Version", 1)]. *)
Definition read_version (payment_payload : json) : exc json :=
  dict_get payment_payload "x402Version" (JInt 1).

(** [str(int(round(required_amount_usd * 1_000_000)))]. *)
Definition amount_smallest (required_amount_usd : Q) : string :=
  str_int (py_round (required_amount_usd * 1000000)%Q).

Definition build_requirements (cfg : config) (required_amount_usd : Q) : requirements :=
  {| scheme := "exact";
     network := x402_network cfg;
     asset := USDC_ASSET cfg;
     amount := amount_smallest required_amount_usd;
     payTo := BASE_WALLET_ADDRESS cfg;
     maxTimeoutSeconds := 300;
     extra := usdc_domain cfg |}.

(** The request headers, with the bearer token when the Coinbase
    facilitator is used and credentials are set. *)
Definition build_headers (w : world) (cfg : config) : exc (list (string * string)) :=
  let headers := [("Content-Type", "application/json")] in
  if str_contains "cdp.coinbase.com" (X402_FACILITATOR_URL cfg)
     && negb (String.eqb (CDP_API_KEY_ID cfg) "")
     && negb (String.eqb (CDP_API_KEY_SECRET cfg) "")
  then
    match build_cdp_jwt w (CDP_API_KEY_ID cfg) (CDP_API_KEY_SECRET cfg)
            "api.cdp.coinbase.com" "/platform/v2/x402/settle" with
    | Ok jwt_token => Ok (headers ++ [("Authorization", "Bearer " +:+ jwt_token)])%list
    | Raise (ImportError _) => Ok headers
    | Raise e => Raise e
    end
  else Ok headers.

(** Lines 397 to 428: reading the facilitator's answer. The logging
    statements in between leave the result as it is and are left out. *)
Definition interpret_response (w : world) (required_amount_usd : Q)
    (resp : response) : exc X402PaymentResult :=
  if negb (status_code resp =? 200) then
    Ok (failed (JStr ("Facilitator settle failed (" +:+ str_int (status_code resp)
                      +:+ "): " +:+ str_take 200 (text resp))))
  else
    bind (resp_json resp) (fun raw =>
      match raw with
      | JStr s => Ok (settled required_amount_usd (JStr s))
      | JObj m =>
          let success := default (JBool false) (m !! "success") in
          let tx_field :=
            default (default (JStr "") (m !! "txHash")) (m !! "transaction") in
          let tx_hash :=
            match tx_field with
            | JObj t => default (JStr "") (t !! "txHash")
            | _ => JStr (py_str w tx_field)
            end in
          if negb (truthy success)
          then Ok (failed (default (JStr "Settlement failed") (m !! "error")))
          else Ok (settled required_amount_usd tx_hash)
      | _ =>
          Ok (failed (JStr ("Unexpected facilitator response type: "
                            +:+ type_name raw)))
      end).

(** The POST to the settle endpoint. *)
Definition settle_request (cfg : config) (version payment_payload : json)
    (required_amount_usd : Q) (headers : list (string * string)) : request :=
  {| req_url := X402_FACILITATOR_URL cfg +:+ "/settle";
     req_json :=
       {| x402Version := version;
          paymentPayload := payment_payload;
          paymentRequirements := build_requirements cfg required_amount_usd |};
     req_headers := headers |}.

(** The body of the outer [try], after the header is decoded, with the
    outbound calls that it made. *)
Definition settle_attempt (w : world) (cfg : config) (payment_payload : json)
    (required_amount_usd : Q) : exc X402PaymentResult * list request :=
  match read_version payment_payload with
  | Raise e => (Raise e, [])
  | Ok version =>
      match build_headers w cfg with
      | Raise e => (Raise e, [])
      | Ok headers =>
          let req := settle_request cfg version payment_payload
                       required_amount_usd headers in
          (bind (post w req) (interpret_response w required_amount_usd), [req])
      end
  end.

(** The two handlers of the outer [try]. *)
Definition handle (r : exc X402PaymentResult) : X402PaymentResult :=
  match r with
  | Ok res => res
  | Raise (TimeoutException _) => failed (JStr "x402 facilitator timeout")
  | Raise e => failed (JStr ("Verification error: " +:+ str_exn e))
  end.

(** [verify_x402_payment]: the result and the outbound calls made. *)
Definition verify_x402_payment (w : world) (cfg : config)
    (payment_header : string) (required_amount_usd : Q)
  : X402PaymentResult * list request :=
  if String.eqb payment_header "" then
    (failed (JStr "Missing payment header"), [])
  else if X402_TEST_MODE cfg then
    (settled required_amount_usd (JStr "test-mode-no-tx"), [])
  else
    match decode_header w payment_header with
    | None => (failed (JStr "Cannot decode payment header"), [])
    | Some payment_payload =>
        let '(r, calls) := settle_attempt w cfg payment_payload required_amount_usd in
        (handle r, calls)
    end.

(** The settings of a deployment without credentials and without the
    [X402_NETWORK] variable. *)
Definition default_config : config :=
  {| X402_FACILITATOR_URL := "https://api.cdp.coinbase.com/platform/v2/x402";
     BASE_WALLET_ADDRESS := "0xFE141943a93c184606F3060103D975662327063B";
     X402_TEST_MODE := false;
     CDP_API_KEY_ID := "";
     CDP_API_KEY_SECRET := "";
     env_X402_NETWORK := None |}.

(** A small world for worked examples. The decoders know three inputs:
    [e30=] is the base64 text of the empty object, and the texts of the
    empty object and of the empty list hold no base64 character, so they
    decode to no bytes at all, which is not JSON. The facilitator is the
    given function. *)
Definition example_world (facilitator : request -> exc response) : world :=
  {| b64decode := fun s =>
       if String.eqb s "e30=" then Ok "{}"
       else if String.eqb s "{}" || String.eqb s "[]" then Ok ""
       else Raise (OtherException "Incorrect padding");
     json_loads := fun s =>
       if String.eqb s "{}" then Ok (JObj ∅)
       else if String.eqb s "[]" then Ok (JArr [])
       else Raise (OtherException "Expecting value");
     py_repr := fun v =>
       match v with
       | JArr [] => "[]"
       | _ => "{}"
       end;
     build_cdp_jwt := fun _ _ _ _ => Raise (ImportError "No module named 'jwt'");
     post := facilitator |}.

(** A facilitator that answers every request with status 200 and the
    given JSON value. *)
Definition answers_200 (body : json) : request -> exc response :=
  fun _ => Ok {| status_code := 200; text := ""; resp_json := Ok body |}.

End X402.

(** ** The price table ([pricing.py], [calculate_price] and the tier
    helpers) *)

Module PriceTable.
Import Pricing.

Inductive UserType : Type :=
| ACADEMIC
| INDIVIDUAL
| AGENT
| CORPORATE
| ENTERPRISE.

(** [PricingTier], with the defaults of the class filled in. *)
Record PricingTier : Type := {
  pt_per_image : Q;
  pt_flat_price : option Q;
  pt_min_quantity : Z;
  pt_label : string;
  pt_currency : string;
  pt_launch_eligible : bool
}.

(** The dictionary [PRICING_TIERS], in the order of the source. *)
Definition PRICING_TIERS : list (string * PricingTier) :=
  [
    ("academic",
     {| pt_per_image := (0 # 100); pt_flat_price := None;
        pt_min_quantity := 1;
        pt_label := "Free with attribution (non-commercial research)";
        pt_currency := "USD"; pt_launch_eligible := false |});
    ("individual",
     {| pt_per_image := (0 # 100); pt_flat_price := None;
        pt_min_quantity := 1;
        pt_label := "Free with attribution (artists & researchers)";
        pt_currency := "USD"; pt_launch_eligible := false |});
    ("raw_free",
     {| pt_per_image := (0 # 100); pt_flat_price := None;
        pt_min_quantity := 1;
        pt_label := "Raw museum images (CC0, no enrichment)";
        pt_currency := "USD"; pt_launch_eligible := false |});
    ("curated_agent",
     {| pt_per_image := (5 # 100); pt_flat_price := None;
        pt_min_quantity := 1;
        pt_label := "Human_Standard — agent x402 (metadata + image)";
        pt_currency := "USDC"; pt_launch_eligible := true |});
    ("curated_agent_batch",
     {| pt_per_image := (4 # 100); pt_flat_price := None;
        pt_min_quantity := 100;
        pt_label := "Human_Standard — agent batch x402 (metadata + image)";
        pt_currency := "USDC"; pt_launch_eligible := true |});
    ("curated_corporate",
     {| pt_per_image := (5 # 100); pt_flat_price := None;
        pt_min_quantity := 1000;
        pt_label := "Human_Standard — corporate license";
        pt_currency := "USD"; pt_launch_eligible := true |});
    ("oracle_agent",
     {| pt_per_image := (20 # 100); pt_flat_price := None;
        pt_min_quantity := 1;
        pt_label := "Hybrid_Premium — agent x402 (metadata + image)";
        pt_currency := "USDC"; pt_launch_eligible := true |});
    ("oracle_agent_batch",
     {| pt_per_image := (15 # 100); pt_flat_price := None;
        pt_min_quantity := 100;
        pt_label := "Hybrid_Premium — agent batch x402 (25% off)";
        pt_currency := "USDC"; pt_launch_eligible := true |});
    ("oracle_agent_volume",
     {| pt_per_image := (125 # 1000); pt_flat_price := None;
        pt_min_quantity := 500;
        pt_label := "Hybrid_Premium — agent volume x402 (37% off)";
        pt_currency := "USDC"; pt_launch_eligible := true |});
    ("oracle_agent_loyalty",
     {| pt_per_image := (10 # 100); pt_flat_price := None;
        pt_min_quantity := 2000;
        pt_label := "Hybrid_Premium — agent loyalty x402 (50% off)";
        pt_currency := "USDC"; pt_launch_eligible := true |});
    ("oracle_corporate",
     {| pt_per_image := (100 # 100); pt_flat_price := None;
        pt_min_quantity := 100;
        pt_label := "Hybrid_Premium — corporate license";
        pt_currency := "USD"; pt_launch_eligible := true |});
    ("certified_agent",
     {| pt_per_image := (30 # 100); pt_flat_price := None;
        pt_min_quantity := 1;
        pt_label := "Certified Hybrid_Premium — agent x402";
        pt_currency := "USDC"; pt_launch_eligible := true |});
    ("certified_corporate",
     {| pt_per_image := (200 # 100); pt_flat_price := None;
        pt_min_quantity := 100;
        pt_label := "Certified Hybrid_Premium — corporate license";
        pt_currency := "USD"; pt_launch_eligible := true |});
    ("full_pipeline",
     {| pt_per_image := (50 # 100); pt_flat_price := None;
        pt_min_quantity := 1;
        pt_label := "Full Pipeline — agent x402";
        pt_currency := "USDC"; pt_launch_eligible := true |});
    ("mint_agent",
     {| pt_per_image := (250 # 100); pt_flat_price := None;
        pt_min_quantity := 1;
        pt_label := "Mint Aeternum Asset — agent x402";
        pt_currency := "USDC"; pt_launch_eligible := true |});
    ("bot_curated_1k",
     {| pt_per_image := (0 # 10); pt_flat_price := Some (4000 # 100);
        pt_min_quantity := 1;
        pt_label := "Bot Pack — 1K Human_Standard records ($0.04/ea)";
        pt_currency := "USD"; pt_launch_eligible := true |});
    ("bot_curated_10k",
     {| pt_per_image := (0 # 10); pt_flat_price := Some (30000 # 100);
        pt_min_quantity := 1;
        pt_label := "Bot Pack — 10K Human_Standard records ($0.03/ea)";
        pt_currency := "USD"; pt_launch_eligible := true |});
    ("bot_curated_50k",
     {| pt_per_image := (0 # 10); pt_flat_price := Some (120000 # 100);
        pt_min_quantity := 1;
        pt_label := "Bot Pack — 50K Human_Standard records ($0.024/ea)";
        pt_currency := "USD"; pt_launch_eligible := true |});
    ("bot_oracle_1k",
     {| pt_per_image := (0 # 10); pt_flat_price := Some (17500 # 100);
        pt_min_quantity := 1;
        pt_label := "Bot Pack — 1K Hybrid_Premium records ($0.175/ea)";
        pt_currency := "USD"; pt_launch_eligible := true |});
    ("bot_oracle_10k",
     {| pt_per_image := (0 # 10); pt_flat_price := Some (125000 # 100);
        pt_min_quantity := 1;
        pt_label := "Bot Pack — 10K Hybrid_Premium records ($0.125/ea)";
        pt_currency := "USD"; pt_launch_eligible := true |});
    ("bot_foundation_1m",
     {| pt_per_image := (0 # 10); pt_flat_price := Some (6375000 # 100);
        pt_min_quantity := 1;
        pt_label := "Bot Foundation — 1M Human_Standard records ($0.064/ea)";
        pt_currency := "USD"; pt_launch_eligible := true |});
    ("bot_foundation_oracle_1m",
     {| pt_per_image := (0 # 10); pt_flat_price := Some (21250000 # 100);
        pt_min_quantity := 1;
        pt_label := "Bot Foundation — 1M Hybrid_Premium records ($0.213/ea)";
        pt_currency := "USD"; pt_launch_eligible := true |});
    ("bot_daily_sub",
     {| pt_per_image := (0 # 10); pt_flat_price := Some (9900 # 100);
        pt_min_quantity := 1;
        pt_label := "Bot Daily API — unlimited Human_Standard (rate-limited), $99/month";
        pt_currency := "USD"; pt_launch_eligible := true |});
    ("dataset_sample_1k",
     {| pt_per_image := (0 # 10); pt_flat_price := Some (2500 # 100);
        pt_min_quantity := 1;
        pt_label := "Dataset — 1K Human_Standard sample";
        pt_currency := "USD"; pt_launch_eligible := true |});
    ("dataset_museum_single",
     {| pt_per_image := (0 # 10); pt_flat_price := Some (20000 # 100);
        pt_min_quantity := 1;
        pt_label := "Dataset — single museum (~8K records)";
        pt_currency := "USD"; pt_launch_eligible := true |});
    ("dataset_full_curated",
     {| pt_per_image := (0 # 10); pt_flat_price := Some (100000 # 100);
        pt_min_quantity := 1;
        pt_label := "Dataset — full 53K+ Human_Standard collection";
        pt_currency := "USD"; pt_launch_eligible := true |});
    ("dataset_oracle_core",
     {| pt_per_image := (0 # 10); pt_flat_price := Some (250000 # 100);
        pt_min_quantity := 1;
        pt_label := "Dataset — 10K Hybrid_Premium core";
        pt_currency := "USD"; pt_launch_eligible := true |});
    ("dataset_complete",
     {| pt_per_image := (0 # 10); pt_flat_price := Some (500000 # 100);
        pt_min_quantity := 1;
        pt_label := "Dataset — complete Alexandria (Human_Standard + Hybrid_Premium)";
        pt_currency := "USD"; pt_launch_eligible := true |});
    ("enterprise_curated",
     {| pt_per_image := (0 # 10); pt_flat_price := Some (800000 # 100);
        pt_min_quantity := 1;
        pt_label := "Enterprise — full Human_Standard + provenance manifest";
        pt_currency := "USD"; pt_launch_eligible := true |});
    ("enterprise_oracle",
     {| pt_per_image := (0 # 10); pt_flat_price := Some (4500000 # 100);
        pt_min_quantity := 1;
        pt_label := "Enterprise — full Hybrid_Premium + compliance manifest";
        pt_currency := "USD"; pt_launch_eligible := true |});
    ("enterprise_certified",
     {| pt_per_image := (0 # 10); pt_flat_price := Some (8500000 # 100);
        pt_min_quantity := 1;
        pt_label := "Enterprise — Certified Hybrid_Premium + C2PA + Aegis API (1M queries/yr)";
        pt_currency := "USD"; pt_launch_eligible := true |});
    ("enterprise_full",
     {| pt_per_image := (0 # 10); pt_flat_price := Some (15000000 # 100);
        pt_min_quantity := 1;
        pt_label := "Enterprise — Full Pipeline + Arweave + legal attestation";
        pt_currency := "USD"; pt_launch_eligible := true |});
    ("enterprise_foundation",
     {| pt_per_image := (0 # 10); pt_flat_price := Some (25000000 # 100);
        pt_min_quantity := 1;
        pt_label := "Enterprise — Foundation Model License (custom enrichment)";
        pt_currency := "USD"; pt_launch_eligible := true |});
    ("compliance_audit",
     {| pt_per_image := (0 # 10); pt_flat_price := Some (250000 # 100);
        pt_min_quantity := 1;
        pt_label := "Compliance Audit Report (read-only)";
        pt_currency := "USD"; pt_launch_eligible := true |});
    ("compliance_basic",
     {| pt_per_image := (0 # 10); pt_flat_price := Some (1200000 # 100);
        pt_min_quantity := 1;
        pt_label := "Compliance Manifest — EU AI Act Art.53 basic";
        pt_currency := "USD"; pt_launch_eligible := true |});
    ("compliance_full",
     {| pt_per_image := (0 # 10); pt_flat_price := Some (3500000 # 100);
        pt_min_quantity := 1;
        pt_label := "Compliance Manifest — full + legal attestation";
        pt_currency := "USD"; pt_launch_eligible := true |});
    ("compliance_annual",
     {| pt_per_image := (0 # 10); pt_flat_price := Some (800000 # 100);
        pt_min_quantity := 1;
        pt_label := "Compliance Subscription — annual updates";
        pt_currency := "USD"; pt_launch_eligible := true |});
    ("enrich_oracle_only",
     {| pt_per_image := (20 # 100); pt_flat_price := None;
        pt_min_quantity := 1;
        pt_label := "Agent Enrichment — Hybrid_Premium reading (returns Golden Codex JSON)";
        pt_currency := "USDC"; pt_launch_eligible := true |});
    ("enrich_oracle_plus_infuse",
     {| pt_per_image := (30 # 100); pt_flat_price := None;
        pt_min_quantity := 1;
        pt_label := "Agent Enrichment — Hybrid_Premium + XMP infusion + hash registry";
        pt_currency := "USDC"; pt_launch_eligible := true |});
    ("enrich_full_certified",
     {| pt_per_image := (50 # 100); pt_flat_price := None;
        pt_min_quantity := 1;
        pt_label := "Agent Enrichment — Hybrid_Premium + infusion + C2PA + registry";
        pt_currency := "USDC"; pt_launch_eligible := true |})
  ].

(** [PRICING_TIERS[tier]], [None] when [tier not in PRICING_TIERS]. *)
Fixpoint tier_lookup (table : list (string * PricingTier)) (tier : string)
  : option PricingTier :=
  match table with
  | [] => None
  | (name, t) :: rest =>
      if String.eqb name tier then Some t else tier_lookup rest tier
  end.

Definition _AGENT_BATCH_PER_IMAGE : Q := 5 # 100.

(** The dictionary that [calculate_price] returns; the keys set only
    during the Genesis Epoch are options. *)
Record price_info : Type := {
  pi_tier : string;
  pi_quantity : Z;
  pi_per_image : Q;
  pi_flat_price : option Q;
  pi_total : Q;
  pi_currency : string;
  pi_label : string;
  pi_genesis_epoch : bool;
  pi_genesis_days_remaining : option Z;
  pi_full_price_per_image : option Q;
  pi_full_price_total : option Q
}.

(** What a call of [calculate_price] gives: the dictionary, or the
    [ValueError] with its message. *)
Inductive price_result : Type :=
| Priced (p : price_info)
| ValueError (msg : string).

(** [str(list_of_str)] for names without quotes or backslashes. *)
Definition repr_names (names : list string) : string :=
  "[" +:+ String.concat ", " (map (fun n => "'" +:+ n +:+ "'") names) +:+ "]".

(** [calculate_price], at the clock reading [now]. *)
Definition calculate_price (now : Z) (tier : string) (quantity : Z) : price_result :=
  if String.eqb tier "agent_batch" then
    let per_image :=
      if is_genesis_epoch now
      then py_round_n (_AGENT_BATCH_PER_IMAGE * GENESIS_DISCOUNT) 4
      else _AGENT_BATCH_PER_IMAGE in
    Priced {| pi_tier := "agent_batch"; pi_quantity := quantity;
              pi_per_image := per_image; pi_flat_price := None;
              pi_total := py_round_n (per_image * inject_Z quantity) 2;
              pi_currency := "USDC";
              pi_label := "Agent batch download ($0.05/image)";
              pi_genesis_epoch := is_genesis_epoch now;
              pi_genesis_days_remaining :=
                Some (if is_genesis_epoch now then genesis_days_remaining now else 0);
              pi_full_price_per_image := None;
              pi_full_price_total := None |}
  else
    match tier_lookup PRICING_TIERS tier with
    | None =>
        ValueError ("Unknown pricing tier: " +:+ tier +:+ ". Valid tiers: "
                    +:+ repr_names (map fst PRICING_TIERS))
    | Some t =>
        if quantity <? pt_min_quantity t then
          ValueError ("Tier '" +:+ tier +:+ "' requires minimum "
                      +:+ str_int (pt_min_quantity t) +:+ " images. Requested: "
                      +:+ str_int quantity)
        else
          let discounted := pt_launch_eligible t && is_genesis_epoch now in
          let per_image :=
            match pt_flat_price t with
            | Some _ => pt_per_image t
            | None =>
                if discounted
                then py_round_n (pt_per_image t * GENESIS_DISCOUNT) 4
                else pt_per_image t
            end in
          let total :=
            match pt_flat_price t with
            | Some flat =>
                if discounted then py_round_n (flat * GENESIS_DISCOUNT) 2 else flat
            | None => py_round_n (per_image * inject_Z quantity) 2
            end in
          Priced {| pi_tier := tier; pi_quantity := quantity;
                    pi_per_image := per_image;
                    pi_flat_price := pt_flat_price t;
                    pi_total := total;
                    pi_currency := pt_currency t;
                    pi_label := pt_label t;
                    pi_genesis_epoch := discounted;
                    pi_genesis_days_remaining :=
                      if discounted then Some (genesis_days_remaining now) else None;
                    pi_full_price_per_image :=
                      if discounted then Some (pt_per_image t) else None;
                    pi_full_price_total :=
                      if discounted then
                        Some (match pt_flat_price t with
                              | None => py_round_n (pt_per_image t * inject_Z quantity) 2
                              | Some flat => flat
                              end)
                      else None |}
    end.

(** [get_tier_for_quantity]. *)
Definition get_tier_for_quantity (quantity : Z) (user_type : UserType)
    (product : string) : string :=
  match user_type with
  | ACADEMIC => "academic"
  | INDIVIDUAL => "individual"
  | _ =>
      if String.eqb product "raw" then "raw_free"
      else
        match user_type with
        | AGENT =>
            if String.eqb product "curated" then
              if quantity >=? 100 then "curated_agent_batch" else "curated_agent"
            else if String.eqb product "oracle" then
              if quantity >=? 2000 then "oracle_agent_loyalty"
              else if quantity >=? 500 then "oracle_agent_volume"
              else if quantity >=? 100 then "oracle_agent_batch"
              else "oracle_agent"
            else if String.eqb product "certified" then "certified_agent"
            else if String.eqb product "full_pipeline" then "full_pipeline"
            else if String.eqb product "mint" then "mint_agent"
            else "curated_agent"
        | ENTERPRISE =>
            if String.eqb product "oracle" then "enterprise_oracle"
            else if String.eqb product "certified" then "enterprise_certified"
            else if String.eqb product "full_pipeline" then "enterprise_full"
            else if String.eqb product "foundation" then "enterprise_foundation"
            else "enterprise_curated"
        | _ =>
            (* Corporate *)
            if String.eqb product "curated" then
              if quantity >=? 1000 then "curated_corporate" else "curated_agent"
            else if String.eqb product "oracle" then
              if quantity >=? 100 then "oracle_corporate" else "oracle_agent"
            else if String.eqb product "certified" then
              if quantity >=? 100 then "certified_corporate" else "certified_agent"
            else "curated_agent"
        end
  end.

Definition agent_tiers : list string :=
  [ "raw_free"; "curated_agent"; "curated_agent_batch";
    "oracle_agent"; "oracle_agent_batch"; "oracle_agent_volume"; "oracle_agent_loyalty";
    "certified_agent"; "full_pipeline"; "mint_agent";
    "enrich_oracle_only"; "enrich_oracle_plus_infuse"; "enrich_full_certified";
    "bot_curated_1k"; "bot_curated_10k"; "bot_curated_50k";
    "bot_oracle_1k"; "bot_oracle_10k";
    "bot_foundation_1m"; "bot_foundation_oracle_1m";
    "bot_daily_sub" ].

Definition corporate_tiers : list string :=
  [ "raw_free"; "curated_corporate";
    "oracle_corporate"; "certified_corporate";
    "enterprise_curated"; "enterprise_oracle"; "enterprise_certified";
    "enterprise_full"; "enterprise_foundation";
    "dataset_sample_1k"; "dataset_museum_single"; "dataset_full_curated";
    "dataset_oracle_core"; "dataset_complete";
    "compliance_audit"; "compliance_basic"; "compliance_full"; "compliance_annual" ].

(** [tier in names] for a set of names. *)
Definition name_in (tier : string) (names : list string) : bool :=
  existsb (String.eqb tier) names.

(** [validate_tier_access]. *)
Definition validate_tier_access (user_type : UserType) (tier : string) : bool :=
  name_in tier
    match user_type with
    | ACADEMIC => ["academic"; "raw_free"]
    | INDIVIDUAL => ["individual"; "raw_free"]
    | AGENT => agent_tiers
    | CORPORATE => corporate_tiers
    | ENTERPRISE => map fst PRICING_TIERS
    end.

End PriceTable.

(** ** The request dependencies of [auth.py] *)

Module Auth.
Import RateLimiter X402.

(** What the dependencies read of a request: the headers, by the names
    the code asks for, the host of [request.client] when there is one, and
    the attribute [x402_required_amount] of [request.state] when it is
    set. *)
Record request_view : Type := {
  rq_headers : gmap string string;
  rq_client_host : option string;
  rq_x402_required_amount : option Q
}.

(** [request.headers.get(name, "")]. *)
Definition header (r : request_view) (name : string) : string :=
  default "" (rq_headers r !! name).

(** [HTTPException(status_code, detail, headers)]. *)
Record HTTPException : Type := {
  http_status : Z;
  http_detail : string;
  http_headers : list (string * string)
}.

(** A dependency lets the request through with a value or raises. *)
Inductive verdict (A : Type) : Type :=
| Pass (a : A)
| Reject (e : HTTPException).
Arguments Pass {A} a.
Arguments Reject {A} e.

(** The characters that [str.strip()] removes, for a header value read
    as Latin-1. *)
Definition is_space (c : Ascii.ascii) : bool :=
  let n := Ascii.N_of_ascii c in
  ((9 <=? n) && (n <=? 13) || (28 <=? n) && (n <=? 32)
   || (n =? 133) || (n =? 160))%N.

Fixpoint lstrip (s : string) : string :=
  match s with
  | String c s' => if is_space c then lstrip s' else s
  | EmptyString => EmptyString
  end.

Fixpoint rstrip (s : string) : string :=
  match s with
  | String c s' =>
      match rstrip s' with
      | EmptyString => if is_space c then EmptyString else String c EmptyString
      | r => String c r
      end
  | EmptyString => EmptyString
  end.

(** [s.strip()]. *)
Definition strip (s : string) : string := rstrip (lstrip s).

(** [s.split(",")[0]]. *)
Fixpoint first_entry (s : string) : string :=
  match s with
  | String c s' =>
      if Ascii.eqb c ","%char then EmptyString else String c (first_entry s')
  | EmptyString => EmptyString
  end.

(** Every character of [s] passes the test [p]. *)
Fixpoint all_chars (p : Ascii.ascii -> bool) (s : string) : bool :=
  match s with
  | String c s' => p c && all_chars p s'
  | EmptyString => true
  end.

Definition not_comma (c : Ascii.ascii) : bool := negb (Ascii.eqb c ","%char).

(** [get_client_fingerprint]. *)
Definition get_client_fingerprint (r : request_view) : string :=
  let forwarded := header r "X-Forwarded-For" in
  let client_ip :=
    if negb (String.eqb forwarded "") then strip (first_entry forwarded)
    else default "unknown" (rq_client_host r) in
  let wallet := header r "X-Wallet-Address" in
  if negb (String.eqb wallet "") then client_ip +:+ "|" +:+ wallet
  else client_ip.

(** The key that the check of [require_rate_limit] counts under:
    [api_key or request.client.host if request.client else "unknown"]
    is a conditional whose first branch is the [or]. *)
Definition limiter_key (endpoint : string) (r : request_view) : string :=
  let api_key := header r "X-API-Key" in
  let client_id :=
    match rq_client_host r with
    | Some host => if negb (String.eqb api_key "") then api_key else host
    | None => "unknown"
    end in
  endpoint +:+ ":" +:+ client_id.

(** The dependency built by [require_rate_limit(endpoint, max_requests,
    window_seconds)]; [now] and [later] are the clock readings of [check]
    and of [remaining]. *)
Definition require_rate_limit (endpoint : string)
    (max_requests window_seconds : Z) (L : limiter) (r : request_view)
    (now later : Q) : limiter * verdict unit :=
  let key := limiter_key endpoint r in
  let '(L1, ok) := check L key max_requests window_seconds now in
  if ok then (L1, Pass tt)
  else
    let '(L2, still_free) := remaining L1 key max_requests window_seconds later in
    (L2, Reject {| http_status := 429;
                   http_detail := "Rate limit exceeded for " +:+ endpoint +:+ ". "
                                  +:+ str_int still_free +:+ " requests remaining.";
                   http_headers := [("Retry-After", str_int window_seconds)] |}).

(** [a or b or ""] on optional header values. *)
Definition first_nonempty (a b : option string) : string :=
  match a with
  | Some (String c s) => String c s
  | _ =>
      match b with
      | Some (String c s) => String c s
      | _ => ""
      end
  end.


(** What a call of [validate_api_key] gives: the key document, an HTTP
    error, or the error of the store read, which the function lets
    through. *)
Inductive key_outcome : Type :=
| KeyData (data : gmap string json)
| KeyRejected (e : HTTPException)
| KeyError (e : exn).

(** The store errors of one call: on the read and on the update of
    [last_used]. *)
Record key_faults : Type := {
  read_fault : option exn;
  update_fault : option exn
}.

(** [validate_api_key]. [sha256_hex] is the digest of the standard
    library, [db] the collection [data_portal_api_keys] and [server_time]
    the value that the store writes for [SERVER_TIMESTAMP]. *)
Definition validate_api_key (sha256_hex : string -> string)
    (db : gmap string (gmap string json)) (f : key_faults) (server_time : json)
    (x_api_key : option string)
  : gmap string (gmap string json) * key_outcome :=
  match x_api_key with
  | None | Some EmptyString =>
      (db, KeyRejected {| http_status := 401;
                          http_detail := "Missing X-API-Key header";
                          http_headers := [] |})
  | Some key =>
      let key_hash := sha256_hex key in
      match read_fault f with
      | Some e => (db, KeyError e)
      | None =>
          match db !! key_hash with
          | None =>
              (db, KeyRejected {| http_status := 401;
                                  http_detail := "Invalid API key";
                                  http_headers := [] |})
          | Some key_data =>
              if truthy (default (JBool false) (key_data !! "revoked")) then
                (db, KeyRejected {| http_status := 403;
                                    http_detail := "API key has been revoked";
                                    http_headers := [] |})
              else
                let db' :=
                  match update_fault f with
                  | Some _ => db
                  | None => <[key_hash := <["last_used" := server_time]> key_data]> db
                  end in
                (db', KeyData key_data)
          end
      end
  end.

(** Successive in-memory checks of one key. *)
Fixpoint check_seq (mem : gmap string (list Q)) (key : string)
    (max_requests window_seconds : Z) (times : list Q)
  : gmap string (list Q) * list bool :=
  match times with
  | [] => (mem, [])
  | now :: rest =>
      let '(mem1, ok) := _check_memory mem key max_requests window_seconds now in
      let '(mem2, oks) := check_seq mem1 key max_requests window_seconds rest in
      (mem2, ok :: oks)
  end.

(** The clock readings of the calls that were let through. *)
Fixpoint allowed_times (times : list Q) (oks : list bool) : list Q :=
  match times, oks with
  | t :: ts, true :: bs => t :: allowed_times ts bs
  | _ :: ts, false :: bs => allowed_times ts bs
  | _, _ => []
  end.

End Auth.

(** ** Runs of the volume ledger *)

Module LedgerRuns.
Import Pricing VolumeTracker.

(** One purchase: the clock reading and the arguments of the call. *)
Record purchase : Type := {
  p_now : Z;
  p_records : Z;
  p_amount_usd : Q;
  p_endpoint : string
}.

(** Successive [record_purchase] calls of one wallet against a store
    that raises nothing. *)
Fixpoint purchase_seq (db : option (gmap string ledger_doc)) (pnow : Z)
    (wallet_address : string) (ps : list purchase)
  : option (gmap string ledger_doc) :=
  match ps with
  | [] => db
  | p :: rest =>
      purchase_seq
        (fst (record_purchase db no_faults (p_now p) pnow wallet_address
                (p_records p) (p_amount_usd p) (p_endpoint p)))
        pnow wallet_address rest
  end.

Definition event_of (p : purchase) : event :=
  new_event (p_now p) (p_records p) (p_amount_usd p) (p_endpoint p).

End LedgerRuns.

(** ** The callers in the routes ([routes/agent.py], [routes/reader.py],
    [routes/deliver.py]) *)

Module Routes.
Import Pricing X402 Auth.

(** [_current_hybrid_premium_price] and [_current_human_standard_price]
    of [routes/agent.py]. *)
Definition _current_hybrid_premium_price (now : Z) : Q :=
  if is_genesis_epoch now then py_round_n ((20 # 100) * GENESIS_DISCOUNT) 2
  else 20 # 100.

Definition _current_human_standard_price (now : Z) : Q :=
  if is_genesis_epoch now then py_round_n ((5 # 100) * GENESIS_DISCOUNT) 2
  else 5 # 100.

(** [DELIVERY_TIER_PRICES] and [_delivery_price] of [routes/deliver.py]. *)
Definition DELIVERY_TIER_PRICES : gmap string Q :=
  <["human_standard" := (5 # 100)%Q]> (<["hybrid_premium" := (20 # 100)%Q]> ∅).

Definition _delivery_price (now : Z) (tier : string) : Q :=
  let base := default (20 # 100)%Q (DELIVERY_TIER_PRICES !! tier) in
  if is_genesis_epoch now then py_round_n (base * GENESIS_DISCOUNT) 2 else base.

(** The payment-required payload before it is serialised: the version,
    the accepted requirements and the optional resource. *)
Record x402_resource : Type := {
  res_url : string;
  res_description : option string
}.

Record x402_payload : Type := {
  pl_x402Version : Z;
  pl_accepts : list requirements;
  pl_resource : option x402_resource
}.

(** The module-level tables of [routes/agent.py]; [X402_NETWORK] is read
    there when the module is loaded. *)
Definition AGENT_USDC_ADDRESSES : gmap string string :=
  <["eip155:8453" := "0x833589fCD6eDb6E08f4c7C32D4f71b54bdA02913"]>
  (<["eip155:84532" := "0x036CbD53842c5426634e7929541eC2318f3dCF7e"]> ∅).

Definition AGENT_USDC_EIP712_DOMAINS : gmap string eip712_domain :=
  <["eip155:8453" := {| domain_name := "USD Coin"; domain_version := "2" |}]>
  (<["eip155:84532" := {| domain_name := "USDC"; domain_version := "2" |}]> ∅).

Definition AGENT_X402_NETWORK (cfg : config) : string :=
  default "eip155:8453" (env_X402_NETWORK cfg).

Definition AGENT_USDC_ADDRESS (cfg : config) : string :=
  default "0x833589fCD6eDb6E08f4c7C32D4f71b54bdA02913"
          (AGENT_USDC_ADDRESSES !! AGENT_X402_NETWORK cfg).

Definition AGENT_USDC_EIP712_DOMAIN (cfg : config) : eip712_domain :=
  default {| domain_name := "USD Coin"; domain_version := "2" |}
          (AGENT_USDC_EIP712_DOMAINS !! AGENT_X402_NETWORK cfg).

(** The payload that [_encode_x402_header] of [routes/agent.py]
    serialises. *)
Definition agent_x402_payload (cfg : config) (amount : Q)
    (resource_url description : string) : x402_payload :=
  let amount_smallest := str_int (py_round (amount * 1000000)%Q) in
  {| pl_x402Version := 2;
     pl_accepts :=
       [ {| scheme := "exact";
            network := AGENT_X402_NETWORK cfg;
            asset := AGENT_USDC_ADDRESS cfg;
            X402.amount := amount_smallest;
            payTo := BASE_WALLET_ADDRESS cfg;
            maxTimeoutSeconds := 300;
            extra := AGENT_USDC_EIP712_DOMAIN cfg |} ];
     pl_resource :=
       if negb (String.eqb resource_url "") then
         Some {| res_url := resource_url;
                 res_description :=
                   if negb (String.eqb description "") then Some description
                   else None |}
       else None |}.

(** The payload that [_reader_x402_headers] of [routes/reader.py]
    serialises; its tables are local to the function. *)
Definition reader_x402_payload (cfg : config) (amount : Q) : x402_payload :=
  let x402_network := default "eip155:8453" (env_X402_NETWORK cfg) in
  let usdc_addresses : gmap string string :=
    <["eip155:8453" := "0x833589fCD6eDb6E08f4c7C32D4f71b54bdA02913"]>
    (<["eip155:84532" := "0x036CbD53842c5426634e7929541eC2318f3dCF7e"]> ∅) in
  let eip712_domains : gmap string eip712_domain :=
    <["eip155:8453" := {| domain_name := "USD Coin"; domain_version := "2" |}]>
    (<["eip155:84532" := {| domain_name := "USDC"; domain_version := "2" |}]> ∅) in
  let amount_smallest := str_int (py_round (amount * 1000000)%Q) in
  {| pl_x402Version := 2;
     pl_accepts :=
       [ {| scheme := "exact";
            network := x402_network;
            asset := default "0x833589fCD6eDb6E08f4c7C32D4f71b54bdA02913"
                             (usdc_addresses !! x402_network);
            X402.amount := amount_smallest;
            payTo := BASE_WALLET_ADDRESS cfg;
            maxTimeoutSeconds := 300;
            extra := default {| domain_name := "USD Coin"; domain_version := "2" |}
                             (eip712_domains !! x402_network) |} ];
     pl_resource := None |}.

(** The headers of a 402 answer, [_x402_headers] and
    [_reader_x402_headers]; [encode] is the serialisation
    [base64(json.dumps(payload))]. *)
Definition x402_headers (w : world) (encode : x402_payload -> string)
    (cfg : config) (payload : x402_payload) (amount : Q) : list (string * string) :=
  [ ("PAYMENT-REQUIRED", encode payload);
    ("X-PAYMENT-REQUIRED", py_str w (JFloat amount));
    ("X-PAYMENT-CURRENCY", "USDC");
    ("X-PAYMENT-CHAIN", "base");
    ("X-PAYMENT-RECIPIENT", BASE_WALLET_ADDRESS cfg) ].

Definition _x402_headers (w : world) (encode : x402_payload -> string)
    (cfg : config) (amount : Q) (description resource_url : string)
  : list (string * string) :=
  x402_headers w encode cfg (agent_x402_payload cfg amount resource_url description)
    amount.

Definition _reader_x402_headers (w : world) (encode : x402_payload -> string)
    (cfg : config) (amount : Q) : list (string * string) :=
  x402_headers w encode cfg (reader_x402_payload cfg amount) amount.

(** [_genesis_info] of [routes/agent.py]: the flag, and during the
    Genesis Epoch the days remaining and the discount text. *)
Record genesis_info : Type := {
  gi_genesis_epoch : bool;
  gi_genesis_days_remaining : option Z;
  gi_discount : option string
}.

Definition _genesis_info (now : Z) : genesis_info :=
  if is_genesis_epoch now then
    {| gi_genesis_epoch := true;
       gi_genesis_days_remaining := Some (genesis_days_remaining now);
       gi_discount := Some "20% off all paid endpoints" |}
  else
    {| gi_genesis_epoch := false; gi_genesis_days_remaining := None;
       gi_discount := None |}.

(** The body of a 402 answer, [_x402_payment_required_response]. *)
Record payment_required_body : Type := {
  b_error : string;
  b_version : string;
  b_amount : string;
  b_currency : string;
  b_network : string;
  b_description : string;
  b_facilitator : string;
  b_recipient : string;
  b_message : string;
  b_genesis : genesis_info
}.

Definition _x402_payment_required_response (w : world) (cfg : config) (now : Z)
    (amount : Q) (description : string) : payment_required_body :=
  {| b_error := "Payment required";
     b_version := "1.0";
     b_amount := py_str w (JFloat amount);
     b_currency := "USDC";
     b_network := "base";
     b_description := description;
     b_facilitator := "https://x402.org/facilitator";
     b_recipient := BASE_WALLET_ADDRESS cfg;
     b_message := "Payment required: $" +:+ VolumeTracker.format_2f amount
                  +:+ " USDC on Base L2";
     b_genesis := _genesis_info now |}.

(** The 402 that [_require_payment] raises. *)
Record payment_required : Type := {
  pr_status : Z;
  pr_detail : payment_required_body;
  pr_headers : list (string * string)
}.

(** [_require_payment] of [routes/agent.py], with the outbound calls
    made. *)
Definition _require_payment (w : world) (encode : x402_payload -> string)
    (cfg : config) (now : Z) (x_payment : option string) (amount : Q)
    (description : string)
  : (X402PaymentResult + payment_required) * list request :=
  let '(result, calls) :=
    verify_x402_payment w cfg (first_nonempty x_payment None) amount in
  if negb (valid result)
  then (inr {| pr_status := 402;
               pr_detail := _x402_payment_required_response w cfg now amount description;
               pr_headers := _x402_headers w encode cfg amount description "" |},
        calls)
  else (inl result, calls).

End Routes.

(** * Properties *)

(** ** Comparisons on clock readings and amounts *)

Lemma Qgtb_true x y : Qgtb x y = true <-> (y < x)%Q.
Proof.
  unfold Qgtb. rewrite negb_true_iff.
  destruct (Qle_bool x y) eqn:E.
  - apply Qle_bool_iff in E. split; [discriminate | intros H; lra].
  - split; [intros _ | reflexivity].
    destruct (Qlt_le_dec y x) as [H | H]; [exact H |].
    apply Qle_bool_iff in H. congruence.
Qed.

Lemma Qgtb_false x y : Qgtb x y = false <-> (x <= y)%Q.
Proof.
  unfold Qgtb. rewrite negb_false_iff. apply Qle_bool_iff.
Qed.

Lemma Qgeb_true x y : Qgeb x y = true <-> (y <= x)%Q.
Proof. unfold Qgeb. apply Qle_bool_iff. Qed.

(** ** The durable mode of the limiter *)

Module DurableLimiter.
Import RateLimiter.

Section OneDocument.

Variables (ref key wkey : string) (max_requests window_seconds : Z).

Abbreviation txn db now := (update_in_txn db ref key wkey max_requests window_seconds now).
Abbreviation run db nows := (txn_seq db ref key wkey max_requests window_seconds nows).

Lemma txn_absent db now :
  db !! ref = None ->
  exists d, txn db now = (<[ref := d]> db, true) /\ rl_count d = Some 1.
Proof.
  intros H. unfold update_in_txn. rewrite H. eexists. split; reflexivity.
Qed.

Lemma txn_below db now d :
  db !! ref = Some d -> get_count d < max_requests ->
  txn db now = (<[ref := set_count d (get_count d + 1)]> db, true).
Proof.
  intros H Hlt. unfold update_in_txn. rewrite H.
  destruct (get_count d >=? max_requests) eqn:E; [lia | reflexivity].
Qed.

Lemma txn_full db now d :
  db !! ref = Some d -> max_requests <= get_count d ->
  txn db now = (db, false).
Proof.
  intros H Hge. unfold update_in_txn. rewrite H.
  destruct (get_count d >=? max_requests) eqn:E; [reflexivity | lia].
Qed.

(** From a document that holds [c <= max_requests], the next
    [max_requests - c] calls are admitted and every later one is denied. *)
Lemma run_present nows : forall db d,
  db !! ref = Some d -> get_count d <= max_requests ->
  let k := Z.to_nat (max_requests - get_count d) in
  let n := length nows in
  exists d',
    run db nows
    = (<[ref := d']> db, replicate (Nat.min n k) true ++ replicate (n - k) false)
    /\ get_count d' = get_count d + Z.of_nat (Nat.min n k).
Proof.
  induction nows as [| now rest IH]; intros db d Hd Hle; cbn zeta.
  - exists d. cbn. rewrite insert_id by exact Hd. split; [reflexivity | lia].
  - cbn [txn_seq length].
    destruct (Z_lt_le_dec (get_count d) max_requests) as [Hlt | Hge].
    + rewrite (txn_below db now d Hd Hlt).
      set (d1 := set_count d (get_count d + 1)).
      destruct (IH (<[ref := d1]> db) d1) as (d' & Hrun & Hc).
      { apply lookup_insert_eq. }
      { unfold d1, get_count; cbn. unfold get_count in Hlt. lia. }
      rewrite Hrun. exists d'.
      assert (Hc1 : get_count d1 = get_count d + 1) by reflexivity.
      rewrite Hc1 in Hc |- *.
      replace (Z.to_nat (max_requests - get_count d))
        with (S (Z.to_nat (max_requests - (get_count d + 1)))) by lia.
      rewrite insert_insert_eq. split; [reflexivity | cbn; lia].
    + rewrite (txn_full db now d Hd Hge).
      destruct (IH db d Hd Hle) as (d' & Hrun & Hc).
      rewrite Hrun. exists d'.
      replace (Z.to_nat (max_requests - get_count d)) with O in * by lia.
      rewrite Nat.min_0_r in *. cbn [replicate app] in *.
      rewrite Nat.sub_0_r. split; [reflexivity | exact Hc].
Qed.

(** From a missing document and a limit of at least one, the first
    [max_requests] calls are admitted and every later one is denied. *)
Lemma run_absent nows db :
  1 <= max_requests -> db !! ref = None -> nows <> [] ->
  let k := Z.to_nat max_requests in
  let n := length nows in
  exists d',
    run db nows
    = (<[ref := d']> db, replicate (Nat.min n k) true ++ replicate (n - k) false)
    /\ get_count d' = Z.of_nat (Nat.min n k).
Proof.
  intros Hmax Hnone Hne. destruct nows as [| now rest]; [congruence |].
  cbn zeta. cbn [txn_seq length].
  destruct (txn_absent db now Hnone) as (d & Ht & Hc). rewrite Ht.
  assert (Hg : get_count d = 1) by (unfold get_count; rewrite Hc; reflexivity).
  destruct (run_present rest (<[ref := d]> db) d) as (d' & Hrun & Hc').
  { apply lookup_insert_eq. }
  { lia. }
  rewrite Hrun. exists d'. rewrite Hg in Hc' |- *.
  replace (Z.to_nat max_requests) with (S (Z.to_nat (max_requests - 1))) by lia.
  rewrite insert_insert_eq. split; [reflexivity | cbn; lia].
Qed.

End OneDocument.

(** Calls whose clock readings fall into one bucket run the transaction
    on one document. *)
Lemma firestore_seq_bucket key wkey max_requests window_seconds nows : forall db,
  Forall (fun now => window_key window_seconds now = Ok wkey) nows ->
  firestore_seq db key max_requests window_seconds nows
  = Ok (txn_seq db (doc_id key wkey) key wkey max_requests window_seconds nows).
Proof.
  induction nows as [| now rest IH]; intros db Hall; [reflexivity |].
  inversion Hall as [| ? ? Hnow Hrest]; subst.
  cbn [firestore_seq txn_seq]. unfold _check_firestore. rewrite Hnow. cbn [bind].
  destruct (update_in_txn _ _ _ _ _ _ _) as [db1 ok].
  rewrite (IH db1 Hrest).
  destruct (txn_seq _ _ _ _ _ _ _) as [db2 oks]. reflexivity.
Qed.

Lemma allowed_replicate n m :
  allowed (replicate n true ++ replicate m false) = n.
Proof.
  unfold allowed. rewrite List.filter_app, length_app.
  assert (H1 : forall k, length (List.filter (fun b : bool => b) (replicate k true)) = k).
  { induction k; cbn; lia. }
  assert (H2 : forall k, length (List.filter (fun b : bool => b) (replicate k false)) = O).
  { induction k; cbn; lia. }
  rewrite H1, H2. lia.
Qed.

Lemma answers_lookup (n k : nat) :
  let oks := replicate (Nat.min n k) true ++ replicate (n - k) false in
  (forall i, (i < n)%nat -> (i < k)%nat -> oks !! i = Some true)
  /\ ((k < n)%nat -> oks !! k = Some false).
Proof.
  cbn zeta. split.
  - intros i Hn Hk. rewrite lookup_app_l by (rewrite length_replicate; lia).
    apply lookup_replicate_2. lia.
  - intros Hk. rewrite lookup_app_r by (rewrite length_replicate; lia).
    rewrite length_replicate. apply lookup_replicate_2. lia.
Qed.

(** C1, as the code has it. The transaction of the durable mode admits a
    request and stores [count = 1] when the document of the (key, window
    bucket) pair is missing, increments the counter and admits when the
    document holds a count below [max_requests], and denies with the store
    untouched when the count has reached [max_requests], for every limit.
    Consequently, for calls of [_check_firestore] that fall into one bucket:
    from a stored count [c] of at most [max_requests] the count never
    exceeds [max_requests] and at most [max_requests - c] calls are admitted;
    and, for a limit of at least one, from a missing document exactly the
    first [max_requests] calls are admitted, the count never exceeds
    [max_requests] and call number [max_requests + 1] is denied. *)
Theorem durable_limiter_allows_at_most_max
    (db : gmap string rl_doc) (key wkey : string)
    (max_requests window_seconds : Z) :
  let ref := doc_id key wkey in
  let k := Z.to_nat max_requests in
  (forall now, db !! ref = None ->
     exists d,
       update_in_txn db ref key wkey max_requests window_seconds now
       = (<[ref := d]> db, true)
       /\ rl_count d = Some 1)
  /\ (forall now d, db !! ref = Some d -> get_count d < max_requests ->
        update_in_txn db ref key wkey max_requests window_seconds now
        = (<[ref := set_count d (get_count d + 1)]> db, true))
  /\ (forall now d, db !! ref = Some d -> max_requests <= get_count d ->
        update_in_txn db ref key wkey max_requests window_seconds now
        = (db, false))
  /\ (forall nows d,
        Forall (fun now => window_key window_seconds now = Ok wkey) nows ->
        db !! ref = Some d -> get_count d <= max_requests ->
        exists db' d' oks,
          firestore_seq db key max_requests window_seconds nows = Ok (db', oks)
          /\ db' !! ref = Some d'
          /\ get_count d' <= max_requests
          /\ get_count d + Z.of_nat (allowed oks) <= max_requests)
  /\ (forall nows,
        1 <= max_requests ->
        Forall (fun now => window_key window_seconds now = Ok wkey) nows ->
        db !! ref = None -> nows <> [] ->
        let n := length nows in
        exists db' d' oks,
          firestore_seq db key max_requests window_seconds nows = Ok (db', oks)
          /\ db' !! ref = Some d'
          /\ get_count d' = Z.of_nat (Nat.min n k)
          /\ get_count d' <= max_requests
          /\ allowed oks = Nat.min n k
          /\ (forall i, (i < n)%nat -> (i < k)%nat -> oks !! i = Some true)
          /\ ((k < n)%nat -> oks !! k = Some false)).
Proof.
  intros ref k.
  split; [intros now; apply txn_absent |].
  split; [intros now d; apply txn_below |].
  split; [intros now d; apply txn_full |].
  split.
  - intros nows d Hall Hd Hle.
    destruct (run_present ref key wkey max_requests window_seconds nows db d Hd Hle)
      as (d' & Hrun & Hc).
    eexists _, d', _. rewrite (firestore_seq_bucket key wkey) by exact Hall.
    fold ref. rewrite Hrun.
    split; [reflexivity |]. split; [apply lookup_insert_eq |].
    split; [rewrite Hc; lia |].
    rewrite allowed_replicate. lia.
  - intros nows Hmax Hall Hnone Hne n.
    destruct (run_absent ref key wkey max_requests window_seconds nows db Hmax Hnone Hne)
      as (d' & Hrun & Hc).
    eexists _, d', _. rewrite (firestore_seq_bucket key wkey) by exact Hall.
    fold ref. rewrite Hrun.
    split; [reflexivity |]. split; [apply lookup_insert_eq |].
    split; [exact Hc |]. split; [rewrite Hc; unfold k; lia |].
    split; [apply allowed_replicate |].
    apply answers_lookup.
Qed.

(** Three calls within one hourly bucket against a limit of two. *)
Lemma durable_limiter_allows_at_most_max_witness :
  exists db' oks,
    firestore_seq ∅ "search:203.0.113.7" 2 3600
      [1793750400000000; 1793750401000000; 1793750402500000]
    = Ok (db', oks)
    /\ allowed oks = 2%nat
    /\ oks !! 2%nat = Some false.
Proof.
  destruct (durable_limiter_allows_at_most_max ∅ "search:203.0.113.7" "498264"
              2 3600)
    as (_ & _ & _ & _ & H).
  destruct (H [1793750400000000; 1793750401000000; 1793750402500000])
    as (db' & d' & oks & Hrun & _ & _ & _ & Hadm & _ & Hf).
  - lia.
  - repeat constructor.
  - reflexivity.
  - discriminate.
  - exists db', oks. split; [exact Hrun |]. split; [exact Hadm |].
    apply Hf. cbn. lia.
Defined.

(** C1 as stated fails for a limit of zero: the first call of a bucket
    finds no document, is admitted and stores a count of one, above the
    limit, where the in-memory mode denies the same call. *)
Lemma durable_limit_zero_counterexample :
  exists db' d,
    firestore_seq ∅ "search:203.0.113.7" 0 3600 [1793750400000000]
    = Ok (db', [true])
    /\ db' !! doc_id "search:203.0.113.7" "498264" = Some d
    /\ get_count d = 1
    /\ ~ get_count d <= 0
    /\ snd (_check_memory ∅ "search:203.0.113.7" 0 3600 0) = false.
Proof.
  destruct (txn_absent (doc_id "search:203.0.113.7" "498264") "search:203.0.113.7"
              "498264" 0 3600 ∅ 1793750400000000 (lookup_empty _))
    as (d & Ht & Hc).
  exists (<[doc_id "search:203.0.113.7" "498264" := d]> ∅), d.
  split.
  { cbn [firestore_seq]. unfold _check_firestore.
    change (window_key 3600 1793750400000000) with (@Ok string "498264").
    cbn [bind]. rewrite Ht. reflexivity. }
  split; [apply lookup_insert_eq |].
  assert (Hg : get_count d = 1) by (unfold get_count; rewrite Hc; reflexivity).
  split; [exact Hg |]. split; [rewrite Hg; lia |].
  vm_compute. reflexivity.
Qed.

End DurableLimiter.

(** ** The in-memory mode of the limiter *)

Module MemoryLimiter.
Import RateLimiter.

Lemma dd_view_get (m : gmap string (list Q)) key :
  fst (dd_get m key) = dd_view m key.
Proof. unfold dd_get, dd_view. destruct (m !! key); reflexivity. Qed.

(** A read through the [defaultdict] leaves what every key reads as. *)
Lemma dd_get_view (m : gmap string (list Q)) key k :
  dd_view (snd (dd_get m key)) k = dd_view m k.
Proof.
  unfold dd_get, dd_view. destruct (m !! key) eqn:E; cbn; [reflexivity |].
  destruct (decide (key = k)) as [-> | Hne].
  - rewrite lookup_insert_eq, E. reflexivity.
  - rewrite lookup_insert_ne by exact Hne. reflexivity.
Qed.

Lemma dd_get_known (m : gmap string (list Q)) key l :
  m !! key = Some l -> dd_get m key = (l, m).
Proof. intros H. unfold dd_get. rewrite H. reflexivity. Qed.

Lemma dd_view_insert (m : gmap string (list Q)) key l :
  dd_view (<[key := l]> m) key = l.
Proof. unfold dd_view. rewrite lookup_insert_eq. reflexivity. Qed.

Lemma dd_view_insert_ne (m : gmap string (list Q)) key k l :
  key <> k -> dd_view (<[key := l]> m) k = dd_view m k.
Proof. intros H. unfold dd_view. rewrite lookup_insert_ne by exact H. reflexivity. Qed.

(** [_check_memory] in one step: the list of the key is replaced by the
    retained timestamps, with [now] appended when the call is admitted. *)
Lemma check_memory_eq mem key max_requests window_seconds now :
  let kept := retain (now - inject_Z window_seconds) (dd_view mem key) in
  _check_memory mem key max_requests window_seconds now
  = if Z.of_nat (length kept) >=? max_requests
    then (<[key := kept]> mem, false)
    else (<[key := kept ++ [now]]> mem, true).
Proof.
  cbn zeta. unfold _check_memory, dd_view.
  destruct (mem !! key) as [l |] eqn:E.
  - rewrite (dd_get_known mem key l E). cbn [default].
    rewrite (dd_get_known (<[key := _]> mem) key _ (lookup_insert_eq _ _ _)).
    destruct (_ >=? _); [reflexivity |].
    rewrite (dd_get_known (<[key := _]> mem) key _ (lookup_insert_eq _ _ _)).
    rewrite insert_insert_eq. reflexivity.
  - unfold dd_get at 1. rewrite E. cbn [default]. rewrite insert_insert_eq.
    rewrite (dd_get_known (<[key := _]> mem) key _ (lookup_insert_eq _ _ _)).
    destruct (_ >=? _); [reflexivity |].
    rewrite (dd_get_known (<[key := _]> mem) key _ (lookup_insert_eq _ _ _)).
    rewrite insert_insert_eq. reflexivity.
Qed.

Lemma retain_spec cutoff l t :
  In t (retain cutoff l) <-> In t l /\ (cutoff < t)%Q.
Proof.
  unfold retain. rewrite List.filter_In, Qgtb_true. reflexivity.
Qed.

(** Timestamps that have all left the window are all discarded. *)
Lemma retain_stale cutoff l :
  (forall t, In t l -> (t <= cutoff)%Q) -> retain cutoff l = [].
Proof.
  induction l as [| t l IH]; intros H; [reflexivity |].
  cbn. assert (E : Qgtb t cutoff = false).
  { apply Qgtb_false. apply H. left. reflexivity. }
  rewrite E. apply IH. intros u Hu. apply H. right. exact Hu.
Qed.

(** C3. In the in-memory mode a check first drops the recorded timestamps
    of the key that are not newer than [now - window_seconds], then denies
    without recording when [max_requests] or more are retained, and
    otherwise records [now] and admits; other keys are left as they are.
    Hence a caller denied at capacity is admitted again by a later check
    for which fewer than [max_requests] timestamps are still in the window,
    in particular once all of them have aged out. *)
Theorem memory_check_sliding_window
    (mem : gmap string (list Q)) (key : string)
    (max_requests window_seconds : Z) (now : Q) :
  let cutoff := (now - inject_Z window_seconds)%Q in
  let kept := retain cutoff (dd_view mem key) in
  let mem' := fst (_check_memory mem key max_requests window_seconds now) in
  let ok := snd (_check_memory mem key max_requests window_seconds now) in
  (forall t, In t kept <-> In t (dd_view mem key) /\ (cutoff < t)%Q)
  /\ (max_requests <= Z.of_nat (length kept) ->
        ok = false /\ dd_view mem' key = kept)
  /\ (Z.of_nat (length kept) < max_requests ->
        ok = true /\ dd_view mem' key = kept ++ [now])
  /\ (forall k, k <> key -> dd_view mem' k = dd_view mem k)
  /\ (ok = false ->
      forall later : Q,
        let still := retain (later - inject_Z window_seconds)%Q (dd_view mem' key) in
        (Z.of_nat (length still) < max_requests ->
           snd (_check_memory mem' key max_requests window_seconds later) = true)
        /\ (1 <= max_requests ->
            (forall t, In t (dd_view mem' key) ->
               (t + inject_Z window_seconds <= later)%Q) ->
            snd (_check_memory mem' key max_requests window_seconds later) = true)).
Proof.
  cbn zeta.
  pose proof (check_memory_eq mem key max_requests window_seconds now) as E.
  cbn zeta in E.
  set (kept := retain (now - inject_Z window_seconds) (dd_view mem key)) in *.
  split; [intros t; apply retain_spec |].
  split; [| split; [| split]].
  - intros Hge. rewrite E.
    destruct (Z.of_nat (length kept) >=? max_requests) eqn:C; [| lia].
    cbn. split; [reflexivity | apply dd_view_insert].
  - intros Hlt. rewrite E.
    destruct (Z.of_nat (length kept) >=? max_requests) eqn:C; [lia |].
    cbn. split; [reflexivity | apply dd_view_insert].
  - intros k Hne. rewrite E.
    destruct (Z.of_nat (length kept) >=? max_requests); cbn;
      apply dd_view_insert_ne; congruence.
  - intros _ later. cbn zeta.
    set (mem' := fst (_check_memory mem key max_requests window_seconds now)).
    pose proof (check_memory_eq mem' key max_requests window_seconds later) as E'.
    cbn zeta in E'. rewrite E'. split.
    + intros Hlt.
      destruct (Z.of_nat (length (retain _ (dd_view mem' key))) >=? max_requests)
        eqn:C; [lia | reflexivity].
    + intros Hmax Hstale. rewrite retain_stale.
      * cbn [length]. destruct (Z.of_nat 0 >=? max_requests) eqn:C;
          [apply Z.geb_le in C; change (Z.of_nat 0) with 0 in C; lia | reflexivity].
      * intros t Ht. specialize (Hstale t Ht). lra.
Qed.

(** Limit two, window of sixty seconds: two admissions at 0 and 1, a
    denial at 2, and an admission again at 61.5. *)
Lemma memory_check_sliding_window_witness :
  let mem := fst (_check_memory (fst (_check_memory ∅ "k" 2 60 0)) "k" 2 60 1) in
  snd (_check_memory mem "k" 2 60 2) = false
  /\ snd (_check_memory (fst (_check_memory mem "k" 2 60 2)) "k" 2 60 (123 # 2)) = true.
Proof.
  cbn zeta.
  set (mem := fst (_check_memory (fst (_check_memory ∅ "k" 2 60 0)) "k" 2 60 1)).
  destruct (memory_check_sliding_window mem "k" 2 60 2)
    as (_ & Hdeny & _ & _ & Hagain).
  assert (Hd : snd (_check_memory mem "k" 2 60 2) = false).
  { apply Hdeny. vm_compute. discriminate. }
  split; [exact Hd |].
  destruct (Hagain Hd (123 # 2)) as [Hgen _].
  apply Hgen. vm_compute. reflexivity.
Defined.

(** With a store, no store error and a window other than zero,
    [check_async] takes the durable path and leaves the in-memory map
    alone. *)
Lemma check_async_durable L db key max_requests window_seconds t :
  _db L = Some db -> fault t = None -> window_seconds <> 0 ->
  exists db' ok,
    check_async L key max_requests window_seconds t
    = ({| _memory := _memory L; _db := Some db' |}, ok).
Proof.
  intros Hdb Hf Hw. unfold check_async, _check_firestore, window_key.
  rewrite Hdb, Hf.
  destruct (window_seconds >=? 86400); cbn [bind].
  - destruct (update_in_txn _ _ _ _ _ _ _) as [db' ok]. eauto.
  - destruct (window_seconds =? 0) eqn:E; [lia |]. cbn [bind].
    destruct (update_in_txn _ _ _ _ _ _ _) as [db' ok]. eauto.
Qed.

Lemma check_async_seq_durable key max_requests window_seconds ts : forall L db,
  _db L = Some db -> Forall (fun t => fault t = None) ts -> window_seconds <> 0 ->
  _memory (fst (check_async_seq L key max_requests window_seconds ts)) = _memory L.
Proof.
  induction ts as [| t rest IH]; intros L db Hdb Hall Hw; [reflexivity |].
  inversion Hall as [| ? ? Ht Hrest]; subst. cbn [check_async_seq].
  destruct (check_async_durable L db key max_requests window_seconds t Hdb Ht Hw)
    as (db' & ok & E).
  rewrite E.
  specialize (IH {| _memory := _memory L; _db := Some db' |} db' eq_refl Hrest Hw).
  destruct (check_async_seq _ _ _ _ rest) as [L2 oks]. exact IH.
Qed.

Lemma remaining_eq L key max_requests window_seconds now :
  remaining L key max_requests window_seconds now
  = ({| _memory := snd (dd_get (_memory L) key); _db := _db L |},
     Z.max 0 (max_requests
              - Z.of_nat (length (retain (now - inject_Z window_seconds)
                                         (dd_view (_memory L) key))))).
Proof.
  unfold remaining. rewrite <- dd_view_get.
  destruct (dd_get (_memory L) key) as [l mem]. reflexivity.
Qed.

(** C9, as the code has it. [remaining] returns
    [max(0, max_requests - n)] where [n] counts the in-memory timestamps of
    the key newer than [now - window_seconds]. It changes no recorded
    timestamp: every key reads as before, and a key that the map already
    holds leaves the whole instance as it was; the one change it can make is
    to enter a key never seen before with an empty list. It does not look at
    the durable store, so admissions made through the durable path do not
    change its answer: after any number of them, with no timestamps in
    memory for the key, it reports [max(0, max_requests)], which is
    [max_requests] for a limit that is not negative. *)
Theorem remaining_ignores_durable_store
    (L : limiter) (key : string) (max_requests window_seconds : Z) (now : Q) :
  let active := retain (now - inject_Z window_seconds) (dd_view (_memory L) key) in
  let L' := fst (remaining L key max_requests window_seconds now) in
  let r := snd (remaining L key max_requests window_seconds now) in
  r = Z.max 0 (max_requests - Z.of_nat (length active))
  /\ _db L' = _db L
  /\ (forall k, dd_view (_memory L') k = dd_view (_memory L) k)
  /\ (is_Some (_memory L !! key) -> L' = L)
  /\ (forall db,
        snd (remaining {| _memory := _memory L; _db := db |}
               key max_requests window_seconds now) = r)
  /\ (forall db ts,
        _db L = Some db ->
        Forall (fun t => fault t = None) ts ->
        window_seconds <> 0 ->
        let L1 := fst (check_async_seq L key max_requests window_seconds ts) in
        snd (remaining L1 key max_requests window_seconds now) = r
        /\ (dd_view (_memory L) key = [] ->
            snd (remaining L1 key max_requests window_seconds now)
            = Z.max 0 max_requests)
        /\ (dd_view (_memory L) key = [] -> 0 <= max_requests ->
            snd (remaining L1 key max_requests window_seconds now)
            = max_requests)).
Proof.
  cbn zeta. rewrite remaining_eq. cbn [fst snd _memory _db].
  split; [reflexivity |]. split; [reflexivity |].
  split; [intros k; apply dd_get_view |].
  split.
  { intros [l Hl]. rewrite (dd_get_known _ _ _ Hl). destruct L; reflexivity. }
  split.
  { intros db. rewrite remaining_eq. reflexivity. }
  intros db ts Hdb Hall Hw. rewrite remaining_eq. cbn [snd].
  rewrite (check_async_seq_durable key max_requests window_seconds ts L db Hdb Hall Hw).
  split; [reflexivity |].
  split.
  - intros ->. cbn. f_equal. lia.
  - intros -> Hpos. cbn. lia.
Qed.

(** Three durable admissions on a fresh instance with a store: the answer
    is still the full limit. *)
Lemma remaining_ignores_durable_store_witness :
  let t := {| wall := 1793750400000000; mono := 10; fault := None |} in
  snd (remaining (fst (check_async_seq (set_db ∅ init) "preview:k" 5 86400 [t; t; t]))
         "preview:k" 5 86400 11) = 5.
Proof.
  intros t.
  destruct (remaining_ignores_durable_store (set_db ∅ init) "preview:k" 5 86400 11)
    as (_ & _ & _ & _ & _ & H).
  destruct (H ∅ [t; t; t]) as (_ & _ & Hfull).
  - reflexivity.
  - repeat constructor.
  - lia.
  - apply Hfull; [reflexivity | lia].
Defined.

(** C9 as stated fails twice: a first [remaining] for a key enters the key
    into the map, and with a negative limit the answer after a durable
    admission is [0], not the limit. *)
Lemma remaining_state_counterexample :
  fst (remaining init "k" 5 60 0) <> init
  /\ (let t := {| wall := 1793750400000000; mono := 10; fault := None |} in
      let run := check_async_seq (set_db ∅ init) "k" (-1) 60 [t] in
      snd run = [true]
      /\ snd (remaining (fst run) "k" (-1) 60 11) = 0).
Proof.
  split.
  - intros H. apply (f_equal (fun L => _memory L !! "k")) in H.
    vm_compute in H. discriminate.
  - split; vm_compute; reflexivity.
Qed.

End MemoryLimiter.

(** ** The volume tiers *)

Module VolumeTiers.
Import Pricing.

(** The loop returns the result of the first tier of the list whose
    minimum the count reaches, and the fallback when there is none. *)
Lemma scan_tiers_first now n tiers :
  (exists pre tier post,
      tiers = pre ++ tier :: post
      /\ Forall (fun t => n < vt_min t) pre
      /\ vt_min tier <= n
      /\ scan_tiers now tiers n = tier_result now tier n)
  \/ (Forall (fun t => n < vt_min t) tiers
      /\ scan_tiers now tiers n = fallback_info).
Proof.
  induction tiers as [| t rest IH].
  - right. split; [constructor | reflexivity].
  - cbn [scan_tiers]. destruct (n >=? vt_min t) eqn:E.
    + left. exists [], t, rest. cbn.
      split; [reflexivity |]. split; [constructor |]. split; [lia | reflexivity].
    + destruct IH as [(pre & tier & post & -> & Hpre & Hmin & Hres) | [Hall Hres]].
      * left. exists (t :: pre), tier, post. cbn.
        split; [reflexivity |].
        split; [constructor; [lia | exact Hpre] |].
        split; [exact Hmin | exact Hres].
      * right. split; [constructor; [lia | exact Hall] | exact Hres].
Qed.

Lemma tier_result_fields now tier n :
  label (tier_result now tier n) = vt_label tier
  /\ discount (tier_result now tier n) = vt_discount tier
  /\ cumulative_records (tier_result now tier n) = n.
Proof. unfold tier_result. destruct (is_genesis_epoch now); cbn; auto. Qed.

(** The thresholds of the table, top to bottom. *)
Lemma tiers_descending :
  map vt_min VOLUME_TIERS = [2000; 500; 100; 0]
  /\ map vt_label VOLUME_TIERS = ["Loyalty floor"; "Volume"; "Batch"; "Standard"].
Proof. split; reflexivity. Qed.

(** C6. For a 30-day record count that is not negative, the tier chosen
    is the first one, reading the thresholds 2000, 500, 100, 0 from the
    top, whose minimum the count reaches: 2000 or more gives the loyalty
    floor, 500 or more the volume tier, 100 or more the batch tier and
    anything below the standard tier. A count of 120 gives the batch tier
    and a count of 2120 the loyalty floor. *)
Theorem volume_tier_by_descending_threshold (now n : Z) :
  0 <= n ->
  (exists pre tier post,
      VOLUME_TIERS = pre ++ tier :: post
      /\ Forall (fun t => n < vt_min t) pre
      /\ vt_min tier <= n
      /\ get_volume_price now n = tier_result now tier n)
  /\ map vt_min VOLUME_TIERS = [2000; 500; 100; 0]
  /\ label (get_volume_price now n)
     = (if 2000 <=? n then "Loyalty floor"
        else if 500 <=? n then "Volume"
        else if 100 <=? n then "Batch"
        else "Standard")
  /\ discount (get_volume_price now n)
     = (if 2000 <=? n then "50%"
        else if 500 <=? n then "37%"
        else if 100 <=? n then "25%"
        else "0%")
  /\ cumulative_records (get_volume_price now n) = n
  /\ label (get_volume_price now 120) = "Batch"
  /\ label (get_volume_price now 2120) = "Loyalty floor".
Proof.
  intros Hn. split.
  { destruct (scan_tiers_first now n VOLUME_TIERS) as [H | [Hall _]]; [exact H |].
    exfalso. unfold VOLUME_TIERS in Hall.
    repeat match goal with H : Forall _ (_ :: _) |- _ =>
                    inversion H; clear H; subst end.
    cbn in *. lia. }
  split; [reflexivity |].
  assert (Hfields : forall m, 0 <= m ->
    label (get_volume_price now m)
    = (if 2000 <=? m then "Loyalty floor" else if 500 <=? m then "Volume"
       else if 100 <=? m then "Batch" else "Standard")
    /\ discount (get_volume_price now m)
       = (if 2000 <=? m then "50%" else if 500 <=? m then "37%"
          else if 100 <=? m then "25%" else "0%")
    /\ cumulative_records (get_volume_price now m) = m).
  { intros m Hm. unfold get_volume_price, VOLUME_TIERS. cbn [scan_tiers vt_min].
    repeat match goal with
           | |- context [?a >=? ?b] => destruct (Z.geb_spec a b)
           end;
    repeat match goal with
           | |- context [?a <=? ?b] => destruct (Z.leb_spec a b)
           end;
    try lia;
    unfold tier_result; destruct (is_genesis_epoch now); cbn; auto. }
  destruct (Hfields n Hn) as (Hl & Hd & Hc).
  split; [exact Hl |]. split; [exact Hd |]. split; [exact Hc |].
  split.
  - destruct (Hfields 120) as (H & _); [lia | exact H].
  - destruct (Hfields 2120) as (H & _); [lia | exact H].
Qed.

(** Three purchases of 40 records, then one of 2000 more. *)
Lemma volume_tier_by_descending_threshold_witness :
  label (get_volume_price 1793750400000000 (40 + 40 + 40)) = "Batch"
  /\ label (get_volume_price 1793750400000000 (40 + 40 + 40 + 2000)) = "Loyalty floor".
Proof.
  split.
  - destruct (volume_tier_by_descending_threshold 1793750400000000 (40 + 40 + 40))
      as (_ & _ & H & _); [lia | exact H].
  - destruct (volume_tier_by_descending_threshold 1793750400000000 (40 + 40 + 40 + 2000))
      as (_ & _ & H & _); [lia | exact H].
Defined.

End VolumeTiers.

(** ** The volume ledger *)

Module Ledger.
Import Pricing VolumeTracker.

Lemma sum_records_from (l : list event) : forall a,
  fold_left (fun acc e => acc + default 0 (ev_records e)) l a
  = a + sum_records l.
Proof.
  unfold sum_records. induction l as [| e l IH]; intros a; cbn; [lia |].
  rewrite IH, (IH (0 + _)). lia.
Qed.

Lemma sum_records_app l1 l2 :
  sum_records (l1 ++ l2) = sum_records l1 + sum_records l2.
Proof.
  unfold sum_records at 1. rewrite fold_left_app.
  fold (sum_records l1). apply sum_records_from.
Qed.

Lemma sum_spend_from (l : list event) : forall a,
  (fold_left (fun acc e => acc + default 0 (ev_amount_usd e)) l a
   == a + sum_spend l)%Q.
Proof.
  unfold sum_spend. induction l as [| e l IH]; intros a; cbn; [lra |].
  rewrite IH, (IH (0 + _)%Q). lra.
Qed.

Lemma sum_spend_app l1 l2 :
  (sum_spend (l1 ++ l2) == sum_spend l1 + sum_spend l2)%Q.
Proof.
  unfold sum_spend at 1. rewrite fold_left_app.
  fold (sum_spend l1). apply sum_spend_from.
Qed.

Lemma window_start_before now : now - timedelta_days WINDOW_DAYS < now.
Proof. unfold timedelta_days, WINDOW_DAYS, day_usec, usec. lia. Qed.

(** An event is retained when it has no timestamp or one newer than the
    start of the window. *)
Lemma in_window_spec now e :
  in_window now (now - timedelta_days WINDOW_DAYS) e = true
  <-> (forall ts, ev_timestamp e = Some ts -> now - timedelta_days WINDOW_DAYS < ts).
Proof.
  pose proof (window_start_before now) as Hw.
  unfold in_window. destruct (ev_timestamp e) as [ts |]; cbn.
  - split.
    + intros H ts' [= <-]. lia.
    + intros H. specialize (H ts eq_refl). lia.
  - split; [intros _ ts [=] | intros _; lia].
Qed.

Lemma prune_app now ws l1 l2 :
  prune now ws (l1 ++ l2) = prune now ws l1 ++ prune now ws l2.
Proof. apply List.filter_app. Qed.

(** An event that has aged out leaves the pruned list as if it had never
    been stored. *)
Lemma prune_drops_stale now pre e post ts :
  ev_timestamp e = Some ts -> ts <= now - timedelta_days WINDOW_DAYS ->
  prune now (now - timedelta_days WINDOW_DAYS) (pre ++ e :: post)
  = prune now (now - timedelta_days WINDOW_DAYS) (pre ++ post).
Proof.
  intros Hts Hold. rewrite !prune_app. f_equal. cbn.
  assert (E : in_window now (now - timedelta_days WINDOW_DAYS) e = false).
  { unfold in_window. rewrite Hts. cbn. lia. }
  rewrite E. reflexivity.
Qed.

(** A call that reaches the write: the store afterwards and the tier
    returned. *)
Lemma record_purchase_ok store now pnow wallet_address records amount_usd endpoint :
  wallet_address <> "" ->
  let doc := store !! wallet_address in
  record_purchase (Some store) no_faults now pnow wallet_address records
    amount_usd endpoint
  = (Some (<[wallet_address :=
              written_doc doc wallet_address now records amount_usd endpoint]> store),
     attach_outreach
       (get_volume_price pnow (fst (totals doc now records amount_usd endpoint)))
       (snd (totals doc now records amount_usd endpoint))).
Proof.
  intros Hw. cbn zeta. unfold record_purchase.
  destruct (String.eqb_spec wallet_address "") as [E | _]; [congruence |].
  cbn [get_fault set_fault no_faults].
  destruct (totals _ _ _ _ _) as [tr ts]. reflexivity.
Qed.

(** C7. For a wallet that has a ledger document, [record_purchase] first
    removes every stored event whose timestamp is not newer than
    [now - 30 days], then appends the new event, computes the record and
    spend totals over exactly that list, and writes the list, the record
    total and the spend total (rounded to cents) in one document. So the
    written list holds no event older than the window, and an event that
    has aged out changes neither the list nor the totals. *)
Theorem record_purchase_prunes_before_append
    (store : gmap string ledger_doc) (data : ledger_doc) (now pnow : Z)
    (wallet_address : string) (records : Z) (amount_usd : Q) (endpoint : string) :
  store !! wallet_address = Some data ->
  wallet_address <> "" ->
  let window_start := now - timedelta_days WINDOW_DAYS in
  let stored := default [] (ld_events data) in
  let kept := prune now window_start stored in
  let events := kept ++ [new_event now records amount_usd endpoint] in
  let out := record_purchase (Some store) no_faults now pnow wallet_address
               records amount_usd endpoint in
  exists doc,
    fst out = Some (<[wallet_address := doc]> store)
    /\ ld_events doc = Some events
    /\ ld_records_30d doc = Some (sum_records events)
    /\ ld_spend_30d doc = py_round_n (sum_spend events) 2
    /\ sum_records events = sum_records kept + records
    /\ (sum_spend events == sum_spend kept + amount_usd)%Q
    /\ (forall e, In e kept <->
          In e stored /\ (forall ts, ev_timestamp e = Some ts -> window_start < ts))
    /\ (forall e ts, In e events -> ev_timestamp e = Some ts -> window_start < ts)
    /\ (forall pre e post ts,
          stored = pre ++ e :: post -> ev_timestamp e = Some ts ->
          ts <= window_start ->
          events = prune now window_start (pre ++ post)
                   ++ [new_event now records amount_usd endpoint])
    /\ snd out = attach_outreach (get_volume_price pnow (sum_records events))
                                  (sum_spend events).
Proof.
  intros Hdoc Hw. cbn zeta.
  rewrite (record_purchase_ok store now pnow wallet_address records amount_usd
             endpoint Hw).
  cbn zeta. rewrite Hdoc. cbn [fst snd].
  set (window_start := now - timedelta_days WINDOW_DAYS).
  set (kept := prune now window_start (default [] (ld_events data))).
  set (ev := new_event now records amount_usd endpoint).
  eexists. split; [reflexivity |].
  unfold written_doc, totals, next_events. fold window_start kept ev.
  cbn [ld_events ld_records_30d ld_spend_30d fst snd].
  split; [reflexivity |]. split; [reflexivity |]. split; [reflexivity |].
  split.
  { rewrite sum_records_app. unfold sum_records at 2. cbn. lia. }
  split.
  { rewrite sum_spend_app. unfold sum_spend at 2. cbn. lra. }
  assert (Hkept : forall e, In e kept <->
            In e (default [] (ld_events data))
            /\ (forall ts, ev_timestamp e = Some ts -> window_start < ts)).
  { intros e. unfold kept, prune. rewrite List.filter_In.
    unfold window_start. rewrite in_window_spec. reflexivity. }
  split; [exact Hkept |].
  split.
  { intros e ts Hin Hts. apply in_app_or in Hin. destruct Hin as [Hin | [<- | []]].
    - apply Hkept in Hin. apply (proj2 Hin ts Hts).
    - cbn in Hts. injection Hts as <-. apply window_start_before. }
  split.
  { intros pre e post ts Hst Hts Hold. f_equal. unfold kept. rewrite Hst.
    apply (prune_drops_stale now pre e post ts Hts Hold). }
  reflexivity.
Qed.

(** A ledger with an event of forty days ago and one of yesterday: the
    purchase drops the first and keeps the second. *)
Lemma record_purchase_prunes_before_append_witness :
  let day := day_usec in
  let now := 1793750400000000 in
  let old := {| ev_timestamp := Some (now - 40 * day); ev_records := Some 500;
                ev_amount_usd := Some 100%Q; ev_endpoint := Some "oracle" |} in
  let recent := {| ev_timestamp := Some (now - day); ev_records := Some 40;
                   ev_amount_usd := Some 8%Q; ev_endpoint := Some "oracle" |} in
  let data := {| ld_wallet_address := "0xA1"; ld_events := Some [old; recent];
                 ld_records_30d := Some 540; ld_spend_30d := 108;
                 ld_last_updated := now - day; ld_first_seen := Some (now - 40 * day) |} in
  exists doc,
    fst (record_purchase (Some {["0xA1" := data]}) no_faults now now "0xA1" 40 8 "oracle")
    = Some (<["0xA1" := doc]> {["0xA1" := data]})
    /\ ld_events doc = Some [recent; new_event now 40 8 "oracle"]
    /\ ld_records_30d doc = Some 80.
Proof.
  intros day now old recent data.
  destruct (record_purchase_prunes_before_append {["0xA1" := data]} data now now
              "0xA1" 40 8 "oracle")
    as (doc & Hout & Hev & Hrec & _).
  - apply lookup_singleton_eq.
  - discriminate.
  - exists doc. split; [exact Hout |]. split; [exact Hev | exact Hrec].
Defined.


(** The outreach flag of a call that reaches the write is the comparison
    [total_spend >= 200.00] on the spend total of the window. *)
Lemma outreach_flag_is_geq store now pnow wallet_address records amount_usd endpoint :
  wallet_address <> "" ->
  let total_spend :=
    snd (totals (store !! wallet_address) now records amount_usd endpoint) in
  enterprise_outreach
    (snd (record_purchase (Some store) no_faults now pnow wallet_address records
            amount_usd endpoint))
  = Some (Qgeb total_spend ENTERPRISE_OUTREACH_THRESHOLD_USD).
Proof.
  intros Hw. cbn zeta.
  rewrite (record_purchase_ok store now pnow wallet_address records amount_usd
             endpoint Hw).
  reflexivity.
Qed.

(** C8, at the boundary. A first purchase of exactly 200.00 USD by a
    wallet gives a spend total of 200.00, which does not strictly exceed the
    threshold, and yet the returned tier info carries the outreach flag set
    and the outreach message. *)
Theorem outreach_set_at_exact_threshold :
  let out := record_purchase (Some ∅) no_faults 1793750400000000 1793750400000000
               "0xA1" 1 200 "oracle" in
  snd (totals ((∅ : gmap string ledger_doc) !! "0xA1")
         1793750400000000 1 200 "oracle") = 200%Q
  /\ Qgtb 200 ENTERPRISE_OUTREACH_THRESHOLD_USD = false
  /\ enterprise_outreach (snd out) = Some true
  /\ is_Some (enterprise_message (snd out)).
Proof.
  cbn zeta. split; [reflexivity |]. split; [reflexivity |].
  split; [vm_compute; reflexivity |].
  vm_compute. eexists. reflexivity.
Qed.

End Ledger.

(** ** Payment verification *)

Module PaymentVerification.
Import X402.

(** C4. With an empty proof header the verification returns an invalid
    result carrying the missing-header error, whatever the required amount,
    the settings and the world, and makes no outbound call. *)
Theorem empty_header_fails_without_call
    (w : world) (cfg : config) (required_amount_usd : Q) :
  let out := verify_x402_payment w cfg "" required_amount_usd in
  valid (fst out) = false
  /\ error (fst out) = JStr "Missing payment header"
  /\ snd out = [].
Proof. cbn zeta. unfold verify_x402_payment. cbn. auto. Qed.

(** Outside the test mode, a header that is not empty goes to the two
    decoders. *)
Lemma verify_decodes w cfg payment_header required_amount_usd :
  payment_header <> "" -> X402_TEST_MODE cfg = false ->
  verify_x402_payment w cfg payment_header required_amount_usd
  = match decode_header w payment_header with
    | None => (failed (JStr "Cannot decode payment header"), [])
    | Some payment_payload =>
        (handle (fst (settle_attempt w cfg payment_payload required_amount_usd)),
         snd (settle_attempt w cfg payment_payload required_amount_usd))
    end.
Proof.
  intros Hne Htest. unfold verify_x402_payment.
  destruct (String.eqb_spec payment_header "") as [E | _]; [congruence |].
  rewrite Htest. destruct (decode_header w payment_header); [| reflexivity].
  destruct (settle_attempt _ _ _ _). reflexivity.
Qed.

(** A header that decodes to a payload with a readable version, with
    headers that build, reaches the facilitator exactly once, and the result
    is the reading of its answer. *)
Lemma verify_reaches_facilitator w cfg payment_header required_amount_usd
    payload version headers :
  payment_header <> "" -> X402_TEST_MODE cfg = false ->
  decode_header w payment_header = Some payload ->
  read_version payload = Ok version ->
  build_headers w cfg = Ok headers ->
  let req := settle_request cfg version payload required_amount_usd headers in
  verify_x402_payment w cfg payment_header required_amount_usd
  = (handle (bind (post w req) (interpret_response w required_amount_usd)), [req]).
Proof.
  intros Hne Htest Hdec Hv Hh. cbn zeta.
  rewrite (verify_decodes w cfg payment_header required_amount_usd Hne Htest), Hdec.
  unfold settle_attempt. rewrite Hv, Hh. reflexivity.
Qed.

(** Only an object has a version to read. *)
Lemma read_version_cases payload :
  (exists m, payload = JObj m
             /\ read_version payload = Ok (default (JInt 1) (m !! "x402Version")))
  \/ ((forall m, payload <> JObj m)
      /\ read_version payload
         = Raise (AttributeError ("'" +:+ type_name payload
                                  +:+ "' object has no attribute 'get'"))).
Proof.
  destruct payload; try (right; split; [intros m' [=] | reflexivity]).
  left. eexists. split; reflexivity.
Qed.

Lemma str_take_length n s : (String.length (str_take n s) <= n)%nat.
Proof.
  revert s. induction n as [| n IH]; intros s; [cbn; lia |].
  destruct s as [| c s]; cbn; [lia |]. specialize (IH s). lia.
Qed.

(** C5. Outside the test mode and for a header that is not empty: when
    base64 decoding followed by JSON parsing succeeds, its value is the
    payload with which the verification goes on, whatever raw parsing would
    give; when that attempt raises, the header parsed as raw JSON is the
    payload with which it goes on; when both raise, the result is invalid
    with the cannot-decode error and no call is made. For a payload that is
    an object the version read is its [x402Version] field, or 1 when the
    field is absent, and, when the request headers build, exactly one
    request goes to the facilitator, carrying that version and the payload,
    and the result is the reading of its answer. *)
Theorem header_decoding_order
    (w : world) (cfg : config) (payment_header : string) (required_amount_usd : Q) :
  payment_header <> "" ->
  X402_TEST_MODE cfg = false ->
  let first := bind (b64decode w payment_header) (json_loads w) in
  let out := verify_x402_payment w cfg payment_header required_amount_usd in
  let goes_on_with p :=
    out = (handle (fst (settle_attempt w cfg p required_amount_usd)),
           snd (settle_attempt w cfg p required_amount_usd)) in
  (forall p, first = Ok p ->
     decode_header w payment_header = Some p /\ goes_on_with p)
  /\ (forall e p, first = Raise e -> json_loads w payment_header = Ok p ->
        decode_header w payment_header = Some p /\ goes_on_with p)
  /\ (forall e e', first = Raise e -> json_loads w payment_header = Raise e' ->
        decode_header w payment_header = None
        /\ out = (failed (JStr "Cannot decode payment header"), []))
  /\ (forall m, decode_header w payment_header = Some (JObj m) ->
        read_version (JObj m) = Ok (default (JInt 1) (m !! "x402Version"))
        /\ (m !! "x402Version" = None -> read_version (JObj m) = Ok (JInt 1))
        /\ (forall req, In req (snd out) ->
              x402Version (req_json req) = default (JInt 1) (m !! "x402Version")
              /\ paymentPayload (req_json req) = JObj m)
        /\ (forall headers, build_headers w cfg = Ok headers ->
              let req := settle_request cfg (default (JInt 1) (m !! "x402Version"))
                           (JObj m) required_amount_usd headers in
              snd out = [req]
              /\ fst out
                 = handle (bind (post w req)
                             (interpret_response w required_amount_usd))
              /\ x402Version (req_json req) = default (JInt 1) (m !! "x402Version")
              /\ paymentPayload (req_json req) = JObj m)
        /\ (forall e, build_headers w cfg = Raise e ->
              snd out = [] /\ fst out = handle (Raise e))).
Proof.
  intros Hne Htest. cbn zeta.
  pose proof (verify_decodes w cfg payment_header required_amount_usd Hne Htest) as Hv.
  split.
  { intros p H.
    assert (Hd : decode_header w payment_header = Some p)
      by (unfold decode_header; rewrite H; reflexivity).
    split; [exact Hd |]. rewrite Hv, Hd. reflexivity. }
  split.
  { intros e p H1 H2.
    assert (Hd : decode_header w payment_header = Some p)
      by (unfold decode_header; rewrite H1, H2; reflexivity).
    split; [exact Hd |]. rewrite Hv, Hd. reflexivity. }
  split.
  { intros e e' H1 H2.
    assert (Hd : decode_header w payment_header = None)
      by (unfold decode_header; rewrite H1, H2; reflexivity).
    split; [exact Hd |]. rewrite Hv, Hd. reflexivity. }
  intros m Hdec. split; [reflexivity |].
  split; [intros H; unfold read_version, dict_get; rewrite H; reflexivity |].
  rewrite Hv, Hdec. unfold settle_attempt, read_version, dict_get.
  split.
  { intros req Hin.
    destruct (build_headers w cfg) as [headers | e]; cbn in Hin; [| contradiction].
    destruct Hin as [<- | []]. split; reflexivity. }
  split.
  - intros headers ->. cbn [fst snd]. auto.
  - intros e ->. cbn [fst snd]. auto.
Qed.

(** The base64 text of the empty object reaches the facilitator, once,
    with version 1, and is settled; the raw text of the empty list decodes
    on the second attempt; a text that is neither is refused without a
    call. *)
Lemma header_decoding_order_witness :
  let w := example_world (answers_200 (JStr "0xABCDEF")) in
  decode_header w "e30=" = Some (JObj ∅)
  /\ decode_header w "[]" = Some (JArr [])
  /\ verify_x402_payment w default_config "not json" (1 # 100)
     = (failed (JStr "Cannot decode payment header"), [])
  /\ verify_x402_payment w default_config "e30=" (1 # 100)
     = (settled (1 # 100) (JStr "0xABCDEF"),
        [settle_request default_config (JInt 1) (JObj ∅) (1 # 100)
           [("Content-Type", "application/json")]]).
Proof.
  intros w.
  destruct (header_decoding_order w default_config "e30=" (1 # 100))
    as (H1 & _ & _ & H4); [discriminate | reflexivity |].
  destruct (header_decoding_order w default_config "[]" (1 # 100))
    as (_ & H2 & _ & _); [discriminate | reflexivity |].
  destruct (header_decoding_order w default_config "not json" (1 # 100))
    as (_ & _ & H3 & _); [discriminate | reflexivity |].
  split; [apply H1; reflexivity |].
  split; [apply (H2 (OtherException "Expecting value")); reflexivity |].
  split; [apply (H3 (OtherException "Incorrect padding")
                    (OtherException "Expecting value")); reflexivity |].
  destruct (H4 ∅ (proj1 (H1 _ eq_refl))) as (_ & _ & _ & Hsend & _).
  destruct (Hsend [("Content-Type", "application/json")] eq_refl)
    as (Hcalls & Hres & _).
  rewrite (surjective_pairing (verify_x402_payment w default_config "e30=" (1 # 100))).
  rewrite Hcalls, Hres. reflexivity.
Defined.

(** The transaction reference that a settled object answer yields. *)
Lemma interpret_object w required_amount_usd resp m :
  status_code resp = 200 -> resp_json resp = Ok (JObj m) ->
  interpret_response w required_amount_usd resp
  = Ok (if truthy (default (JBool false) (m !! "success"))
        then settled required_amount_usd
               (let tx_field := default (default (JStr "") (m !! "txHash"))
                                        (m !! "transaction") in
                match tx_field with
                | JObj t => default (JStr "") (t !! "txHash")
                | _ => JStr (py_str w tx_field)
                end)
        else failed (default (JStr "Settlement failed") (m !! "error"))).
Proof.
  intros Hs Hj. unfold interpret_response. rewrite Hs, Hj. cbn [Z.eqb negb bind].
  rewrite Pos.eqb_refl. cbn [negb].
  destruct (truthy _); reflexivity.
Qed.

(** C2. For a header that decodes and any required amount, outside the
    test mode, the function returns a result in every case. If the payload
    is not an object, so that it has no version to read, or if building the
    request headers raises, the result is invalid with a descriptive error
    and no call is made. Otherwise exactly one request goes to the
    facilitator and its outcome is read as follows. A status other than 200
    gives an invalid result whose error holds the status and the first 200
    characters of the body. A 200 body that is a bare string gives a valid
    result with that string as transaction reference and the required
    amount as settled amount. A 200 object whose [success] is false gives an
    invalid result with the object's [error] field ("Settlement failed"
    when there is none). A 200 object whose [success] is true gives a valid
    result with the required amount and the reference taken from the string
    in [transaction], else from the string in [txHash], or from the [txHash]
    field of an object in [transaction]. A timeout gives an invalid result
    with the timeout error, and any other exception, of the call or of
    reading the body, an invalid result with the exception's message. *)
Theorem facilitator_response_interpretation
    (w : world) (cfg : config) (payment_header : string)
    (required_amount_usd : Q) (payload : json) :
  payment_header <> "" ->
  X402_TEST_MODE cfg = false ->
  decode_header w payment_header = Some payload ->
  let out := verify_x402_payment w cfg payment_header required_amount_usd in
  let res := fst out in
  ((forall m, payload <> JObj m) ->
     valid res = false /\ snd out = []
     /\ error res = JStr ("Verification error: '" +:+ type_name payload
                          +:+ "' object has no attribute 'get'"))
  /\ (forall version e, read_version payload = Ok version ->
        build_headers w cfg = Raise e ->
        valid res = false /\ snd out = []
        /\ (forall msg, e = TimeoutException msg ->
              error res = JStr "x402 facilitator timeout")
        /\ ((forall msg, e <> TimeoutException msg) ->
              error res = JStr ("Verification error: " +:+ str_exn e)))
  /\ (forall version headers, read_version payload = Ok version ->
      build_headers w cfg = Ok headers ->
      let req := settle_request cfg version payload required_amount_usd headers in
      snd out = [req]
      /\ (forall resp, post w req = Ok resp -> status_code resp <> 200 ->
            valid res = false
            /\ error res
               = JStr ("Facilitator settle failed (" +:+ str_int (status_code resp)
                       +:+ "): " +:+ str_take 200 (text resp))
            /\ (String.length (str_take 200 (text resp)) <= 200)%nat)
      /\ (forall resp s, post w req = Ok resp -> status_code resp = 200 ->
            resp_json resp = Ok (JStr s) ->
            res = settled required_amount_usd (JStr s))
      /\ (forall resp m, post w req = Ok resp -> status_code resp = 200 ->
            resp_json resp = Ok (JObj m) ->
            m !! "success" = Some (JBool false) ->
            res = failed (default (JStr "Settlement failed") (m !! "error"))
            /\ (forall v, m !! "error" = Some v -> error res = v))
      /\ (forall resp m, post w req = Ok resp -> status_code resp = 200 ->
            resp_json resp = Ok (JObj m) ->
            m !! "success" = Some (JBool true) ->
            valid res = true /\ amount_usd res = required_amount_usd
            /\ (forall s, m !! "transaction" = Some (JStr s) ->
                  tx_hash res = JStr s)
            /\ (forall s, m !! "transaction" = None ->
                  m !! "txHash" = Some (JStr s) -> tx_hash res = JStr s)
            /\ (forall t, m !! "transaction" = Some (JObj t) ->
                  tx_hash res = default (JStr "") (t !! "txHash")))
      /\ (forall msg, post w req = Raise (TimeoutException msg) ->
            res = failed (JStr "x402 facilitator timeout"))
      /\ (forall e, post w req = Raise e ->
            (forall msg, e <> TimeoutException msg) ->
            res = failed (JStr ("Verification error: " +:+ str_exn e)))
      /\ (forall resp e, post w req = Ok resp -> status_code resp = 200 ->
            resp_json resp = Raise e ->
            (forall msg, e <> TimeoutException msg) ->
            res = failed (JStr ("Verification error: " +:+ str_exn e)))).
Proof.
  intros Hne Htest Hdec. cbn zeta. split; [| split].
  - intros Hnot.
    rewrite (verify_decodes w cfg payment_header required_amount_usd Hne Htest), Hdec.
    destruct (read_version_cases payload) as [(m & -> & _) | (_ & Hr)].
    + exfalso. apply (Hnot m). reflexivity.
    + unfold settle_attempt. rewrite Hr. cbn. auto.
  - intros version e Hv He.
    rewrite (verify_decodes w cfg payment_header required_amount_usd Hne Htest), Hdec.
    unfold settle_attempt. rewrite Hv, He. cbn [fst snd].
    split; [destruct e; reflexivity |]. split; [reflexivity |].
    split; [intros msg ->; reflexivity |].
    intros Hnt. destruct e; try reflexivity. exfalso. eapply Hnt. reflexivity.
  - intros version headers Hv Hh.
    rewrite (verify_reaches_facilitator w cfg payment_header required_amount_usd
               payload version headers Hne Htest Hdec Hv Hh).
    cbn [fst snd]. split; [reflexivity |].
    split.
    { intros resp -> Hs. cbn [bind]. unfold interpret_response.
      destruct (Z.eqb_spec (status_code resp) 200) as [E | _]; [congruence |].
      cbn [negb]. split; [reflexivity |].
      split; [reflexivity | apply str_take_length]. }
    split.
    { intros resp s -> Hs Hj. cbn [bind]. unfold interpret_response.
      rewrite Hs, Hj. reflexivity. }
    split.
    { intros resp m -> Hs Hj Hsucc. cbn [bind].
      rewrite (interpret_object w required_amount_usd resp m Hs Hj), Hsucc.
      cbn. split; [reflexivity |]. intros v ->. reflexivity. }
    split.
    { intros resp m -> Hs Hj Hsucc. cbn [bind].
      rewrite (interpret_object w required_amount_usd resp m Hs Hj), Hsucc.
      cbn. split; [reflexivity |]. split; [reflexivity |].
      split; [intros s ->; reflexivity |].
      split; [intros s -> ->; reflexivity |].
      intros t ->. reflexivity. }
    split; [intros msg ->; reflexivity |].
    split.
    { intros e -> Hnt. cbn [bind]. destruct e; try reflexivity.
      exfalso. eapply Hnt. reflexivity. }
    intros resp e -> Hs Hj Hnt. cbn [bind]. unfold interpret_response.
    rewrite Hs, Hj. cbn. destruct e; try reflexivity.
    exfalso. eapply Hnt. reflexivity.
Qed.

(** The facilitator refuses with an error text: the text is the error of
    the result. *)
Lemma facilitator_response_interpretation_witness :
  let body := JObj (<["success" := JBool false]>
                    (<["error" := JStr "insufficient funds"]> ∅)) in
  let w := example_world (answers_200 body) in
  let res := fst (verify_x402_payment w default_config "e30=" (5 # 100)) in
  valid res = false /\ error res = JStr "insufficient funds".
Proof.
  intros body w res.
  destruct (facilitator_response_interpretation w default_config "e30=" (5 # 100)
              (JObj ∅))
    as (_ & _ & H); [discriminate | reflexivity | reflexivity |].
  destruct (H (JInt 1) [("Content-Type", "application/json")] eq_refl eq_refl)
    as (_ & _ & _ & Hfalse & _).
  destruct (Hfalse {| status_code := 200; text := ""; resp_json := Ok body |}
              (<["success" := JBool false]>
                 (<["error" := JStr "insufficient funds"]> ∅)))
    as (Hres & Herr); try reflexivity.
  split.
  - unfold res. rewrite Hres. reflexivity.
  - apply Herr. reflexivity.
Defined.

(** C10, as the code has it. A 200 answer that is an object without a
    [success] field counts as a failed settlement, also when it carries a
    [transaction] or [txHash] field: the result is invalid, and its error is
    the object's [error] field when it has one and the generic
    "Settlement failed" otherwise. *)
Theorem missing_success_is_failure
    (w : world) (cfg : config) (payment_header : string)
    (required_amount_usd : Q) (m0 m : gmap string json)
    (headers : list (string * string)) (resp : response) :
  payment_header <> "" ->
  X402_TEST_MODE cfg = false ->
  decode_header w payment_header = Some (JObj m0) ->
  build_headers w cfg = Ok headers ->
  post w (settle_request cfg (default (JInt 1) (m0 !! "x402Version")) (JObj m0)
            required_amount_usd headers) = Ok resp ->
  status_code resp = 200 ->
  resp_json resp = Ok (JObj m) ->
  m !! "success" = None ->
  let res := fst (verify_x402_payment w cfg payment_header required_amount_usd) in
  valid res = false
  /\ error res = default (JStr "Settlement failed") (m !! "error")
  /\ (m !! "error" = None -> error res = JStr "Settlement failed")
  /\ tx_hash res = JStr "".
Proof.
  intros Hne Htest Hdec Hh Hpost Hs Hj Hsucc. cbn zeta.
  rewrite (verify_reaches_facilitator w cfg payment_header required_amount_usd
             (JObj m0) _ headers Hne Htest Hdec eq_refl Hh).
  cbn [fst]. rewrite Hpost. cbn [bind].
  rewrite (interpret_object w required_amount_usd resp m Hs Hj), Hsucc.
  cbn. split; [reflexivity |]. split; [reflexivity |].
  split; [intros ->; reflexivity | reflexivity].
Qed.

(** An answer with a transaction hash and no [success] field. *)
Lemma missing_success_is_failure_witness :
  let body := JObj (<["txHash" := JStr "0xABCDEF"]> ∅) in
  let w := example_world (answers_200 body) in
  let res := fst (verify_x402_payment w default_config "e30=" (5 # 100)) in
  valid res = false /\ error res = JStr "Settlement failed".
Proof.
  intros body w res.
  destruct (missing_success_is_failure w default_config "e30=" (5 # 100) ∅
              (<["txHash" := JStr "0xABCDEF"]> ∅)
              [("Content-Type", "application/json")]
              {| status_code := 200; text := ""; resp_json := Ok body |})
    as (Hv & _ & He & _); try reflexivity; [discriminate |].
  split; [exact Hv | apply He; reflexivity].
Defined.

(** C10 as stated fails: an object without [success] that has an [error]
    field gives that field, not the generic error. *)
Lemma missing_success_generic_error_counterexample :
  let body := JObj (<["error" := JStr "insufficient funds"]> ∅) in
  let w := example_world (answers_200 body) in
  let res := fst (verify_x402_payment w default_config "e30=" (5 # 100)) in
  valid res = false
  /\ error res = JStr "insufficient funds"
  /\ error res <> JStr "Settlement failed".
Proof.
  cbn zeta. split; [vm_compute; reflexivity |].
  split; [vm_compute; reflexivity |].
  vm_compute. discriminate.
Qed.

End PaymentVerification.

(** ** The price table *)

Module PriceTableProps.
Import Pricing PriceTable.

(** The Genesis Epoch discount is active exactly before the end of day 90
    after the launch date, which includes every time before the launch, and
    exactly while the days remaining are positive. *)
Theorem genesis_epoch_window (now : Z) :
  (is_genesis_epoch now = true
   <-> now < GENESIS_EPOCH_START + timedelta_days GENESIS_EPOCH_DAYS)
  /\ (is_genesis_epoch now = true <-> 0 < genesis_days_remaining now)
  /\ 0 <= genesis_days_remaining now
  /\ (GENESIS_EPOCH_START <= now -> genesis_days_remaining now <= GENESIS_EPOCH_DAYS).
Proof.
  unfold is_genesis_epoch, genesis_days_remaining, days_between,
    timedelta_days, GENESIS_EPOCH_DAYS.
  assert (Hd : 0 < day_usec) by (unfold day_usec, usec; lia).
  set (e := (now - GENESIS_EPOCH_START) / day_usec).
  assert (He : e < 90 <-> now - GENESIS_EPOCH_START < 90 * day_usec).
  { unfold e. split; intros H.
    - apply Z.nle_gt. intros Hge.
      assert (90 <= (now - GENESIS_EPOCH_START) / day_usec)
        by (apply Z.div_le_lower_bound; lia).
      lia.
    - apply Z.div_lt_upper_bound; lia. }
  split; [rewrite Z.ltb_lt; rewrite He; lia |].
  split; [rewrite Z.ltb_lt; lia |].
  split; [lia |].
  intros Hs. assert (0 <= e) by (unfold e; apply Z.div_pos; lia). lia.
Qed.

Ltac case_product product :=
  repeat match goal with
         | |- context [String.eqb product ?s] =>
             destruct (String.eqb_spec product s)
         end.

Ltac case_quantity :=
  repeat match goal with
         | |- context [?q >=? ?n] => destruct (Z.geb_spec q n)
         end.

(** The tier that [get_tier_for_quantity] recommends can always be
    priced: for a quantity of at least one, [calculate_price] on the
    recommended tier and the same quantity does not raise, whatever the user
    type, the product and the time. *)
Theorem recommended_tier_is_priced
    (now quantity : Z) (user_type : UserType) (product : string) :
  1 <= quantity ->
  exists info,
    calculate_price now (get_tier_for_quantity quantity user_type product) quantity
    = Priced info
    /\ pi_tier info = get_tier_for_quantity quantity user_type product
    /\ pi_quantity info = quantity.
Proof.
  intros Hq. unfold get_tier_for_quantity.
  destruct user_type; case_product product; case_quantity;
    unfold calculate_price; cbn [String.eqb Ascii.eqb Bool.eqb];
    cbn [tier_lookup PRICING_TIERS String.eqb Ascii.eqb Bool.eqb pt_min_quantity];
    match goal with
    | |- context [quantity <? ?n] => destruct (Z.ltb_spec quantity n); [lia |]
    end;
    (eexists; split; [reflexivity | split; reflexivity]).
Qed.

Lemma recommended_tier_is_priced_witness :
  exists info,
    calculate_price 1793750400000000 (get_tier_for_quantity 2500 AGENT "oracle") 2500
    = Priced info
    /\ pi_tier info = "oracle_agent_loyalty"
    /\ pi_quantity info = 2500.
Proof.
  destruct (recommended_tier_is_priced 1793750400000000 2500 AGENT "oracle")
    as (info & H1 & H2 & H3); [lia |].
  exists info. split; [exact H1 |]. split; [exact H2 | exact H3].
Defined.

(** For an academic, individual, agent or enterprise user the recommended
    tier always passes [validate_tier_access]. For a corporate user it
    passes only for the raw product and above the corporate quantity
    thresholds: below them, and for any other product, the recommendation is
    an agent tier that a corporate user may not use. *)
Theorem recommended_tier_access
    (quantity : Z) (user_type : UserType) (product : string) :
  validate_tier_access user_type (get_tier_for_quantity quantity user_type product)
  = match user_type with
    | CORPORATE =>
        String.eqb product "raw"
        || String.eqb product "curated" && (1000 <=? quantity)
        || String.eqb product "oracle" && (100 <=? quantity)
        || String.eqb product "certified" && (100 <=? quantity)
    | _ => true
    end.
Proof.
  unfold get_tier_for_quantity.
  destruct user_type; case_product product; subst; case_quantity;
    repeat match goal with
           | |- context [?n <=? quantity] => destruct (Z.leb_spec n quantity)
           end;
    try lia; try reflexivity; try discriminate.
Qed.

(** The volume ledger and the price table agree on the oracle price of an
    agent: for a count of at least one, the per-record price of
    [get_volume_price] is the per-image price that [calculate_price] gives
    for the recommended oracle agent tier, with or without the Genesis
    discount. *)
Theorem volume_price_matches_price_table (now n : Z) :
  1 <= n ->
  exists info,
    calculate_price now (get_tier_for_quantity n AGENT "oracle") n = Priced info
    /\ pi_per_image info = per_record (get_volume_price now n).
Proof.
  intros Hn. unfold get_tier_for_quantity, get_volume_price, VOLUME_TIERS.
  cbn [String.eqb Ascii.eqb Bool.eqb scan_tiers vt_min].
  case_quantity; try lia;
    unfold calculate_price, tier_result;
    cbn [tier_lookup PRICING_TIERS String.eqb Ascii.eqb Bool.eqb pt_min_quantity];
    match goal with
    | |- context [n <? ?m] => destruct (Z.ltb_spec n m); [lia |]
    end;
    (eexists; split; [reflexivity |]);
    cbn; destruct (is_genesis_epoch now); reflexivity.
Qed.

Lemma volume_price_matches_price_table_witness :
  exists info,
    calculate_price 1771804800000000 "oracle_agent_volume" 600 = Priced info
    /\ pi_per_image info = per_record (get_volume_price 1771804800000000 600).
Proof.
  destruct (volume_price_matches_price_table 1771804800000000 600)
    as (info & H1 & H2); [lia |].
  exists info. split; [exact H1 | exact H2].
Defined.

Lemma py_round_zero x : Qnum x = 0 -> py_round x = 0.
Proof.
  intros H. unfold py_round. rewrite H. cbn.
  destruct (Z.ltb_spec 0 (Z.pos (Qden x))); [reflexivity | lia].
Qed.

(** A tier with a flat price costs the same for every quantity that it
    accepts, and the three free tiers cost nothing for any quantity of at
    least one, at any time. *)
Theorem flat_and_free_prices (now : Z) (tier : string) (t : PricingTier)
    (q1 q2 : Z) :
  tier <> "agent_batch" ->
  tier_lookup PRICING_TIERS tier = Some t ->
  pt_min_quantity t <= q1 -> pt_min_quantity t <= q2 ->
  exists i1 i2,
    calculate_price now tier q1 = Priced i1
    /\ calculate_price now tier q2 = Priced i2
    /\ (is_Some (pt_flat_price t) -> pi_total i1 = pi_total i2)
    /\ (tier = "academic" \/ tier = "individual" \/ tier = "raw_free" ->
        (pi_total i1 == 0)%Q /\ (pi_total i2 == 0)%Q).
Proof.
  intros Hne Ht H1 H2. unfold calculate_price.
  destruct (String.eqb_spec tier "agent_batch") as [E | _]; [congruence |].
  rewrite Ht.
  destruct (Z.ltb_spec q1 (pt_min_quantity t)); [lia |].
  destruct (Z.ltb_spec q2 (pt_min_quantity t)); [lia |].
  eexists _, _. split; [reflexivity |]. split; [reflexivity |].
  cbn [pi_total]. split.
  - intros [f Hf]. rewrite Hf. reflexivity.
  - assert (Hz : forall q, (py_round_n ((0 # 100) * inject_Z q) 2 == 0)%Q).
    { intros q. unfold py_round_n. rewrite py_round_zero; [reflexivity |].
      cbn. lia. }
    intros [-> | [-> | ->]]; cbn in Ht; injection Ht as <-; cbn; split; apply Hz.
Qed.

Lemma flat_and_free_prices_witness :
  exists i1 i2,
    calculate_price 1793750400000000 "dataset_complete" 1 = Priced i1
    /\ calculate_price 1793750400000000 "dataset_complete" 50000 = Priced i2
    /\ pi_total i1 = pi_total i2.
Proof.
  destruct (flat_and_free_prices 1793750400000000 "dataset_complete"
              {| pt_per_image := 0 # 10; pt_flat_price := Some (500000 # 100);
                 pt_min_quantity := 1;
                 pt_label := "Dataset — complete Alexandria (Human_Standard + Hybrid_Premium)";
                 pt_currency := "USD"; pt_launch_eligible := true |}
              1 50000)
    as (i1 & i2 & H1 & H2 & Hflat & _).
  - discriminate.
  - reflexivity.
  - cbn. lia.
  - cbn. lia.
  - exists i1, i2. split; [exact H1 |]. split; [exact H2 |].
    apply Hflat. eexists. reflexivity.
Defined.

End PriceTableProps.

(** ** The request dependencies *)

Module AuthProps.
Import RateLimiter X402 Auth MemoryLimiter.

Lemma first_entry_prefix first rest :
  all_chars not_comma first = true ->
  first_entry (first +:+ String ","%char rest) = first.
Proof.
  induction first as [| c first IH];
    cbn [String.append first_entry all_chars]; [reflexivity |].
  intros H. apply andb_prop in H. destruct H as [Hc Hrest].
  unfold not_comma in Hc. apply negb_true_iff in Hc.
  simpl. rewrite Hc.
  f_equal. apply IH. exact Hrest.
Qed.

Lemma first_entry_whole first :
  all_chars not_comma first = true -> first_entry first = first.
Proof.
  induction first as [| c first IH];
    cbn [String.append first_entry all_chars]; [reflexivity |].
  intros H. apply andb_prop in H. destruct H as [Hc Hrest].
  unfold not_comma in Hc. apply negb_true_iff in Hc. rewrite Hc.
  f_equal. apply IH. exact Hrest.
Qed.

Lemma lstrip_blank pad s :
  all_chars is_space pad = true -> lstrip (pad +:+ s) = lstrip s.
Proof.
  induction pad as [| c pad IH]; [reflexivity |].
  cbn [all_chars]. intros H. apply andb_prop in H. destruct H as [Hc Hrest].
  change (lstrip (String c pad +:+ s))
    with (if is_space c then lstrip (pad +:+ s) else String c (pad +:+ s)).
  rewrite Hc. apply IH. exact Hrest.
Qed.

Lemma rstrip_blank pad :
  all_chars is_space pad = true -> rstrip pad = "".
Proof.
  induction pad as [| c pad IH]; [reflexivity |].
  cbn [all_chars]. intros H. apply andb_prop in H. destruct H as [Hc Hrest].
  change (rstrip (String c pad))
    with (match rstrip pad with
          | EmptyString => if is_space c then EmptyString else String c EmptyString
          | r => String c r
          end).
  rewrite (IH Hrest), Hc. reflexivity.
Qed.

Lemma rstrip_blank_end s pad :
  all_chars is_space pad = true -> rstrip (s +:+ pad) = rstrip s.
Proof.
  intros H. induction s as [| c s IH].
  - apply rstrip_blank. exact H.
  - change (rstrip (String c s +:+ pad))
      with (match rstrip (s +:+ pad) with
            | EmptyString => if is_space c then EmptyString else String c EmptyString
            | r => String c r
            end).
    rewrite IH. reflexivity.
Qed.

Lemma str_app_assoc (s1 s2 s3 : string) :
  (s1 +:+ s2) +:+ s3 = s1 +:+ (s2 +:+ s3).
Proof.
  induction s1 as [| c s1 IH]; [reflexivity |].
  change (String c ((s1 +:+ s2) +:+ s3) = String c (s1 +:+ (s2 +:+ s3))).
  rewrite IH. reflexivity.
Qed.

Lemma all_chars_app p s1 s2 :
  all_chars p (s1 +:+ s2) = all_chars p s1 && all_chars p s2.
Proof.
  induction s1 as [| c s1 IH]; [reflexivity |].
  change (all_chars p (String c s1 +:+ s2))
    with (p c && all_chars p (s1 +:+ s2)).
  rewrite IH. apply andb_assoc.
Qed.

(** Blanks around an address are removed. *)
Lemma strip_padded pad1 pad2 a t :
  all_chars is_space pad1 = true -> all_chars is_space pad2 = true ->
  is_space a = false -> rstrip (String a t) = String a t ->
  strip (pad1 +:+ String a t +:+ pad2) = String a t.
Proof.
  intros H1 H2 Ha Hr. unfold strip.
  rewrite (lstrip_blank pad1 _ H1).
  assert (Hl : lstrip (String a t +:+ pad2) = String a t +:+ pad2).
  { change (lstrip (String a t +:+ pad2))
      with (if is_space a then lstrip (t +:+ pad2) else String a (t +:+ pad2)).
    rewrite Ha. reflexivity. }
  rewrite Hl, (rstrip_blank_end _ pad2 H2). exact Hr.
Qed.

(** With a forwarded-address header, the fingerprint is the first entry
    of the chain without the blanks around it, followed by the wallet when
    one is declared: the later entries of the chain and the address of the
    connection do not matter. *)
Theorem fingerprint_is_first_forwarded_entry
    (hs : gmap string string) (host : option string) (amount : option Q)
    (pad1 pad2 rest : string) (a : Ascii.ascii) (t : string) :
  all_chars is_space pad1 = true ->
  all_chars is_space pad2 = true ->
  all_chars not_comma (String a t) = true ->
  is_space a = false ->
  rstrip (String a t) = String a t ->
  let chain := pad1 +:+ String a t +:+ pad2 +:+ String ","%char rest in
  let r := {| rq_headers := <["X-Forwarded-For" := chain]> hs;
              rq_client_host := host;
              rq_x402_required_amount := amount |} in
  get_client_fingerprint r
  = match hs !! "X-Wallet-Address" with
    | Some (String c w) => String a t +:+ "|" +:+ String c w
    | _ => String a t
    end.
Proof.
  intros H1 H2 Hc Ha Hr. cbn zeta.
  assert (Hcomma : forall pad, all_chars is_space pad = true ->
                               all_chars not_comma pad = true).
  { induction pad as [| c pad IH]; [reflexivity |].
    cbn [all_chars]. intros H. apply andb_prop in H. destruct H as [Hs Hrest].
    rewrite (IH Hrest), andb_true_r. unfold not_comma.
    destruct (Ascii.eqb_spec c ","%char) as [-> | _]; [discriminate | reflexivity]. }
  unfold get_client_fingerprint, header. cbn [rq_headers rq_client_host].
  rewrite lookup_insert_eq. cbn [default from_option id].
  rewrite lookup_insert_ne by discriminate.
  assert (Hfirst :
    first_entry (pad1 +:+ String a t +:+ pad2 +:+ String ","%char rest)
    = pad1 +:+ String a t +:+ pad2).
  { replace (pad1 +:+ String a t +:+ pad2 +:+ String ","%char rest)
      with ((pad1 +:+ String a t +:+ pad2) +:+ String ","%char rest).
    - apply first_entry_prefix. rewrite !all_chars_app.
      rewrite (Hcomma pad1 H1), Hc, (Hcomma pad2 H2). reflexivity.
    - rewrite !str_app_assoc. reflexivity. }
  rewrite Hfirst, (strip_padded pad1 pad2 a t H1 H2 Ha Hr).
  assert (Hne : String.eqb (pad1 +:+ String a t +:+ pad2 +:+ String ","%char rest) ""
                = false).
  { destruct pad1; reflexivity. }
  rewrite Hne. cbn [negb].
  destruct (hs !! "X-Wallet-Address") as [[| c w] |]; reflexivity.
Qed.

Lemma fingerprint_is_first_forwarded_entry_witness :
  get_client_fingerprint
    {| rq_headers := <["X-Forwarded-For" := " 203.0.113.7 , 10.0.0.1, 10.0.0.2"]>
                       {["X-Wallet-Address" := "0xA1"]};
       rq_client_host := Some "10.0.0.2";
       rq_x402_required_amount := None |}
  = "203.0.113.7|0xA1".
Proof.
  exact (fingerprint_is_first_forwarded_entry
           {["X-Wallet-Address" := "0xA1"]} (Some "10.0.0.2") None
           " " " " " 10.0.0.1, 10.0.0.2" "2"%char "03.0.113.7"
           eq_refl eq_refl eq_refl eq_refl eq_refl).
Defined.

End AuthProps.

(** ** The limiter across calls *)

Module LimiterProps.
Import RateLimiter Auth MemoryLimiter.

Lemma retain_twice c1 c2 l :
  (c1 <= c2)%Q -> retain c2 (retain c1 l) = retain c2 l.
Proof.
  intros Hc. unfold retain. induction l as [| t l IH]; [reflexivity |].
  cbn [List.filter].
  destruct (Qgtb t c1) eqn:E1.
  - cbn [List.filter]. rewrite IH. reflexivity.
  - rewrite IH. apply Qgtb_false in E1.
    assert (E2 : Qgtb t c2 = false) by (apply Qgtb_false; lra).
    rewrite E2. reflexivity.
Qed.

Lemma retain_idem c l : retain c (retain c l) = retain c l.
Proof. apply retain_twice. lra. Qed.

Lemma retain_length c l : (length (retain c l) <= length l)%nat.
Proof.
  unfold retain. induction l as [| t l IH]; [cbn; lia |].
  cbn [List.filter].
  destruct (Qgtb t c); cbn [length]; lia.
Qed.

Lemma retain_snoc c l now :
  (c < now)%Q -> retain c (l ++ [now]) = retain c l ++ [now].
Proof.
  intros H. unfold retain. rewrite List.filter_app. cbn [List.filter].
  apply Qgtb_true in H. rewrite H. reflexivity.
Qed.

Lemma window_positive (window_seconds : Z) (now : Q) :
  0 < window_seconds -> (now - inject_Z window_seconds < now)%Q.
Proof.
  intros H. assert (0 < inject_Z window_seconds)%Q.
  { change 0%Q with (inject_Z 0). rewrite <- Zlt_Qlt. exact H. }
  lra.
Qed.

(** At one clock reading, [check] lets a call through exactly when
    [remaining] reports at least one free slot; a call let through lowers
    the report by one, and a denied call leaves it at zero. *)
Theorem check_agrees_with_remaining
    (L : limiter) (key : string) (max_requests window_seconds : Z) (now : Q) :
  0 < window_seconds ->
  let free := snd (remaining L key max_requests window_seconds now) in
  let L1 := fst (check L key max_requests window_seconds now) in
  let ok := snd (check L key max_requests window_seconds now) in
  (ok = true <-> 0 < free)
  /\ (ok = true ->
      snd (remaining L1 key max_requests window_seconds now) = free - 1)
  /\ (ok = false ->
      free = 0 /\ snd (remaining L1 key max_requests window_seconds now) = 0).
Proof.
  intros Hw. cbn zeta. unfold check.
  pose proof (check_memory_eq (_memory L) key max_requests window_seconds now) as E.
  cbn zeta in E. rewrite E. clear E.
  rewrite !remaining_eq. cbn [snd].
  set (kept := retain (now - inject_Z window_seconds) (dd_view (_memory L) key)).
  assert (Hk : retain (now - inject_Z window_seconds) kept = kept)
    by apply retain_idem.
  destruct (Z.geb_spec (Z.of_nat (length kept)) max_requests) as [Hge | Hlt];
    cbn [fst snd _memory].
  - rewrite dd_view_insert, Hk.
    split; [split; [discriminate | lia] |].
    split; [discriminate | intros _; lia].
  - rewrite dd_view_insert.
    rewrite (retain_snoc _ kept now (window_positive window_seconds now Hw)), Hk.
    rewrite length_app. cbn [length].
    split; [split; [lia | reflexivity] |].
    split; [intros _; lia | discriminate].
Qed.

Lemma check_agrees_with_remaining_witness :
  snd (check init "preview:k" 10 86400 5) = true
  /\ snd (remaining (fst (check init "preview:k" 10 86400 5)) "preview:k" 10 86400 5)
     = snd (remaining init "preview:k" 10 86400 5) - 1.
Proof.
  destruct (check_agrees_with_remaining init "preview:k" 10 86400 5)
    as (Hiff & Hdec & _); [lia |].
  assert (Hok : snd (check init "preview:k" 10 86400 5) = true)
    by (apply Hiff; vm_compute; reflexivity).
  split; [exact Hok | apply Hdec; exact Hok].
Defined.

(** The dependency of [require_rate_limit] lets a request through, and
    records it, exactly when fewer than [max_requests] timestamps of its key
    are still in the window. Otherwise it raises 429 with [Retry-After] set
    to the window length and records nothing; when [remaining] reads the
    same clock, and the limit is not negative, the message reports 0
    requests remaining. The store of the durable mode is never touched, and
    a request without [request.client] is counted under
    [endpoint:unknown] even when it carries an API key. *)
Theorem rate_limit_dependency
    (endpoint : string) (max_requests window_seconds : Z) (L : limiter)
    (r : request_view) (now later : Q) :
  let key := limiter_key endpoint r in
  let kept := retain (now - inject_Z window_seconds) (dd_view (_memory L) key) in
  let L' := fst (require_rate_limit endpoint max_requests window_seconds L r now later) in
  let v := snd (require_rate_limit endpoint max_requests window_seconds L r now later) in
  (Z.of_nat (length kept) < max_requests ->
     v = Pass tt /\ dd_view (_memory L') key = kept ++ [now])
  /\ (max_requests <= Z.of_nat (length kept) ->
      exists e,
        v = Reject e
        /\ http_status e = 429
        /\ http_headers e = [("Retry-After", str_int window_seconds)]
        /\ dd_view (_memory L') key = kept
        /\ (later = now -> 0 <= max_requests ->
            http_detail e
            = "Rate limit exceeded for " +:+ endpoint +:+ ". "
              +:+ "0" +:+ " requests remaining."))
  /\ _db L' = _db L
  /\ (rq_client_host r = None -> key = endpoint +:+ ":unknown").
Proof.
  cbn zeta. unfold require_rate_limit, check.
  pose proof (check_memory_eq (_memory L) (limiter_key endpoint r) max_requests
                window_seconds now) as E.
  cbn zeta in E. rewrite E. clear E.
  set (key := limiter_key endpoint r).
  set (kept := retain (now - inject_Z window_seconds) (dd_view (_memory L) key)).
  destruct (Z.geb_spec (Z.of_nat (length kept)) max_requests) as [Hge | Hlt].
  - rewrite remaining_eq. cbn [fst snd _memory _db].
    split; [intros H; lia |].
    split.
    + intros _. eexists. split; [reflexivity |].
      split; [reflexivity |]. split; [reflexivity |].
      split.
      * rewrite dd_get_view. apply dd_view_insert.
      * intros -> Hmax. cbn [http_detail]. rewrite dd_view_insert.
        unfold kept at 1. rewrite retain_idem. fold kept.
        replace (Z.max 0 (max_requests - Z.of_nat (length kept))) with 0 by lia.
        reflexivity.
    + split; [reflexivity |].
      intros Hnone. unfold key, limiter_key. rewrite Hnone. reflexivity.
  - cbn [fst snd _memory _db].
    split; [intros _; split; [reflexivity | apply dd_view_insert] |].
    split; [intros H; lia |].
    split; [reflexivity |].
    intros Hnone. unfold key, limiter_key. rewrite Hnone. reflexivity.
Qed.

(** Two requests with different API keys and no client address share
    one quota of one: the second is refused. *)
Lemma rate_limit_dependency_witness :
  let r1 := {| rq_headers := {["X-API-Key" := "key-one"]};
               rq_client_host := None; rq_x402_required_amount := None |} in
  let r2 := {| rq_headers := {["X-API-Key" := "key-two"]};
               rq_client_host := None; rq_x402_required_amount := None |} in
  let L1 := fst (require_rate_limit "preview" 1 86400 init r1 5 5) in
  snd (require_rate_limit "preview" 1 86400 init r1 5 5) = Pass tt
  /\ exists e,
       snd (require_rate_limit "preview" 1 86400 L1 r2 6 6) = Reject e
       /\ http_status e = 429.
Proof.
  intros r1 r2 L1.
  destruct (rate_limit_dependency "preview" 1 86400 init r1 5 5) as (Hpass & _).
  destruct (rate_limit_dependency "preview" 1 86400 L1 r2 6 6) as (_ & Hrej & _).
  split.
  - apply Hpass. vm_compute. reflexivity.
  - destruct Hrej as (e & He & Hs & _).
    + vm_compute. discriminate.
    + exists e. split; [exact He | exact Hs].
Defined.

(** [check_async] never lets an error of the durable path out: without a
    store, when the store raises, or when the window is zero, its answer
    and its state are those of the in-memory [check], and the stored
    counters stay as they were. *)
Theorem check_async_falls_back
    (L : limiter) (key : string) (max_requests window_seconds : Z) (t : tick) :
  _db L = None \/ is_Some (fault t) \/ window_seconds = 0 ->
  check_async L key max_requests window_seconds t
  = check L key max_requests window_seconds (mono t)
  /\ _db (fst (check_async L key max_requests window_seconds t)) = _db L.
Proof.
  intros H.
  assert (E : check_async L key max_requests window_seconds t
              = check L key max_requests window_seconds (mono t)).
  { unfold check_async. destruct (_db L) as [db |] eqn:Hdb; [| reflexivity].
    destruct H as [H | [[e He] | ->]]; [discriminate | |].
    - unfold _check_firestore. rewrite He.
      destruct (window_key window_seconds (wall t)); reflexivity.
    - reflexivity. }
  split; [exact E |]. rewrite E. unfold check.
  destruct (_check_memory _ _ _ _ _). reflexivity.
Qed.

Lemma check_async_falls_back_witness :
  let t := {| wall := 1793750400000000; mono := 7;
              fault := Some (OtherException "503 unavailable") |} in
  check_async (set_db ∅ init) "search:k" 50 3600 t
  = check (set_db ∅ init) "search:k" 50 3600 7.
Proof.
  intros t.
  destruct (check_async_falls_back (set_db ∅ init) "search:k" 50 3600 t) as (H & _).
  - right. left. eexists. reflexivity.
  - exact H.
Defined.

Lemma last_cons_default {A} (l : list A) : forall (x d : A),
  List.last (x :: l) d = List.last l x.
Proof.
  induction l as [| y l IH]; intros x d; [reflexivity |].
  change (List.last (x :: y :: l) d) with (List.last (y :: l) d).
  rewrite (IH y d), (IH y x). reflexivity.
Qed.

Lemma last_map {A B} (f : A -> B) (l : list A) : forall d,
  List.last (map f l) (f d) = f (List.last l d).
Proof.
  induction l as [| x l IH]; intros d; [reflexivity |].
  cbn [map]. rewrite !last_cons_default. apply IH.
Qed.

(** The invariant of a run of in-memory checks: the stored list is the
    history of let-through clock readings, cut at the last cutoff. *)
Lemma check_seq_history key max_requests window_seconds :
  0 < window_seconds ->
  forall times mem hist c,
    dd_view mem key = retain c hist ->
    Z.of_nat (length (dd_view mem key)) <= Z.max 0 max_requests ->
    StronglySorted Qle times ->
    Forall (fun t => (c <= t - inject_Z window_seconds)%Q) times ->
    let mem' := fst (check_seq mem key max_requests window_seconds times) in
    let oks := snd (check_seq mem key max_requests window_seconds times) in
    dd_view mem' key
    = retain (List.last (map (fun t => (t - inject_Z window_seconds)%Q) times) c)
             (hist ++ allowed_times times oks)
    /\ Z.of_nat (length (dd_view mem' key)) <= Z.max 0 max_requests.
Proof.
  intros Hw. induction times as [| now rest IH]; intros mem hist c Hst Hlen Hsort Hcut.
  - cbn. rewrite app_nil_r. split; [exact Hst | exact Hlen].
  - cbn zeta. cbn [check_seq].
    pose proof (check_memory_eq mem key max_requests window_seconds now) as E.
    cbn zeta in E.
    inversion Hsort as [| ? ? Hsort' Hhead]; subst.
    inversion Hcut as [| ? ? Hc Hcut']; subst.
    set (c' := (now - inject_Z window_seconds)%Q) in *.
    assert (Hkept : retain c' (dd_view mem key) = retain c' hist).
    { rewrite Hst. apply retain_twice. exact Hc. }
    assert (Hcut2 : Forall (fun t => (c' <= t - inject_Z window_seconds)%Q) rest).
    { rewrite Forall_forall in Hhead |- *. intros t Ht.
      specialize (Hhead t Ht). unfold c'. lra. }
    cbn [map]. rewrite last_cons_default. fold c'.
    pose proof (retain_length c' (dd_view mem key)) as Hrl.
    rewrite E. rewrite Hkept in *.
    destruct (Z.geb_spec (Z.of_nat (length (retain c' hist))) max_requests)
      as [Hge | Hlt].
    + destruct (IH (<[key := retain c' hist]> mem) hist c') as [H1 H2];
        [apply dd_view_insert | rewrite dd_view_insert; lia | exact Hsort'
        | exact Hcut2 |].
      destruct (check_seq (<[key := retain c' hist]> mem) key max_requests
                  window_seconds rest) as [mem2 oks].
      cbn [fst snd allowed_times] in *. split; [exact H1 | exact H2].
    + destruct (IH (<[key := retain c' hist ++ [now]]> mem) (hist ++ [now]) c')
        as [H1 H2].
      * rewrite dd_view_insert.
        rewrite (retain_snoc c' hist now (window_positive _ _ Hw)). reflexivity.
      * rewrite dd_view_insert, length_app. cbn [length]. lia.
      * exact Hsort'.
      * exact Hcut2.
      * destruct (check_seq (<[key := retain c' hist ++ [now]]> mem) key
                    max_requests window_seconds rest) as [mem2 oks].
        cbn [fst snd allowed_times] in *.
        rewrite <- app_assoc in H1. split; [exact H1 | exact H2].
Qed.

(** The in-memory mode is a true sliding window. For a positive window,
    a limit that is not negative and calls of one key at clock readings that
    do not decrease, starting with no timestamps for the key: after the
    calls, the stored list is exactly the let-through readings newer than
    the last reading minus the window, and it holds at most [max_requests]
    of them. So at every call, no more than [max_requests] calls were let
    through within the window that ends there. *)
Theorem memory_window_bound
    (mem : gmap string (list Q)) (key : string)
    (max_requests window_seconds : Z) (times : list Q) (init_time : Q) :
  0 < window_seconds ->
  0 <= max_requests ->
  dd_view mem key = [] ->
  StronglySorted Qle times ->
  let mem' := fst (check_seq mem key max_requests window_seconds times) in
  let oks := snd (check_seq mem key max_requests window_seconds times) in
  let recent :=
    retain (List.last times init_time - inject_Z window_seconds)
           (allowed_times times oks) in
  dd_view mem' key = recent
  /\ Z.of_nat (length recent) <= max_requests.
Proof.
  intros Hw Hmax Hempty Hsort. cbn zeta.
  destruct times as [| t0 rest].
  - cbn. split; [exact Hempty | lia].
  - set (c := (t0 - inject_Z window_seconds)%Q).
    destruct (check_seq_history key max_requests window_seconds Hw
                (t0 :: rest) mem [] c) as [H1 H2].
    + rewrite Hempty. reflexivity.
    + rewrite Hempty. cbn. lia.
    + exact Hsort.
    + constructor; [unfold c; lra |].
      inversion Hsort as [| ? ? _ Hhead]; subst.
      rewrite Forall_forall in Hhead |- *. intros t Ht.
      specialize (Hhead t Ht). unfold c. lra.
    + cbn zeta in H1, H2. cbn [app map] in H1.
      rewrite last_cons_default in H1. fold c in H1. unfold c in H1 at 1.
      rewrite (last_map (fun t => (t - inject_Z window_seconds)%Q) rest t0) in H1.
      rewrite last_cons_default. rewrite <- H1.
      split; [reflexivity | lia].
Qed.

Lemma memory_window_bound_witness :
  let run := check_seq ∅ "k" 2 60 [0; 1; 2; 30; 61 # 1; 62 # 1]%Q in
  snd run = [true; true; false; false; true; true]
  /\ Z.of_nat (length (dd_view (fst run) "k")) <= 2.
Proof.
  intros run.
  destruct (memory_window_bound ∅ "k" 2 60 [0; 1; 2; 30; 61 # 1; 62 # 1]%Q 0)
    as (Hst & Hlen).
  - lia.
  - lia.
  - reflexivity.
  - repeat (constructor; [| repeat (constructor; [discriminate |]); constructor]).
    constructor.
  - split; [vm_compute; reflexivity |].
    unfold run. rewrite Hst. exact Hlen.
Defined.

Lemma str_app_cancel (p a b : string) : p +:+ a = p +:+ b -> a = b.
Proof.
  induction p as [| c p IH]; intros H; [exact H |].
  apply IH. change (String c (p +:+ a) = String c (p +:+ b)) in H.
  injection H as H. exact H.
Qed.

Lemma doc_id_bucket key w1 w2 : doc_id key w1 = doc_id key w2 -> w1 = w2.
Proof.
  unfold doc_id. intros H. apply str_app_cancel in H.
  apply (str_app_cancel ":") in H. exact H.
Qed.

(** The transaction on one document leaves every other document as it
    is. *)
Lemma txn_seq_frame ref key wkey max_requests window_seconds nows : forall db ref',
  ref' <> ref ->
  fst (txn_seq db ref key wkey max_requests window_seconds nows) !! ref'
  = db !! ref'.
Proof.
  induction nows as [| now rest IH]; intros db ref' Hne; [reflexivity |].
  cbn [txn_seq].
  destruct (update_in_txn db ref key wkey max_requests window_seconds now)
    as [db1 ok] eqn:E.
  specialize (IH db1 ref' Hne).
  destruct (txn_seq db1 ref key wkey max_requests window_seconds rest) as [db2 oks].
  cbn [fst] in *. rewrite IH.
  unfold update_in_txn in E. destruct (db !! ref) as [d |].
  - destruct (get_count d >=? max_requests); injection E as <- _;
      [reflexivity | apply lookup_insert_ne; congruence].
  - injection E as <- _. apply lookup_insert_ne. congruence.
Qed.

(** Buckets of the durable mode do not share a counter: however many
    calls of a key ran in one bucket, the first call of the key in a bucket
    with another label finds no document and is let through, whatever the
    limit. *)
Theorem next_bucket_starts_fresh
    (db : gmap string rl_doc) (key wkey wkey' : string)
    (max_requests window_seconds : Z) (nows : list Z) (now' : Z) :
  Forall (fun now => window_key window_seconds now = Ok wkey) nows ->
  window_key window_seconds now' = Ok wkey' ->
  wkey' <> wkey ->
  db !! doc_id key wkey' = None ->
  exists db1 oks db2,
    firestore_seq db key max_requests window_seconds nows = Ok (db1, oks)
    /\ _check_firestore db1 None key max_requests window_seconds now'
       = Ok (db2, true)
    /\ (exists d, db2 !! doc_id key wkey' = Some d /\ rl_count d = Some 1).
Proof.
  intros Hall Hw' Hne Hnone.
  rewrite (DurableLimiter.firestore_seq_bucket key wkey) by exact Hall.
  pose proof (txn_seq_frame (doc_id key wkey) key wkey max_requests window_seconds
                nows db (doc_id key wkey')) as Hframe.
  destruct (txn_seq db (doc_id key wkey) key wkey max_requests window_seconds nows)
    as [db1 oks].
  cbn [fst] in Hframe.
  assert (Hfresh : db1 !! doc_id key wkey' = None).
  { rewrite Hframe; [exact Hnone |]. intros E. apply Hne.
    apply (doc_id_bucket key). exact E. }
  destruct (DurableLimiter.txn_absent (doc_id key wkey') key wkey' max_requests
              window_seconds db1 now' Hfresh) as (d & Ht & Hc).
  exists db1, oks, (<[doc_id key wkey' := d]> db1).
  split; [reflexivity |].
  unfold _check_firestore. rewrite Hw'. cbn [bind]. rewrite Ht.
  split; [reflexivity |].
  exists d. split; [apply lookup_insert_eq | exact Hc].
Qed.

(** A quota of two is used up at the end of one hour; the first call of
    the next hour passes. *)
Lemma next_bucket_starts_fresh_witness :
  exists db1 oks db2,
    firestore_seq ∅ "search:k" 2 3600
      [1793753997000000; 1793753998000000; 1793753999000000] = Ok (db1, oks)
    /\ _check_firestore db1 None "search:k" 2 3600 1793754000000000
       = Ok (db2, true).
Proof.
  destruct (next_bucket_starts_fresh ∅ "search:k" "498264" "498265" 2 3600
              [1793753997000000; 1793753998000000; 1793753999000000]
              1793754000000000)
    as (db1 & oks & db2 & H1 & H2 & _).
  - repeat constructor.
  - reflexivity.
  - discriminate.
  - reflexivity.
  - exists db1, oks, db2. split; [exact H1 | exact H2].
Defined.

End LimiterProps.

(** ** Payment verification beyond the answer of the facilitator *)

Module PaymentProps.
Import X402 Auth PaymentVerification.

Lemma interpret_valid w required_amount_usd resp res :
  interpret_response w required_amount_usd resp = Ok res ->
  valid res = true ->
  status_code resp = 200
  /\ amount_usd res = required_amount_usd
  /\ error res = JStr ""
  /\ ((exists s, resp_json resp = Ok (JStr s) /\ tx_hash res = JStr s)
      \/ (exists m, resp_json resp = Ok (JObj m)
                    /\ truthy (default (JBool false) (m !! "success")) = true)).
Proof.
  unfold interpret_response.
  destruct (Z.eqb_spec (status_code resp) 200) as [Hs | Hs]; cbn [negb].
  - destruct (resp_json resp) as [raw | e]; cbn [bind]; [| discriminate].
    destruct raw as [| b | z | q | s | l | m]; intros H Hv;
      try (injection H as <-; discriminate Hv).
    + injection H as <-.
      split; [exact Hs |]. split; [reflexivity |]. split; [reflexivity |].
      left. eexists. split; reflexivity.
    + destruct (truthy (default (JBool false) (m !! "success"))) eqn:Et;
        cbn [negb] in H; injection H as <-; [| discriminate Hv].
      split; [exact Hs |]. split; [reflexivity |]. split; [reflexivity |].
      right. eexists. split; [reflexivity | exact Et].
  - intros [= <-]. discriminate.
Qed.

Lemma handle_valid r : valid (handle r) = true -> exists res, r = Ok res /\ handle r = res.
Proof.
  destruct r as [res | e]; [intros _; eauto |].
  destruct e; discriminate.
Qed.

(** A valid result carries the required amount. *)
Lemma valid_result_amount w cfg payment_header required_amount_usd :
  valid (fst (verify_x402_payment w cfg payment_header required_amount_usd)) = true ->
  amount_usd (fst (verify_x402_payment w cfg payment_header required_amount_usd))
  = required_amount_usd.
Proof.
  unfold verify_x402_payment.
  destruct (String.eqb payment_header ""); [discriminate |].
  destruct (X402_TEST_MODE cfg); [reflexivity |].
  destruct (decode_header w payment_header) as [payload |]; [| discriminate].
  destruct (settle_attempt w cfg payload required_amount_usd) as [r calls] eqn:E.
  cbn [fst]. intros Hv. destruct (handle_valid r Hv) as (res & -> & Hh).
  rewrite Hh in *. unfold settle_attempt in E.
  destruct (read_version payload); [| discriminate].
  destruct (build_headers w cfg); [| discriminate].
  injection E as E _. destruct (post w _) as [resp |]; [| discriminate].
  cbn [bind] in E.
  apply (interpret_valid w required_amount_usd resp res E Hv).
Qed.

(** A verification never succeeds on its own account. Whenever the
    result is valid, the header was not empty, the settled amount is the
    required amount and the error is empty; and outside the test mode
    exactly one request went to the facilitator and was answered with
    status 200 and either a bare string, which is the transaction
    reference, or an object whose [success] is truthy. In the test mode no
    request is made. *)
Theorem valid_only_when_settled
    (w : world) (cfg : config) (payment_header : string) (required_amount_usd : Q) :
  let out := verify_x402_payment w cfg payment_header required_amount_usd in
  valid (fst out) = true ->
  payment_header <> ""
  /\ amount_usd (fst out) = required_amount_usd
  /\ error (fst out) = JStr ""
  /\ (X402_TEST_MODE cfg = true -> snd out = [])
  /\ (X402_TEST_MODE cfg = false ->
      exists req resp,
        snd out = [req]
        /\ post w req = Ok resp
        /\ status_code resp = 200
        /\ paymentRequirements (req_json req)
           = build_requirements cfg required_amount_usd
        /\ ((exists s, resp_json resp = Ok (JStr s) /\ tx_hash (fst out) = JStr s)
            \/ (exists m, resp_json resp = Ok (JObj m)
                          /\ truthy (default (JBool false) (m !! "success")) = true))).
Proof.
  cbn zeta. unfold verify_x402_payment.
  destruct (String.eqb_spec payment_header "") as [-> | Hne]; [discriminate |].
  destruct (X402_TEST_MODE cfg) eqn:Htest.
  - intros _. cbn. repeat split; try reflexivity; try assumption. discriminate.
  - destruct (decode_header w payment_header) as [payload |]; [| discriminate].
    unfold settle_attempt.
    destruct (read_version payload) as [version | e]; [| destruct e; discriminate].
    destruct (build_headers w cfg) as [headers | e]; [| destruct e; discriminate].
    cbn [fst snd]. intros Hv.
    destruct (handle_valid _ Hv) as (res & Hr & Hh). rewrite Hh in *.
    destruct (post w _) as [resp |] eqn:Hpost; cbn [bind] in Hr; [| discriminate].
    destruct (interpret_valid w required_amount_usd resp res Hr Hv)
      as (Hs & Ha & He & Hcase).
    split; [exact Hne |]. split; [exact Ha |]. split; [exact He |].
    split; [discriminate |]. intros _.
    eexists _, resp. split; [reflexivity |]. split; [exact Hpost |].
    split; [exact Hs |]. split; [reflexivity | exact Hcase].
Qed.

Lemma valid_only_when_settled_witness :
  let w := example_world (answers_200 (JStr "0xABCDEF")) in
  amount_usd (fst (verify_x402_payment w default_config "e30=" (5 # 100))) = (5 # 100)%Q
  /\ length (snd (verify_x402_payment w default_config "e30=" (5 # 100))) = 1%nat.
Proof.
  intros w.
  destruct (valid_only_when_settled w default_config "e30=" (5 # 100))
    as (_ & Ha & _ & _ & Hcall); [reflexivity |].
  split; [exact Ha |].
  destruct (Hcall eq_refl) as (req & resp & Hcalls & _). rewrite Hcalls. reflexivity.
Defined.

(** The settlement requirements are fixed by the settings and the
    amount alone: scheme "exact", a timeout of 300 seconds, the configured
    recipient and the network named by [X402_NETWORK] (Base mainnet when it
    is unset). The asset and the signing domain are those of Base Sepolia
    for that network and those of Base mainnet for every other network
    name, known or not. *)
Theorem requirements_by_network (cfg : config) (required_amount_usd : Q) :
  let rq := build_requirements cfg required_amount_usd in
  let net := default "eip155:8453" (env_X402_NETWORK cfg) in
  scheme rq = "exact"
  /\ maxTimeoutSeconds rq = 300
  /\ payTo rq = BASE_WALLET_ADDRESS cfg
  /\ network rq = net
  /\ asset rq
     = (if String.eqb net "eip155:84532"
        then "0x036CbD53842c5426634e7929541eC2318f3dCF7e"
        else "0x833589fCD6eDb6E08f4c7C32D4f71b54bdA02913")
  /\ extra rq
     = (if String.eqb net "eip155:84532"
        then {| domain_name := "USDC"; domain_version := "2" |}
        else {| domain_name := "USD Coin"; domain_version := "2" |}).
Proof.
  cbn zeta. unfold build_requirements. cbn [scheme maxTimeoutSeconds payTo network asset extra].
  split; [reflexivity |]. split; [reflexivity |]. split; [reflexivity |].
  split; [reflexivity |].
  unfold USDC_ASSET, usdc_domain, USDC_ADDRESSES, USDC_EIP712_DOMAINS, x402_network.
  set (net := default "eip155:8453" (env_X402_NETWORK cfg)).
  destruct (String.eqb_spec net "eip155:84532") as [-> | Hn2].
  - split; reflexivity.
  - destruct (String.eqb_spec net "eip155:8453") as [-> | Hn1].
    + split; reflexivity.
    + rewrite !lookup_insert_ne by congruence. rewrite !lookup_empty.
      split; reflexivity.
Qed.




(** [validate_api_key] by cases. A missing or empty key gives 401
    "Missing X-API-Key header"; for a key that is not empty, an error of the
    read goes through to the caller, a digest without a document gives 401
    "Invalid API key", a revoked document gives 403, and otherwise the
    stored document is returned. The store is left exactly as it was in
    every case but the last, where the one change is the [last_used] field
    of the key's own document, and not even that when the update raises;
    so a failing update changes neither the answer nor the store, every
    other document is what it was, and so is every other field of the key's
    document. The document is returned exactly for a key that is not empty,
    read without error, found and not revoked. *)
Theorem api_key_outcomes
    (sha256_hex : string -> string) (db : gmap string (gmap string json))
    (f : key_faults) (server_time : json) (x_api_key : option string) :
  let out := validate_api_key sha256_hex db f server_time x_api_key in
  let rejected status detail :=
    out = (db, KeyRejected {| http_status := status; http_detail := detail;
                              http_headers := [] |}) in
  (x_api_key = None \/ x_api_key = Some "" ->
     rejected 401 "Missing X-API-Key header")
  /\ (forall c s, x_api_key = Some (String c s) ->
      let key_hash := sha256_hex (String c s) in
      (forall e, read_fault f = Some e -> out = (db, KeyError e))
      /\ (read_fault f = None -> db !! key_hash = None ->
          rejected 401 "Invalid API key")
      /\ (forall data, read_fault f = None -> db !! key_hash = Some data ->
            truthy (default (JBool false) (data !! "revoked")) = true ->
            rejected 403 "API key has been revoked")
      /\ (forall data, read_fault f = None -> db !! key_hash = Some data ->
            truthy (default (JBool false) (data !! "revoked")) = false ->
            snd out = KeyData data
            /\ (update_fault f = None ->
                fst out = <[key_hash := <["last_used" := server_time]> data]> db)
            /\ (is_Some (update_fault f) -> fst out = db))
      /\ (forall h, h <> key_hash -> fst out !! h = db !! h)
      /\ (forall field, field <> "last_used" ->
            (fst out !! key_hash) ≫= (fun d => d !! field)
            = (db !! key_hash) ≫= (fun d => d !! field)))
  /\ (forall data, snd out = KeyData data <->
        exists c s,
          x_api_key = Some (String c s)
          /\ read_fault f = None
          /\ db !! sha256_hex (String c s) = Some data
          /\ truthy (default (JBool false) (data !! "revoked")) = false)
  /\ snd out
     = snd (validate_api_key sha256_hex db
              {| read_fault := read_fault f; update_fault := None |}
              server_time x_api_key)
  /\ (forall h, is_Some (fst out !! h) <-> is_Some (db !! h)).
Proof.
  cbn zeta. unfold validate_api_key.
  destruct x_api_key as [[| c s] |].
  1, 3: (split; [intros _; reflexivity |];
         split; [intros c' s' [=] |];
         split; [intros data; split; [discriminate |
                   intros (? & ? & ? & _); discriminate] |];
         split; reflexivity).
  cbn [read_fault update_fault].
  split; [intros [H | H]; discriminate |].
  destruct (read_fault f) as [e |] eqn:Hr.
  { split.
    - intros c' s' [= <- <-]. cbn zeta.
      split; [intros e' [= <-]; reflexivity |].
      split; [discriminate |]. split; [discriminate |]. split; [discriminate |].
      split; reflexivity.
    - split; [intros data; split; [discriminate |
                intros (? & ? & ? & ? & _); discriminate] |].
      split; reflexivity. }
  destruct (db !! sha256_hex (String c s)) as [key_data |] eqn:Hdb.
  2: { split.
       - intros c' s' [= <- <-]. cbn zeta. cbn [fst snd].
         split; [discriminate |]. split; [reflexivity |].
         split; [intros data _ Hd; congruence |].
         split; [intros data _ Hd; congruence |]. split; reflexivity.
       - split; [intros data; split; [discriminate |
                   intros (c' & s' & [= <- <-] & _ & Hd & _); congruence] |].
         split; reflexivity. }
  destruct (truthy (default (JBool false) (key_data !! "revoked"))) eqn:Hrev.
  { split.
    - intros c' s' [= <- <-]. cbn zeta. cbn [fst snd].
      split; [discriminate |]. split; [intros _ Hd; congruence |].
      split; [reflexivity |].
      split; [intros data _ Hd Ht; congruence |]. split; reflexivity.
    - split; [intros data; split; [discriminate |
                intros (c' & s' & [= <- <-] & _ & Hd & Ht); congruence] |].
      split; reflexivity. }
  cbn [fst snd].
  assert (Hframe : forall h, h <> sha256_hex (String c s) ->
            match update_fault f with
            | Some _ => db
            | None => <[sha256_hex (String c s) := <["last_used" := server_time]> key_data]> db
            end !! h = db !! h).
  { intros h Hh. destruct (update_fault f); [reflexivity |].
    apply lookup_insert_ne. congruence. }
  split.
  - intros c' s' [= <- <-]. cbn zeta.
    split; [discriminate |]. split; [intros _ Hd; congruence |].
    split; [intros data _ Hd Ht; congruence |].
    split.
    { intros data _ Hd _. assert (data = key_data) by congruence. subst data.
      split; [reflexivity |].
      split; [intros ->; reflexivity | intros [e ->]; reflexivity]. }
    split; [exact Hframe |].
    intros field Hne. destruct (update_fault f); [reflexivity |].
    rewrite lookup_insert_eq, Hdb. cbn. apply lookup_insert_ne. congruence.
  - split.
    { intros data. split.
      - intros [= <-]. exists c, s. auto.
      - intros (c' & s' & [= <- <-] & _ & Hd & _). congruence. }
    split; [reflexivity |].
    intros h. destruct (decide (h = sha256_hex (String c s))) as [-> | Hh].
    + destruct (update_fault f); [reflexivity |].
      rewrite lookup_insert_eq, Hdb. split; eauto.
    + rewrite (Hframe h Hh). reflexivity.
Qed.

(** A known key whose [last_used] update fails is still accepted, and
    the store is left as it was. *)
Lemma api_key_outcomes_witness :
  let db : gmap string (gmap string json) :=
    {["digest-of-key" := {["owner" := JStr "lab"]}]} in
  validate_api_key (fun _ => "digest-of-key") db
    {| read_fault := None; update_fault := Some (OtherException "deadline") |}
    (JInt 1793750400000000) (Some "key")
  = (db, KeyData {["owner" := JStr "lab"]}).
Proof.
  intros db.
  destruct (api_key_outcomes (fun _ => "digest-of-key") db
              {| read_fault := None; update_fault := Some (OtherException "deadline") |}
              (JInt 1793750400000000) (Some "key"))
    as (_ & H & _).
  destruct (H "k"%char "ey" eq_refl) as (_ & _ & _ & Hok & _).
  destruct (Hok {["owner" := JStr "lab"]}) as (Hdata & _ & Hstore).
  - reflexivity.
  - apply lookup_singleton_eq.
  - reflexivity.
  - rewrite (surjective_pairing (validate_api_key _ _ _ _ _)).
    rewrite Hdata, Hstore; [reflexivity |]. eexists. reflexivity.
Defined.

End PaymentProps.

(** ** The volume ledger across calls *)

Module LedgerProps.
Import Pricing VolumeTracker LedgerRuns Ledger.

Lemma Qplus_0_l_eq (a : Q) : (0 + a)%Q = a.
Proof.
  destruct a as [n d]. unfold Qplus. cbn [Qnum Qden].
  f_equal. lia.
Qed.

Lemma sum_records_cons e l :
  sum_records (e :: l) = default 0 (ev_records e) + sum_records l.
Proof.
  unfold sum_records at 1. cbn [fold_left]. rewrite sum_records_from. lia.
Qed.

Lemma standard_tier pnow :
  label (get_volume_price pnow 0) = "Standard"
  /\ discount (get_volume_price pnow 0) = "0%"
  /\ enterprise_outreach (get_volume_price pnow 0) = None
  /\ spend_30d (get_volume_price pnow 0) = None.
Proof.
  unfold get_volume_price, VOLUME_TIERS. cbn [scan_tiers vt_min Z.geb Z.compare].
  unfold tier_result. destruct (is_genesis_epoch pnow); cbn; auto.
Qed.

(** Every purchase that reaches the write, be it the first of the wallet
    or a later one, leaves a document whose totals are the sums over its
    event list (the spend rounded to cents), whose last event is the
    purchase, and whose events are all inside the window; the documents of
    other wallets are not touched. *)
Theorem ledger_document_consistent
    (store : gmap string ledger_doc) (now pnow : Z) (wallet_address : string)
    (records : Z) (amount_usd : Q) (endpoint : string) :
  wallet_address <> "" ->
  let out := record_purchase (Some store) no_faults now pnow wallet_address
               records amount_usd endpoint in
  exists doc events,
    fst out = Some (<[wallet_address := doc]> store)
    /\ ld_wallet_address doc = wallet_address
    /\ ld_last_updated doc = now
    /\ ld_events doc = Some (events ++ [new_event now records amount_usd endpoint])
    /\ ld_records_30d doc
       = Some (sum_records (events ++ [new_event now records amount_usd endpoint]))
    /\ ld_spend_30d doc
       = py_round_n (sum_spend (events ++ [new_event now records amount_usd endpoint])) 2
    /\ (forall e ts, In e events -> ev_timestamp e = Some ts ->
          now - timedelta_days WINDOW_DAYS < ts)
    /\ (store !! wallet_address = None -> events = [])
    /\ (forall other, other <> wallet_address ->
          <[wallet_address := doc]> store !! other = store !! other).
Proof.
  intros Hw. cbn zeta.
  rewrite (record_purchase_ok store now pnow wallet_address records amount_usd
             endpoint Hw).
  cbn zeta. cbn [fst].
  destruct (store !! wallet_address) as [data |] eqn:Hdoc.
  - exists (written_doc (Some data) wallet_address now records amount_usd endpoint),
      (prune now (now - timedelta_days WINDOW_DAYS) (default [] (ld_events data))).
    unfold written_doc, totals, next_events.
    cbn [ld_wallet_address ld_last_updated ld_events ld_records_30d ld_spend_30d].
    repeat (split; [reflexivity |]).
    split.
    { intros e ts Hin Hts. unfold prune in Hin. apply List.filter_In in Hin.
      destruct Hin as [_ Hin].
      apply (proj1 (in_window_spec now e) Hin ts Hts). }
    split; [discriminate |].
    intros other Hne. apply lookup_insert_ne. congruence.
  - exists (written_doc None wallet_address now records amount_usd endpoint), [].
    unfold written_doc, totals, next_events.
    cbn [ld_wallet_address ld_last_updated ld_events ld_records_30d ld_spend_30d app].
    split; [reflexivity |]. split; [reflexivity |]. split; [reflexivity |].
    split; [reflexivity |].
    split; [unfold sum_records; cbn; reflexivity |].
    split; [unfold sum_spend; cbn; rewrite Qplus_0_l_eq; reflexivity |].
    split; [intros e ts [] |]. split; [reflexivity |].
    intros other Hne. apply lookup_insert_ne. congruence.
Qed.

Lemma ledger_document_consistent_witness :
  exists doc,
    fst (record_purchase (Some ∅) no_faults 1793750400000000 1793750400000000
           "0xA1" 40 8 "oracle")
    = Some (<["0xA1" := doc]> ∅)
    /\ ld_events doc = Some [new_event 1793750400000000 40 8 "oracle"]
    /\ ld_records_30d doc = Some 40.
Proof.
  destruct (ledger_document_consistent ∅ 1793750400000000 1793750400000000
              "0xA1" 40 8 "oracle")
    as (doc & events & H1 & _ & _ & H2 & H3 & _ & _ & Hnil & _); [discriminate |].
  rewrite (Hnil eq_refl) in H2, H3.
  exists doc. split; [exact H1 |]. split; [exact H2 | exact H3].
Defined.

(** When the tracker has no store, the wallet is empty, or the store
    raises on the read or on the write, [record_purchase] writes nothing and
    returns the standard tier, without a spend total or an outreach flag. *)
Theorem ledger_failure_is_standard_tier
    (db : option (gmap string ledger_doc)) (f : faults) (now pnow : Z)
    (wallet_address : string) (records : Z) (amount_usd : Q) (endpoint : string) :
  db = None \/ wallet_address = "" \/ is_Some (get_fault f) \/ is_Some (set_fault f) ->
  let out := record_purchase db f now pnow wallet_address records amount_usd endpoint in
  fst out = db
  /\ snd out = get_volume_price pnow 0
  /\ label (snd out) = "Standard"
  /\ enterprise_outreach (snd out) = None
  /\ spend_30d (snd out) = None.
Proof.
  intros H. cbn zeta.
  assert (E : record_purchase db f now pnow wallet_address records amount_usd endpoint
              = (db, get_volume_price pnow 0)).
  { unfold record_purchase. destruct db as [store |]; [| reflexivity].
    destruct (String.eqb_spec wallet_address "") as [_ | Hne]; [reflexivity |].
    destruct H as [H | [H | [[e He] | [e He]]]]; [discriminate | congruence | |].
    - rewrite He. reflexivity.
    - rewrite He. destruct (get_fault f); reflexivity. }
  rewrite E. cbn [fst snd]. destruct (standard_tier pnow) as (Hl & _ & Ho & Hs).
  auto.
Qed.

Lemma ledger_failure_is_standard_tier_witness :
  fst (record_purchase (Some ∅)
         {| get_fault := None; set_fault := Some (OtherException "deadline") |}
         1793750400000000 1793750400000000 "0xA1" 5000 1000 "oracle")
  = Some ∅.
Proof.
  destruct (ledger_failure_is_standard_tier (Some ∅)
              {| get_fault := None; set_fault := Some (OtherException "deadline") |}
              1793750400000000 1793750400000000 "0xA1" 5000 1000 "oracle")
    as (H & _).
  - right. right. right. eexists. reflexivity.
  - exact H.
Defined.



Lemma prune_keeps_all now events :
  Forall (fun e => forall ts, ev_timestamp e = Some ts ->
                              now - timedelta_days WINDOW_DAYS < ts) events ->
  prune now (now - timedelta_days WINDOW_DAYS) events = events.
Proof.
  induction events as [| e events IH]; intros H; [reflexivity |].
  inversion H as [| ? ? He Hrest]; subst.
  unfold prune. cbn [List.filter].
  rewrite (proj2 (in_window_spec now e) He).
  f_equal. apply IH. exact Hrest.
Qed.

(** Later purchases of a wallet whose clock readings stay within thirty
    days above [lo], on a document whose events are not older than [lo]:
    every purchase is appended and nothing is pruned. *)
Lemma purchase_seq_appends pnow wallet_address lo ps : forall store data events,
  wallet_address <> "" ->
  store !! wallet_address = Some data ->
  ld_events data = Some events ->
  Forall (fun e => forall ts, ev_timestamp e = Some ts -> lo <= ts) events ->
  Forall (fun p => lo <= p_now p < lo + timedelta_days WINDOW_DAYS) ps ->
  exists doc,
    purchase_seq (Some store) pnow wallet_address ps
    = Some (<[wallet_address := doc]> store)
    /\ ld_events doc = Some (events ++ map event_of ps)
    /\ (ps <> [] -> ld_records_30d doc = Some (sum_records (events ++ map event_of ps)))
    /\ (forall fs, ld_first_seen data = Some fs -> ld_first_seen doc = Some fs).
Proof.
  induction ps as [| p rest IH]; intros store data events Hw Hdoc Hev Hold Hps.
  - exists data. cbn [purchase_seq map]. rewrite app_nil_r, insert_id by exact Hdoc.
    split; [reflexivity |]. split; [exact Hev |]. split; [congruence | auto].
  - inversion Hps as [| ? ? Hp Hrest]; subst. cbn [purchase_seq].
    rewrite (record_purchase_ok store (p_now p) pnow wallet_address (p_records p)
               (p_amount_usd p) (p_endpoint p) Hw).
    cbn zeta. cbn [fst]. rewrite Hdoc.
    set (data1 := written_doc (Some data) wallet_address (p_now p) (p_records p)
                    (p_amount_usd p) (p_endpoint p)).
    assert (Hkeep : prune (p_now p) (p_now p - timedelta_days WINDOW_DAYS) events
                    = events).
    { apply prune_keeps_all. rewrite Forall_forall in Hold |- *.
      intros e He ts Hts. specialize (Hold e He ts Hts). lia. }
    assert (Hev1 : ld_events data1 = Some (events ++ [event_of p])).
    { unfold data1, written_doc, totals, next_events. cbn [ld_events].
      rewrite Hev. cbn [default from_option id]. rewrite Hkeep. reflexivity. }
    destruct (IH (<[wallet_address := data1]> store) data1 (events ++ [event_of p]))
      as (doc & Hrun & Hevs & Hrec & Hfs).
    + exact Hw.
    + apply lookup_insert_eq.
    + exact Hev1.
    + apply Forall_app. split; [exact Hold |].
      constructor; [| constructor]. intros ts [= <-]. lia.
    + exact Hrest.
    + exists doc. rewrite Hrun, insert_insert_eq.
      split; [reflexivity |].
      cbn [map]. rewrite <- app_assoc in Hevs. cbn [app] in Hevs.
      split; [exact Hevs |].
      split.
      * intros _. destruct rest as [| p' rest'].
        -- cbn [purchase_seq] in Hrun.
           assert (doc = data1).
           { injection Hrun as Hrun.
             apply (f_equal (fun m : gmap string ledger_doc => m !! wallet_address))
               in Hrun.
             rewrite !lookup_insert_eq in Hrun. congruence. }
           subst doc. unfold data1, written_doc, totals, next_events.
           cbn [ld_records_30d]. rewrite Hev. cbn [default from_option id map].
           rewrite Hkeep. reflexivity.
        -- rewrite <- app_assoc in Hrec. cbn [app] in Hrec. apply Hrec. discriminate.
      * intros fs Hdata. apply Hfs. unfold data1, written_doc.
        destruct (totals _ _ _ _ _). cbn [ld_first_seen].
        rewrite Hdata. reflexivity.
Qed.

(** Purchases of a new wallet whose clock readings all lie within one
    span of less than thirty days accumulate: after them the document holds
    one event per purchase, in order, the record total is the sum over all
    of them, and [first_seen] is the time of the first purchase. *)
Theorem purchases_within_window_accumulate
    (store : gmap string ledger_doc) (pnow : Z) (wallet_address : string)
    (lo : Z) (p : purchase) (rest : list purchase) :
  wallet_address <> "" ->
  store !! wallet_address = None ->
  Forall (fun q => lo <= p_now q < lo + timedelta_days WINDOW_DAYS) (p :: rest) ->
  exists doc,
    purchase_seq (Some store) pnow wallet_address (p :: rest)
    = Some (<[wallet_address := doc]> store)
    /\ ld_events doc = Some (map event_of (p :: rest))
    /\ ld_records_30d doc = Some (sum_records (map event_of (p :: rest)))
    /\ sum_records (map event_of (p :: rest))
       = fold_right (fun q acc => p_records q + acc) 0 (p :: rest)
    /\ ld_first_seen doc = Some (p_now p).
Proof.
  intros Hw Hnone Hps. inversion Hps as [| ? ? Hp Hrest]; subst.
  cbn [purchase_seq].
  rewrite (record_purchase_ok store (p_now p) pnow wallet_address (p_records p)
             (p_amount_usd p) (p_endpoint p) Hw).
  cbn zeta. cbn [fst]. rewrite Hnone.
  set (data1 := written_doc None wallet_address (p_now p) (p_records p)
                  (p_amount_usd p) (p_endpoint p)).
  destruct (purchase_seq_appends pnow wallet_address lo rest
              (<[wallet_address := data1]> store) data1 [event_of p])
    as (doc & Hrun & Hevs & Hrec & Hfs).
  - exact Hw.
  - apply lookup_insert_eq.
  - reflexivity.
  - constructor; [| constructor]. intros ts [= <-]. lia.
  - exact Hrest.
  - exists doc. rewrite Hrun, insert_insert_eq.
    split; [reflexivity |]. split; [exact Hevs |].
    split.
    + destruct rest as [| p' rest'].
      * cbn [purchase_seq] in Hrun.
        assert (doc = data1).
        { injection Hrun as Hrun.
          apply (f_equal (fun m : gmap string ledger_doc => m !! wallet_address))
            in Hrun.
          rewrite !lookup_insert_eq in Hrun. congruence. }
        subst doc. unfold data1, written_doc, totals. cbn [ld_records_30d map].
        unfold sum_records. cbn. reflexivity.
      * apply Hrec. discriminate.
    + split.
      * generalize (p :: rest). intros l. induction l as [| q l IHl]; [reflexivity |].
        cbn [map fold_right]. rewrite sum_records_cons, IHl. reflexivity.
      * apply Hfs. reflexivity.
Qed.

(** Three purchases of forty records within a day, then one of two
    thousand: 2120 records in the window. *)
Lemma purchases_within_window_accumulate_witness :
  let t := 1793750400000000 in
  let buy n k := {| p_now := t + k * 3600000000; p_records := n;
                    p_amount_usd := 8; p_endpoint := "oracle" |} in
  exists doc,
    purchase_seq (Some ∅) t "0xA1" [buy 40 0; buy 40 1; buy 40 2; buy 2000 3]
    = Some (<["0xA1" := doc]> ∅)
    /\ ld_records_30d doc = Some 2120
    /\ ld_first_seen doc = Some t.
Proof.
  intros t buy.
  destruct (purchases_within_window_accumulate ∅ t "0xA1" t (buy 40 0)
              [buy 40 1; buy 40 2; buy 2000 3])
    as (doc & H1 & _ & H2 & H3 & H4).
  - discriminate.
  - reflexivity.
  - repeat constructor; cbn; unfold timedelta_days, WINDOW_DAYS, day_usec, usec, t; lia.
  - exists doc. split; [exact H1 |]. split; [| exact H4].
    rewrite H2, H3. reflexivity.
Defined.

End LedgerProps.

(** ** The callers in the routes *)

Module RoutesProps.
Import Pricing PriceTable X402 Auth Routes PaymentVerification.

(** What the service advertises is what it settles. The payment-required
    payloads of [routes/agent.py] and of [routes/reader.py] accept exactly
    one set of requirements, and for the same settings and amount it is the
    set that every settle request of [verify_x402_payment] carries: scheme,
    network, asset, amount in the smallest unit, recipient, timeout and
    signing domain. The agent payload names a resource only for a URL that
    is not empty, and a description only together with a resource. *)
Theorem advertised_requirements_are_settled
    (w : world) (cfg : config) (payment_header : string) (amount : Q)
    (resource_url description : string) :
  pl_accepts (agent_x402_payload cfg amount resource_url description)
  = [build_requirements cfg amount]
  /\ pl_accepts (reader_x402_payload cfg amount) = [build_requirements cfg amount]
  /\ (forall req, In req (snd (verify_x402_payment w cfg payment_header amount)) ->
        [paymentRequirements (req_json req)]
        = pl_accepts (agent_x402_payload cfg amount resource_url description))
  /\ (pl_resource (agent_x402_payload cfg amount resource_url description) = None
      <-> resource_url = "")
  /\ (forall r d,
        pl_resource (agent_x402_payload cfg amount resource_url description) = Some r ->
        res_description r = Some d ->
        d = description /\ d <> "" /\ res_url r = resource_url).
Proof.
  split; [reflexivity |]. split; [reflexivity |].
  split.
  { intros req. unfold verify_x402_payment.
    destruct (String.eqb payment_header ""); [intros [] |].
    destruct (X402_TEST_MODE cfg); [intros [] |].
    destruct (decode_header w payment_header) as [payload |]; [| intros []].
    unfold settle_attempt.
    destruct (read_version payload); [| intros []].
    destruct (build_headers w cfg); [| intros []].
    cbn [snd]. intros [<- | []]. reflexivity. }
  unfold agent_x402_payload. cbn [pl_resource].
  destruct (String.eqb_spec resource_url "") as [-> | Hne]; cbn [negb].
  - split; [split; reflexivity |]. discriminate.
  - split; [split; [discriminate | congruence] |].
    intros r d [= <-]. cbn [res_description res_url].
    destruct (String.eqb_spec description "") as [-> | Hd]; cbn [negb];
      [discriminate |].
    intros [= <-]. auto.
Qed.

(** [_require_payment] returns only valid results settled for the
    amount. Otherwise it raises 402, and the payload of its
    [PAYMENT-REQUIRED] header accepts exactly the requirements of the
    settle requests; without a payment header, or with an empty one, it
    raises without any call to the facilitator. *)
Theorem require_payment_outcomes
    (w : world) (encode : x402_payload -> string) (cfg : config) (now : Z)
    (x_payment : option string) (amount : Q) (description : string) :
  let out := _require_payment w encode cfg now x_payment amount description in
  (forall res, fst out = inl res -> valid res = true /\ amount_usd res = amount)
  /\ (forall e, fst out = inr e ->
        pr_status e = 402
        /\ hd_error (pr_headers e)
           = Some ("PAYMENT-REQUIRED",
                   encode (agent_x402_payload cfg amount "" description))
        /\ pl_accepts (agent_x402_payload cfg amount "" description)
           = [build_requirements cfg amount]
        /\ b_recipient (pr_detail e) = BASE_WALLET_ADDRESS cfg)
  /\ (x_payment = None \/ x_payment = Some "" ->
      snd out = [] /\ exists e, fst out = inr e).
Proof.
  cbn zeta. unfold _require_payment.
  split.
  { intros res.
    pose proof (PaymentProps.valid_result_amount w cfg
                  (first_nonempty x_payment None) amount) as Hv.
    destruct (verify_x402_payment w cfg _ _) as [result calls].
    cbn [fst] in *. destruct (valid result) eqn:E; cbn [negb fst]; [| discriminate].
    intros [= <-]. split; [exact E | apply Hv; reflexivity]. }
  split.
  { intros e. destruct (verify_x402_payment w cfg _ _) as [result calls].
    destruct (valid result); cbn [negb fst]; [discriminate |].
    intros [= <-]. cbn. auto. }
  intros [-> | ->]; cbn; (split; [reflexivity | eexists; reflexivity]).
Qed.

Lemma require_payment_outcomes_witness :
  let w := example_world (answers_200 (JStr "0xABCDEF")) in
  snd (_require_payment w (fun _ => "") default_config 1793750400000000
         None (5 # 100) "record") = [].
Proof.
  intros w.
  destruct (require_payment_outcomes w (fun _ => "") default_config
              1793750400000000 None (5 # 100) "record") as (_ & _ & H).
  apply H. left. reflexivity.
Defined.

(** The single-record prices that the routes quote are those of the
    tables, at any time: the Hybrid_Premium price is the per-record price of
    the standard volume tier and the delivery price of [hybrid_premium], the
    Human_Standard price is the per-image price of [curated_agent] and the
    delivery price of [human_standard], and an unknown delivery tier is
    priced as [hybrid_premium]. *)
Theorem quoted_prices_agree (now : Z) (tier : string) :
  (_current_hybrid_premium_price now == per_record (get_volume_price now 0))%Q
  /\ _delivery_price now "hybrid_premium" = _current_hybrid_premium_price now
  /\ _delivery_price now "human_standard" = _current_human_standard_price now
  /\ (exists info, calculate_price now "curated_agent" 1 = Priced info
                   /\ (pi_per_image info == _current_human_standard_price now)%Q)
  /\ (tier <> "human_standard" -> tier <> "hybrid_premium" ->
      _delivery_price now tier = _current_hybrid_premium_price now).
Proof.
  unfold _current_hybrid_premium_price, _current_human_standard_price,
    _delivery_price, get_volume_price, VOLUME_TIERS, calculate_price.
  cbn [scan_tiers vt_min Z.geb Z.compare tier_lookup PRICING_TIERS String.eqb
       Ascii.eqb Bool.eqb pt_min_quantity Z.ltb].
  unfold tier_result.
  split; [destruct (is_genesis_epoch now); reflexivity |].
  split; [destruct (is_genesis_epoch now); reflexivity |].
  split; [destruct (is_genesis_epoch now); reflexivity |].
  split.
  - eexists. split; [reflexivity |]. cbn. destruct (is_genesis_epoch now); reflexivity.
  - intros H1 H2. unfold DELIVERY_TIER_PRICES.
    rewrite !lookup_insert_ne by congruence. rewrite lookup_empty.
    destruct (is_genesis_epoch now); reflexivity.
Qed.

End RoutesProps.
